(** * UniProt to InterProScan pipeline: a shallow embedding

    The development follows [src/extract_interpro_data.py].  Every method of
    [InterProScanPipeline] is a function in a small monad that threads the
    state of the outside world (the two HTTP services, the clock, the disk)
    and collects, in program order, the calls a worker makes on it and on the
    shared statistics object.  The statistics object itself, its lock and the
    thread pool are modelled in [Module Locking] as an interleaving machine. *)

From Stdlib Require Import ZArith Lia String Ascii DecimalString.
From stdpp Require Import base list strings gmap relations sorting.

Set Warnings "-register-all".
Local Open Scope string_scope.
Local Open Scope list_scope.

(** ** The Python string operations the script relies on *)

Module Py.

(** [str.isspace] on the ASCII range: TAB..CR, FS..US and the blank. *)
Definition is_space (c : ascii) : bool :=
  let n := nat_of_ascii c in
  ((9 <=? n)%nat && (n <=? 13)%nat) || ((28 <=? n)%nat && (n <=? 32)%nat).

Fixpoint lstrip (s : string) : string :=
  match s with
  | EmptyString => EmptyString
  | String c s' => if is_space c then lstrip s' else s
  end.

Fixpoint rstrip (s : string) : string :=
  match s with
  | EmptyString => EmptyString
  | String c s' =>
      match rstrip s' with
      | EmptyString => if is_space c then EmptyString else String c EmptyString
      | r => String c r
      end
  end.

(** [s.strip()] *)
Definition strip (s : string) : string := lstrip (rstrip s).

(** [s.split(sep)] for a one-character separator; never the empty list. *)
Fixpoint split (sep : ascii) (s : string) : list string :=
  match s with
  | EmptyString => [EmptyString]
  | String c s' =>
      if Ascii.eqb c sep then EmptyString :: split sep s'
      else match split sep s' with
           | [] => [String c EmptyString]
           | w :: ws => String c w :: ws
           end
  end.

(** [''.join(l)] *)
Definition join (l : list string) : string := String.concat "" l.

(** [s[1:]] *)
Definition tail (s : string) : string :=
  match s with
  | EmptyString => EmptyString
  | String _ s' => s'
  end.

(** [s[i:j]] for [0 <= i <= j] *)
Definition slice (s : string) (i j : nat) : string := substring i (j - i) s.

(** [c in s] for a character [c] *)
Fixpoint contains (c : ascii) (s : string) : bool :=
  match s with
  | EmptyString => false
  | String d s' => Ascii.eqb c d || contains c s'
  end.

(** [s.startswith(p)] *)
Fixpoint startswith (p s : string) : bool :=
  match p with
  | EmptyString => true
  | String a p' =>
      match s with
      | EmptyString => false
      | String b s' => Ascii.eqb a b && startswith p' s'
      end
  end.

(** [range(0, stop, step)] for a positive [step] *)
Definition range0 (stop step : nat) : list nat :=
  (fun k => k * step)%nat <$> seq 0 ((stop + step - 1) / step)%nat.

(** [str(n)] for an integer, as used by the f-strings *)
Definition str (n : Z) : string := NilZero.string_of_int (Z.to_int n).

(** The strings of one character: the line feed and the double quote *)
Definition newline : string := String "010" EmptyString.
Definition dquote : string := String "034" EmptyString.

(** [bool(s)] for a string *)
Definition truthy_str (s : string) : bool :=
  match s with EmptyString => false | _ => true end.

(** [f.readlines()] on the text of a file opened in text mode, where every
    line end reads as the line feed: the lines, each with its line feed, the
    last one without when the text does not end in one. *)
Fixpoint readlines (s : string) : list string :=
  match s with
  | EmptyString => []
  | String c s' =>
      if Ascii.eqb c "010" then newline :: readlines s'
      else match readlines s' with
           | [] => [String c EmptyString]
           | l :: ls => String c l :: ls
           end
  end.

End Py.

(** ** Data *)

(** A decoded JSON document, as [response.json()] returns it. *)
Inductive Json : Type :=
| JNull
| JBool (b : bool)
| JInt (n : Z)
| JFloat (mantissa exponent : Z)
| JStr (s : string)
| JArr (items : list Json)
| JObj (members : list (string * Json)).

(** [bool(x)] on a decoded JSON value: [None], [False], zero and the empty
    string, list and dict are false. *)
Definition truthy (j : Json) : bool :=
  match j with
  | JNull => false
  | JBool b => b
  | JInt n => negb (n =? 0)%Z
  | JFloat m _ => negb (m =? 0)%Z
  | JStr s => Py.truthy_str s
  | JArr items => match items with [] => false | _ => true end
  | JObj members => match members with [] => false | _ => true end
  end.

(** [bool(x)] on an [Optional[Dict]] *)
Definition truthy_opt (r : option Json) : bool :=
  match r with
  | None => false
  | Some j => truthy j
  end.

(** [bool(x)] on an [Optional[str]] *)
Definition truthy_opt_str (r : option string) : bool :=
  match r with
  | None => false
  | Some s => Py.truthy_str s
  end.

(** What the script reads of a [requests.Response]: the status code, the body
    text and the outcome of [.json()] ([None] when decoding raises). *)
Record Response : Type := mkResponse {
  status_code : Z;
  text : string;
  json : option Json
}.

(** The outcome of a library call that may raise; [Raises e] carries [str(e)]. *)
Inductive Outcome (A : Type) : Type :=
| Returns (a : A)
| Raises (e : string).
Arguments Returns {A} a.
Arguments Raises {A} e.

(** The keys of [self.stats] that hold a counter. *)
Inductive StatName : Type :=
| total
| sequences_fetched
| interproscan_submitted
| interproscan_completed
| failed.

Global Instance StatName_eq_dec : EqDecision StatName.
Proof. solve_decision. Defined.

(** [self.stats] *)
Record Stats : Type := mkStats {
  counter : StatName -> nat;
  errors : list string
}.

(** The dict built by [__init__]. *)
Definition initial_stats : Stats :=
  {| counter := fun _ => 0%nat; errors := [] |}.

(** [self.stats[k] = v] *)
Definition set_counter (k : StatName) (v : nat) (s : Stats) : Stats :=
  {| counter := fun k' => if decide (k' = k) then v else counter s k';
     errors := errors s |}.

(** [self.stats['errors'].append(msg)] *)
Definition append_error (msg : string) (s : Stats) : Stats :=
  {| counter := counter s; errors := errors s ++ [msg] |}.

(** A call on the shared statistics object. *)
Inductive StatOp : Type :=
| IncrementStat (k : StatName)
| AddError (msg : string).

Global Instance StatOp_eq_dec : EqDecision StatOp.
Proof. solve_decision. Defined.

(** The body of the [with self.lock:] block of [increment_stat] and
    [add_error], run without interruption. *)
Definition apply_op (op : StatOp) (s : Stats) : Stats :=
  match op with
  | IncrementStat k => set_counter k (S (counter s k)) s
  | AddError msg => append_error msg s
  end.

Definition apply_ops (ops : list StatOp) (s : Stats) : Stats :=
  foldl (fun acc op => apply_op op acc) s ops.

(** What a worker does to the outside world and to the statistics object. *)
Inductive Event : Type :=
| EvGet (url : string) (r : Outcome Response)
| EvPost (url : string) (data : list (string * option string)) (r : Outcome Response)
| EvTime (t : Z)
| EvSleep (secs : Z)
| EvOpen (path : string) (r : Outcome unit)
| EvWrite (path : string) (chunk : string) (r : Outcome unit)
| EvStat (op : StatOp).

(** The calls on the statistics object within a trace, in order. *)
Definition stat_ops (log : list Event) : list StatOp :=
  omap (fun e => match e with EvStat op => Some op | _ => None end) log.

(** The trace of [with open(path, 'w') as f:] and its writes when none of
    them raises. *)
Definition written (path : string) (chunks : list string) : list Event :=
  EvOpen path (Returns tt) :: ((fun c => EvWrite path c (Returns tt)) <$> chunks).

(** The pipeline object: [self.output_dir] and [self.email]. *)
Record Pipeline : Type := mkPipeline {
  output_dir : string;
  email : option string
}.

Definition uniprot_base_url : string := "https://rest.uniprot.org/uniprotkb/".
Definition interproscan_base_url : string :=
  "https://www.ebi.ac.uk/Tools/services/rest/iprscan5".

(** ** The outside world *)

(** The library calls of the script, as transitions of a world state [W]:
    [requests.get], [requests.post], [time.time], [time.sleep], [open(p, 'w')]
    and [f.write]; [json_dumps] is the text [json.dump(_, f, indent=2)]
    produces, a function of the document alone.  Times are in seconds and
    taken as integers: the script only subtracts and compares them.  Nothing
    is assumed of the world here; [ClockLaws] below states what the
    termination of the polling loop needs. *)
Class External (W : Type) : Type := {
  requests_get : string -> W -> Outcome Response * W;
  requests_post : string -> list (string * option string) -> W -> Outcome Response * W;
  time_time : W -> Z * W;
  time_sleep : Z -> W -> W;
  file_open_w : string -> W -> Outcome unit * W;
  file_write : string -> string -> W -> Outcome unit * W;
  json_dumps : Json -> string
}.

(** Time never runs backwards and a sleep lasts at least as long as asked;
    [now w] is the true time in state [w] and a reading of the clock lies
    between the times before and after the reading. *)
Record ClockLaws {W : Type} `{External W} (now : W -> Z) : Prop := {
  get_mono : forall url w, (now w <= now (requests_get url w).2)%Z;
  post_mono : forall url d w, (now w <= now (requests_post url d w).2)%Z;
  open_mono : forall p w, (now w <= now (file_open_w p w).2)%Z;
  write_mono : forall p c w, (now w <= now (file_write p c w).2)%Z;
  time_reading : forall w,
    (now w <= (time_time w).1 /\ (time_time w).1 <= now (time_time w).2)%Z;
  sleep_lasts : forall d w, (now w + d <= now (time_sleep d w))%Z
}.

(** ** The worker monad *)

Section Pipeline.

Context {W : Type} `{External W}.

(** A computation reads and changes the world, reports the events it caused
    and returns a value; [None] is a run cut off by the iteration budget of
    the polling loop. *)
Definition M (A : Type) : Type := W -> option (A * list Event * W).

Definition ret {A : Type} (a : A) : M A := fun w => Some (a, [], w).

Definition bind {A B : Type} (m : M A) (f : A -> M B) : M B :=
  fun w =>
    match m w with
    | None => None
    | Some (a, l1, w1) =>
        match f a w1 with
        | None => None
        | Some (b, l2, w2) => Some (b, l1 ++ l2, w2)
        end
    end.

Definition out_of_fuel {A : Type} : M A := fun _ => None.

Notation "x <- c1 ;; c2" := (bind c1 (fun x => c2))
  (at level 100, c1 at next level, right associativity).
Notation "c1 ;;; c2" := (bind c1 (fun _ => c2))
  (at level 100, right associativity).

Definition http_get (url : string) : M (Outcome Response) :=
  fun w => let '(r, w') := requests_get url w in Some (r, [EvGet url r], w').

Definition http_post (url : string) (data : list (string * option string))
  : M (Outcome Response) :=
  fun w => let '(r, w') := requests_post url data w in Some (r, [EvPost url data r], w').

Definition clock : M Z :=
  fun w => let '(t, w') := time_time w in Some (t, [EvTime t], w').

Definition sleep (secs : Z) : M unit :=
  fun w => Some (tt, [EvSleep secs], time_sleep secs w).

Definition fopen (path : string) : M (Outcome unit) :=
  fun w => let '(r, w') := file_open_w path w in Some (r, [EvOpen path r], w').

Definition fwrite (path chunk : string) : M (Outcome unit) :=
  fun w => let '(r, w') := file_write path chunk w in Some (r, [EvWrite path chunk r], w').

(** [self.add_error(msg)] and [self.increment_stat(k)]: one call each on the
    shared statistics.  What the call does to them is [apply_op]; how it runs
    under [self.lock] beside the calls of other threads is
    [Locking.thread_step]. *)
Definition add_error (msg : string) : M unit :=
  fun w => Some (tt, [EvStat (AddError msg)], w).

Definition increment_stat (k : StatName) : M unit :=
  fun w => Some (tt, [EvStat (IncrementStat k)], w).

(** ** The methods of [InterProScanPipeline] *)

Definition fetch_uniprot_sequence (uniprot_id : string) : M (option (string * string)) :=
  r <- http_get (uniprot_base_url +:+ uniprot_id +:+ ".fasta") ;;
  match r with
  | Returns response =>
      if (status_code response =? 200)%Z then
        let fasta_content := Py.strip (text response) in
        let lines := Py.split "010" fasta_content in
        if (2 <=? length lines)%nat then
          let description := Py.tail (hd "" lines) in
          let sequence := Py.join (tl lines) in
          increment_stat sequences_fetched ;;;
          ret (Some (sequence, description))
        else
          add_error (uniprot_id +:+ ": Invalid FASTA format") ;;;
          ret None
      else
        add_error (uniprot_id +:+ ": UniProt fetch failed - HTTP "
                     +:+ Py.str (status_code response)) ;;;
        ret None
  | Raises e =>
      add_error (uniprot_id +:+ ": UniProt fetch error - " +:+ e) ;;;
      ret None
  end.

Definition submit_to_interproscan (self : Pipeline) (uniprot_id sequence : string)
  : M (option string) :=
  let params :=
    [("email", email self); ("sequence", Some sequence); ("format", Some "json");
     ("goterms", Some "true"); ("pathways", Some "true")] in
  r <- http_post (interproscan_base_url +:+ "/run") params ;;
  match r with
  | Returns response =>
      if (status_code response =? 200)%Z then
        let job_id := Py.strip (text response) in
        increment_stat interproscan_submitted ;;;
        ret (Some job_id)
      else
        add_error (uniprot_id +:+ ": InterProScan submission failed - HTTP "
                     +:+ Py.str (status_code response)) ;;;
        ret None
  | Raises e =>
      add_error (uniprot_id +:+ ": InterProScan submission error - " +:+ e) ;;;
      ret None
  end.

Definition check_job_status (job_id : string) : M string :=
  r <- http_get (interproscan_base_url +:+ "/status/" +:+ job_id) ;;
  match r with
  | Returns response =>
      if (status_code response =? 200)%Z then ret (Py.strip (text response))
      else ret "ERROR"
  | Raises _ => ret "ERROR"
  end.

Definition get_interproscan_results (job_id : string) : M (option Json) :=
  r <- http_get (interproscan_base_url +:+ "/result/" +:+ job_id +:+ "/json") ;;
  match r with
  | Returns response =>
      if (status_code response =? 200)%Z then ret (json response)
      else ret None
  | Raises _ => ret None
  end.

Definition check_interval : Z := 30.

(** The [while] loop of [wait_for_completion]; [fuel] bounds the number of
    times its body may run. *)
Fixpoint wait_loop (fuel : nat) (job_id uniprot_id : string) (max_wait start_time : Z)
  : M (option Json) :=
  t <- clock ;;
  if (t - start_time <? max_wait)%Z then
    match fuel with
    | O => out_of_fuel
    | S fuel' =>
        status <- check_job_status job_id ;;
        if (status =? "FINISHED")%string then
          results <- get_interproscan_results job_id ;;
          if truthy_opt results then
            increment_stat interproscan_completed ;;;
            ret results
          else
            add_error (uniprot_id +:+ ": Failed to retrieve results") ;;;
            ret None
        else if (status =? "ERROR")%string || (status =? "FAILURE")%string then
          add_error (uniprot_id +:+ ": Job failed with status " +:+ status) ;;;
          ret None
        else if (status =? "RUNNING")%string then
          elapsed <- clock ;;
          sleep check_interval ;;;
          wait_loop fuel' job_id uniprot_id max_wait start_time
        else
          sleep check_interval ;;;
          wait_loop fuel' job_id uniprot_id max_wait start_time
    end
  else
    add_error (uniprot_id +:+ ": Timed out after " +:+ Py.str max_wait +:+ " seconds") ;;;
    ret None.

Definition wait_for_completion (fuel : nat) (job_id uniprot_id : string) (max_wait : Z)
  : M (option Json) :=
  start_time <- clock ;;
  wait_loop fuel job_id uniprot_id max_wait start_time.

(** [a / b] on paths, as the joining of two components. *)
Definition path_join (a b : string) : string := a +:+ "/" +:+ b.

Definition fasta_path (self : Pipeline) (uniprot_id : string) : string :=
  path_join (path_join (output_dir self) "sequences") (uniprot_id +:+ ".fasta").

Definition json_path (self : Pipeline) (uniprot_id : string) : string :=
  path_join (path_join (output_dir self) "interproscan_results") (uniprot_id +:+ ".json").

(** What [save_results] writes into the FASTA file, one [f.write] each: the
    header, then the sequence in lines of 80 characters. *)
Definition fasta_chunks (description sequence : string) : list string :=
  (">" +:+ description +:+ Py.newline)
    :: ((fun i => Py.slice sequence i (i + 80) +:+ Py.newline)
          <$> Py.range0 (String.length sequence) 80).

(** The [f.write] calls on an open file, up to the first that raises. *)
Fixpoint write_all (path : string) (chunks : list string) : M (Outcome unit) :=
  match chunks with
  | [] => ret (Returns tt)
  | c :: cs =>
      r <- fwrite path c ;;
      match r with
      | Returns _ => write_all path cs
      | Raises e => ret (Raises e)
      end
  end.

(** [with open(path, 'w') as f:] followed by the writes of the block. *)
Definition write_file (path : string) (chunks : list string) : M (Outcome unit) :=
  r <- fopen path ;;
  match r with
  | Returns _ => write_all path chunks
  | Raises e => ret (Raises e)
  end.

Definition save_results (self : Pipeline) (uniprot_id sequence description : string)
    (results : Json) : M unit :=
  r1 <- write_file (fasta_path self uniprot_id) (fasta_chunks description sequence) ;;
  match r1 with
  | Returns _ =>
      r2 <- write_file (json_path self uniprot_id) [json_dumps results] ;;
      match r2 with
      | Returns _ => ret tt
      | Raises e => add_error (uniprot_id +:+ ": Save error - " +:+ e)
      end
  | Raises e => add_error (uniprot_id +:+ ": Save error - " +:+ e)
  end.

(** The trace of [save_results] when no file operation raises. *)
Definition saved (self : Pipeline) (uniprot_id sequence description : string)
    (results : Json) : list Event :=
  written (fasta_path self uniprot_id) (fasta_chunks description sequence)
    ++ written (json_path self uniprot_id) [json_dumps results].

(** The default of [wait_for_completion]'s [max_wait]. *)
Definition default_max_wait : Z := 3600.

Definition process_single_protein (self : Pipeline) (fuel : nat) (uniprot_id : string)
  : M bool :=
  sequence_data <- fetch_uniprot_sequence uniprot_id ;;
  match sequence_data with
  | None =>
      increment_stat failed ;;;
      ret false
  | Some (sequence, description) =>
      job_id <- submit_to_interproscan self uniprot_id sequence ;;
      if negb (truthy_opt_str job_id) then
        increment_stat failed ;;;
        ret false
      else
        results <- wait_for_completion fuel (default "" job_id) uniprot_id default_max_wait ;;
        match results with
        | Some r =>
            if negb (truthy r) then
              increment_stat failed ;;;
              ret false
            else
              save_results self uniprot_id sequence description r ;;;
              ret true
        | None =>
            increment_stat failed ;;;
            ret false
        end
  end.

End Pipeline.

(** ** The two texts the script reads *)

(** What [fetch_uniprot_sequence] makes of the body of an answer 200: the
    lines of the stripped text, the first without its first character as the
    description and the others joined as the sequence; [None] is its
    "Invalid FASTA format". *)
Definition parse_fasta (text : string) : option (string * string) :=
  let fasta_content := Py.strip text in
  let lines := Py.split "010" fasta_content in
  if (2 <=? length lines)%nat then Some (Py.join (tl lines), Py.tail (hd "" lines))
  else None.

(** [[line.strip() for line in lines if line.strip()]] *)
Definition stripped_lines (lines : list string) : list string :=
  Py.strip <$> List.filter (fun line => Py.truthy_str (Py.strip line)) lines.

(** [read_uniprot_ids]: [file] is the text of the input file, or what opening
    or reading it raised.  Both [except] branches print a message and call
    [sys.exit(1)], which is [inl 1]. *)
Definition read_uniprot_ids (file : Outcome string) : Z + list string :=
  match file with
  | Returns text => inr (stripped_lines (Py.readlines text))
  | Raises _ => inl 1%Z
  end.

(** ** Reading a trace *)

(** The status [check_job_status] makes of the outcome of its request. *)
Definition status_of_poll (r : Outcome Response) : string :=
  match r with
  | Returns response =>
      if (status_code response =? 200)%Z then Py.strip (text response) else "ERROR"
  | Raises _ => "ERROR"
  end.

Definition is_status_url (url : string) : bool :=
  Py.startswith (interproscan_base_url +:+ "/status/") url.

Definition is_result_url (url : string) : bool :=
  Py.startswith (interproscan_base_url +:+ "/result/") url.

(** The statuses a run has seen, in the order of its polls. *)
Definition observed_statuses (log : list Event) : list string :=
  omap (fun e => match e with
                 | EvGet url r => if is_status_url url then Some (status_of_poll r) else None
                 | _ => None
                 end) log.

(** What [get_interproscan_results] makes of the outcome of its request. *)
Definition result_of_retrieval (r : Outcome Response) : option Json :=
  match r with
  | Returns response => if (status_code response =? 200)%Z then json response else None
  | Raises _ => None
  end.

(** The results a run has retrieved, in order. *)
Definition retrieved (log : list Event) : list (option Json) :=
  omap (fun e => match e with
                 | EvGet url r => if is_result_url url then Some (result_of_retrieval r) else None
                 | _ => None
                 end) log.

(** The statuses on which the polling loop returns at once. *)
Definition is_terminal (status : string) : bool :=
  (status =? "FINISHED")%string || (status =? "ERROR")%string || (status =? "FAILURE")%string.

(** The statuses the polling loop has a branch for. *)
Definition is_recognized (status : string) : bool :=
  is_terminal status || (status =? "RUNNING")%string.

(** The pauses of a run, in order. *)
Definition sleeps (log : list Event) : list Z :=
  omap (fun e => match e with EvSleep d => Some d | _ => None end) log.

(** The readings of the clock, in order. *)
Definition clock_readings (log : list Event) : list Z :=
  omap (fun e => match e with EvTime t => Some t | _ => None end) log.

(** How often a given call on the statistics object occurs. *)
Definition occurrences (op : StatOp) (ops : list StatOp) : nat :=
  length (filter (fun o => o = op) ops).

(** Calls that touch none of [total], [interproscan_completed] and [failed]. *)
Definition outcome_free (ops : list StatOp) : Prop :=
  occurrences (IncrementStat interproscan_completed) ops = 0 /\
  occurrences (IncrementStat failed) ops = 0 /\
  occurrences (IncrementStat total) ops = 0.

(** The error messages appended by a list of calls. *)
Definition messages (ops : list StatOp) : list string :=
  omap (fun o => match o with AddError msg => Some msg | _ => None end) ops.

(** The four stages of [process_single_protein]. *)
Inductive Stage : Type := Fetch | Submit | Wait | Save.


(** The stage an outside call belongs to: a request to UniProt is the fetch,
    the POST is the submission, requests to the status and result endpoints,
    clock readings and pauses are the wait, file operations are the save. *)
Definition stage_of (e : Event) : option Stage :=
  match e with
  | EvGet url _ => if Py.startswith uniprot_base_url url then Some Fetch else Some Wait
  | EvPost _ _ _ => Some Submit
  | EvTime _ | EvSleep _ => Some Wait
  | EvOpen _ _ | EvWrite _ _ _ => Some Save
  | EvStat _ => None
  end.

Definition stages (log : list Event) : list Stage := omap stage_of log.

(** The files on disk, by path.  A successful [open(p, 'w')] truncates, a
    successful [f.write] appends; a call that raised leaves the file as it
    was. *)
Definition replay_event (disk : gmap string string) (e : Event) : gmap string string :=
  match e with
  | EvOpen p (Returns _) => <[p := ""]> disk
  | EvWrite p chunk (Returns _) =>
      match disk !! p with
      | Some old => <[p := old +:+ chunk]> disk
      | None => disk
      end
  | _ => disk
  end.

Definition replay (log : list Event) (disk : gmap string string) : gmap string string :=
  foldl replay_event disk log.

(** What a file operation raised, if it did, and the first exception of a
    trace. *)
Definition io_error (e : Event) : option string :=
  match e with
  | EvOpen _ (Raises msg) | EvWrite _ _ (Raises msg) => Some msg
  | _ => None
  end.

Definition first_io_error (log : list Event) : option string :=
  head (omap io_error log).

(** A status request that met a transport error or a status code other
    than 200. *)
Definition poll_failed (r : Outcome Response) : bool :=
  match r with
  | Returns response => negb (status_code response =? 200)%Z
  | Raises _ => true
  end.


(** The number of times the body of the polling loop can run before
    [max_wait] seconds have passed, when every pass sleeps [check_interval]. *)
Definition iterations_needed (max_wait : Z) : nat :=
  Z.to_nat ((max_wait + check_interval - 1) / check_interval).

(** The addresses a run has sent a GET request to, in order. *)
Definition requested (log : list Event) : list string :=
  omap (fun e => match e with EvGet url _ => Some url | _ => None end) log.

(** The forms a run has posted, in order. *)
Definition posted (log : list Event) : list (list (string * option string)) :=
  omap (fun e => match e with EvPost _ data _ => Some data | _ => None end) log.

(** The files a run has opened or written to, in order. *)
Definition touched (log : list Event) : list string :=
  omap (fun e => match e with
                 | EvOpen path _ | EvWrite path _ _ => Some path
                 | _ => None
                 end) log.

(** A submission that was answered 200 with a body that is blank once
    stripped: the job identifier is the empty string. *)
Definition blank_job_id (e : Event) : bool :=
  match e with
  | EvPost _ _ (Returns response) =>
      (status_code response =? 200)%Z && negb (Py.truthy_str (Py.strip (text response)))
  | _ => false
  end.

(** The calls a wait for a job may make: readings of the clock, pauses,
    calls on the statistics and GET requests to the status address and the
    result address of that job. *)
Definition wait_event (job_id : string) (e : Event) : Prop :=
  match e with
  | EvTime _ | EvSleep _ | EvStat _ => True
  | EvGet url _ =>
      url = interproscan_base_url +:+ "/status/" +:+ job_id
      \/ url = interproscan_base_url +:+ "/result/" +:+ job_id +:+ "/json"
  | _ => False
  end.

(** Calls on the statistics that count no more submissions than fetches and
    no more completions than submissions, one fetch at most, and that log one
    message at most, about the protein [uniprot_id]. *)
Definition funnelled (uniprot_id : string) (ops : list StatOp) : Prop :=
  occurrences (IncrementStat interproscan_completed) ops
    <= occurrences (IncrementStat interproscan_submitted) ops /\
  occurrences (IncrementStat interproscan_submitted) ops
    <= occurrences (IncrementStat sequences_fetched) ops /\
  occurrences (IncrementStat sequences_fetched) ops <= 1 /\
  length (messages ops) <= 1 /\
  Forall (fun msg => Py.startswith (uniprot_id +:+ ": ") msg = true) (messages ops).

(** The form [submit_to_interproscan] posts. *)
Definition submission (self : Pipeline) (sequence : string) : list (string * option string) :=
  [("email", email self); ("sequence", Some sequence); ("format", Some "json");
   ("goterms", Some "true"); ("pathways", Some "true")].

(** ** The shared statistics under the lock *)

Module Locking.

(** Where a thread stands in [increment_stat] or [add_error]. *)
Inductive Phase : Type :=
| Idle                                (* outside the [with self.lock:] block *)
| Locked (op : StatOp)                (* lock taken, body not started *)
| Loaded (k : StatName) (v : nat)     (* [self.stats[k]] read, sum not stored *)
| Updated.                            (* body done, lock not yet released *)

Record Thread : Type := mkThread {
  phase : Phase;
  pending : list StatOp
}.

Record Config : Type := mkConfig {
  stats : Stats;
  lock : option nat;
  threads : list Thread
}.

(** One step of thread [i].  Only taking the lock looks at the lock; the
    read, the write and the release happen whatever its state. *)
Definition thread_step (i : nat) (s : Stats) (l : option nat) (t : Thread)
  : option (Stats * option nat * Thread) :=
  match phase t with
  | Idle =>
      match pending t, l with
      | op :: ops, None => Some (s, Some i, mkThread (Locked op) ops)
      | _, _ => None
      end
  | Locked (IncrementStat k) => Some (s, l, mkThread (Loaded k (counter s k)) (pending t))
  | Locked (AddError msg) => Some (append_error msg s, l, mkThread Updated (pending t))
  | Loaded k v => Some (set_counter k (S v) s, l, mkThread Updated (pending t))
  | Updated => Some (s, None, mkThread Idle (pending t))
  end.

(** The scheduler runs thread [i] for one step. *)
Definition exec (i : nat) (c : Config) : option Config :=
  match threads c !! i with
  | None => None
  | Some t =>
      match thread_step i (stats c) (lock c) t with
      | None => None
      | Some (s', l', t') => Some (mkConfig s' l' (<[i := t']> (threads c)))
      end
  end.

Definition step (c c' : Config) : Prop := exists i, exec i c = Some c'.

(** A schedule names the thread to run at each step; a step that is not
    enabled is skipped. *)
Definition run (schedule : list nat) (c : Config) : Config :=
  foldl (fun c i => default c (exec i c)) c schedule.

Definition initial (s0 : Stats) (programs : list (list StatOp)) : Config :=
  mkConfig s0 None (mkThread Idle <$> programs).

Definition thread_done (t : Thread) : bool :=
  match phase t, pending t with
  | Idle, [] => true
  | _, _ => false
  end.

Definition finished (c : Config) : bool := forallb thread_done (threads c).

(** The same threads without the lock: the body of [increment_stat] and
    [add_error] run bare. *)
Definition thread_step_unlocked (s : Stats) (t : Thread) : option (Stats * Thread) :=
  match phase t with
  | Idle =>
      match pending t with
      | op :: ops => Some (s, mkThread (Locked op) ops)
      | [] => None
      end
  | Locked (IncrementStat k) => Some (s, mkThread (Loaded k (counter s k)) (pending t))
  | Locked (AddError msg) => Some (append_error msg s, mkThread Idle (pending t))
  | Loaded k v => Some (set_counter k (S v) s, mkThread Idle (pending t))
  | Updated => Some (s, mkThread Idle (pending t))
  end.

Definition exec_unlocked (i : nat) (c : Config) : option Config :=
  match threads c !! i with
  | None => None
  | Some t =>
      match thread_step_unlocked (stats c) t with
      | None => None
      | Some (s', t') => Some (mkConfig s' (lock c) (<[i := t']> (threads c)))
      end
  end.

Definition run_unlocked (schedule : list nat) (c : Config) : Config :=
  foldl (fun c i => default c (exec_unlocked i c)) c schedule.

(** What a thread has still to do to the statistics. *)
Definition todo (t : Thread) : list StatOp :=
  match phase t with
  | Locked op => [op]
  | Loaded k _ => [IncrementStat k]
  | _ => []
  end ++ pending t.

Definition todo_all (ts : list Thread) : list StatOp := ts ≫= todo.

(** The steps a thread has left. *)
Definition steps_left (t : Thread) : nat :=
  match phase t with
  | Idle => 0
  | Locked (IncrementStat _) => 3
  | Locked (AddError _) => 2
  | Loaded _ _ => 2
  | Updated => 1
  end + 4 * length (pending t).

Definition measure (c : Config) : nat := sum_list (steps_left <$> threads c).

(** At most one thread is inside a [with self.lock:] block. *)
Definition exclusive (c : Config) : Prop :=
  forall i j ti tj,
    threads c !! i = Some ti -> threads c !! j = Some tj ->
    phase ti <> Idle -> phase tj <> Idle -> i = j.

(** What holds of every configuration the threads can reach from statistics
    [s0] when [all] are the calls they start with: a thread inside the block
    holds the lock, the holder of the lock is inside the block, a value read
    is still the value stored, and the statistics are [s0] after the calls
    [done] so far, one after the other, which with the calls still to make
    are the calls [all]. *)
Record Inv (s0 : Stats) (all : list StatOp) (c : Config) : Prop := mkInv {
  inv_holder : forall i t, threads c !! i = Some t -> phase t <> Idle -> lock c = Some i;
  inv_locked : forall i, lock c = Some i ->
    exists t, threads c !! i = Some t /\ phase t <> Idle;
  inv_loaded : forall i t k v,
    threads c !! i = Some t -> phase t = Loaded k v -> v = counter (stats c) k;
  inv_history : exists done,
    stats c = apply_ops done s0 /\ done ++ todo_all (threads c) ≡ₚ all
}.

End Locking.

(** ** The coordinator *)

(** What [future.result()] gives. *)
Inductive FutureResult : Type :=
| Returned (success : bool)
| Raised (e : string).

(** The updates the [as_completed] loop makes for one future. *)
Definition coordinator_ops (uniprot_id : string) (r : FutureResult) : list StatOp :=
  match r with
  | Returned _ => []
  | Raised e => [AddError (uniprot_id +:+ ": Exception - " +:+ e); IncrementStat failed]
  end.

(** How the executor ran the tasks: the number of pool threads, the thread
    that picked up each task, and the order in which the futures completed. *)
Record Schedule : Type := mkSchedule {
  max_workers : nat;
  assign : list nat;
  completion : list nat
}.

Definition valid_schedule (n : nat) (sch : Schedule) : Prop :=
  length (assign sch) = n /\
  Forall (fun j => j < max_workers sch) (assign sch) /\
  completion sch ≡ₚ seq 0 n.

(** A task that returned, and made one call that increments
    [interproscan_completed] when it returned [True] or [failed] when it
    returned [False], and none that increments [total]. *)
Definition counted_once (task : FutureResult * list Event) : Prop :=
  exists success,
    task.1 = Returned success /\
    occurrences (IncrementStat interproscan_completed) (stat_ops task.2)
      = (if success then 1 else 0) /\
    occurrences (IncrementStat failed) (stat_ops task.2) = (if success then 0 else 1) /\
    occurrences (IncrementStat total) (stat_ops task.2) = 0.

(** The statistics calls of pool thread [j]: those of its tasks, one task
    after the other. *)
Definition worker_program (assign : list nat) (task_ops : list (list StatOp)) (j : nat)
  : list StatOp :=
  concat (omap (fun p : nat * list StatOp => if decide (p.1 = j) then Some p.2 else None)
            (zip assign task_ops)).

(** The statistics calls of the main thread in the [as_completed] loop. *)
Definition main_program (uniprot_ids : list string) (results : list FutureResult)
    (completion : list nat) : list StatOp :=
  completion ≫= (fun i =>
    match uniprot_ids !! i, results !! i with
    | Some uniprot_id, Some r => coordinator_ops uniprot_id r
    | _, _ => []
    end).

Section Coordinator.

Context {W : Type} `{External W}.

(** [executor.submit(self.process_single_protein, uniprot_id)], run to its
    end in the world as this task meets it. *)
Definition run_task (self : Pipeline) (fuel : nat) (view : W) (uniprot_id : string)
  : option (FutureResult * list Event) :=
  match process_single_protein self fuel uniprot_id view with
  | Some (success, log, _) => Some (Returned success, log)
  | None => None
  end.

Definition run_tasks (self : Pipeline) (fuel : nat) (uniprot_ids : list string)
    (view : nat -> W) : option (list (FutureResult * list Event)) :=
  mapM (fun p : nat * string => run_task self fuel (view p.1) p.2)
    (zip (seq 0 (length uniprot_ids)) uniprot_ids).

(** [process_proteins] from the list [read_uniprot_ids] returned on: the
    guard on the e-mail address, [total], and the threads of the pool with
    the statistics calls each of them makes.  [inl code] is [sys.exit]. *)
Definition process_proteins (self : Pipeline) (fuel : nat) (uniprot_ids : list string)
    (view : nat -> W) (sch : Schedule) : option (Z + Locking.Config) :=
  if negb (truthy_opt_str (email self)) then Some (inl 1%Z)
  else
    match run_tasks self fuel uniprot_ids view with
    | None => None
    | Some tasks =>
        let s0 := set_counter total (length uniprot_ids) initial_stats in
        let task_ops := (fun p : FutureResult * list Event => stat_ops p.2) <$> tasks in
        Some (inr (Locking.initial s0
                ((worker_program (assign sch) task_ops <$> seq 0 (max_workers sch))
                   ++ [main_program uniprot_ids (fst <$> tasks) (completion sch)])))
    end.

(** The threads [process_proteins] starts from, for any outcome of the
    tasks: the pool threads and the main thread in its [as_completed] loop,
    with [total] already set. *)
Definition pool (uniprot_ids : list string) (tasks : list (FutureResult * list Event))
    (sch : Schedule) : Locking.Config :=
  Locking.initial (set_counter total (length uniprot_ids) initial_stats)
    ((worker_program (assign sch) ((fun p : FutureResult * list Event => stat_ops p.2) <$> tasks)
        <$> seq 0 (max_workers sch))
       ++ [main_program uniprot_ids (fst <$> tasks) (completion sch)]).

(** [process_proteins(input_file)]: the guard on the e-mail address comes
    first, then [read_uniprot_ids], then the rest. *)
Definition process_proteins_file (self : Pipeline) (fuel : nat) (file : Outcome string)
    (view : nat -> W) (sch : Schedule) : option (Z + Locking.Config) :=
  if negb (truthy_opt_str (email self)) then Some (inl 1%Z)
  else
    match read_uniprot_ids file with
    | inl code => Some (inl code)
    | inr uniprot_ids => process_proteins self fuel uniprot_ids view sch
    end.

End Coordinator.

(** ** The command line *)

Inductive Message : Type :=
| UsageMessage
| InvalidEmailMessage.

Inductive MainResult : Type :=
| SysExit (code : Z) (printed : list Message)
| Uncaught (exception : string)
| Started (input_file output_directory email_address : string).

Definition main (argv : list string) : MainResult :=
  if (length argv <? 3)%nat then SysExit 1 [UsageMessage]
  else
    match argv !! 1%nat with
    | None => Uncaught "IndexError"
    | Some input_file =>
        match argv !! 2%nat with
        | None => Uncaught "IndexError"
        | Some output_directory =>
            match argv !! 3%nat with
            | None => Uncaught "IndexError"
            | Some email_address =>
                if negb (Py.contains "@" email_address) || negb (Py.contains "." email_address)
                then SysExit 1 [InvalidEmailMessage]
                else Started input_file output_directory email_address
            end
        end
    end.

(** The exit status of the interpreter; an uncaught exception ends it with
    status 1 after a traceback. *)
Definition exit_status (r : MainResult) : option Z :=
  match r with
  | SysExit code _ => Some code
  | Uncaught _ => Some 1%Z
  | Started _ _ _ => None
  end.

Definition printed_messages (r : MainResult) : list Message :=
  match r with
  | SysExit _ printed => printed
  | _ => []
  end.

(** [InterProScanPipeline(output_dir, email)] as [main] calls it, and the
    input file it passes on; the directories [__init__] makes are left
    out. *)
Definition started (r : MainResult) : option (string * Pipeline) :=
  match r with
  | Started input_file output_directory email_address =>
      Some (input_file, mkPipeline output_directory (Some email_address))
  | _ => None
  end.

(** ** A scripted world *)

(** A world that answers from a script: the outcomes of the coming GET and
    POST requests and of the coming file operations, each list in order, and
    the time.  A request beyond the script fails to connect, a file operation
    beyond it succeeds; only sleeping takes time. *)
Module Scripted.

Record World : Type := mkWorld {
  now : Z;
  gets : list (Outcome Response);
  posts : list (Outcome Response);
  disk : list (Outcome unit)
}.

Definition next {A : Type} (dflt : A) (l : list A) : A * list A :=
  match l with
  | [] => (dflt, [])
  | a :: l' => (a, l')
  end.

Definition get (w : World) : Outcome Response * World :=
  let '(r, rest) := next (Raises "connection refused") (gets w) in
  (r, mkWorld (now w) rest (posts w) (disk w)).

Definition post (w : World) : Outcome Response * World :=
  let '(r, rest) := next (Raises "connection refused") (posts w) in
  (r, mkWorld (now w) (gets w) rest (disk w)).

Definition file_op (w : World) : Outcome unit * World :=
  let '(r, rest) := next (Returns tt) (disk w) in
  (r, mkWorld (now w) (gets w) (posts w) rest).

Definition pause (d : Z) (w : World) : World :=
  mkWorld (now w + Z.max 0 d) (gets w) (posts w) (disk w).

(** A compact rendering of a document, standing in for [json.dump]. *)
Fixpoint dumps (j : Json) : string :=
  match j with
  | JNull => "null"
  | JBool b => if b then "true" else "false"
  | JInt n => Py.str n
  | JFloat m e => Py.str m +:+ "e" +:+ Py.str e
  | JStr s => Py.dquote +:+ s +:+ Py.dquote
  | JArr items => "[" +:+ String.concat ", " (map dumps items) +:+ "]"
  | JObj members =>
      "{" +:+ String.concat ", "
                (map (fun p : string * Json => Py.dquote +:+ p.1 +:+ Py.dquote +:+ ": " +:+ dumps p.2)
                   members)
          +:+ "}"
  end.

Global Instance external : External World := {
  requests_get _ := get;
  requests_post _ _ := post;
  time_time w := (now w, w);
  time_sleep := pause;
  file_open_w _ := file_op;
  file_write _ _ := file_op;
  json_dumps := dumps
}.

Definition ok (body : string) (doc : option Json) : Outcome Response :=
  Returns (mkResponse 200 body doc).

Definition http (code : Z) : Outcome Response :=
  Returns (mkResponse code "" None).

End Scripted.

(** ** Sample runs *)

Module Example.

Definition self : Pipeline := mkPipeline "results" (Some "user@example.org").

Definition job_id : string := "iprscan5-R20240101-120000-0001-12345678-p1m".

Definition fasta_text : string :=
  ">sp|P12345|AATM_RABIT Aspartate aminotransferase" +:+ Py.newline
    +:+ "MALLHSGRVLSGVASAFHPGLAAAASARASSWWAHVEMGPPDPILGVTEAFKRDTNSKKMNLGVGAYRDDNGKPYVLPSVR"
    +:+ Py.newline +:+ "KAEAQIAAKNLDKEYLPIGGLAEFCKASAELALGENNEVLKSGRFVTVQTISGTG" +:+ Py.newline.

Definition annotation : Json :=
  JObj [("interproscan-version", JStr "5.67-99.0");
        ("results", JArr [JObj [("xref", JArr [JObj [("id", JStr "P12345")]])]])].

(** The service answers the given statuses to the polls, one after the
    other, and then the given document to the request for the result. *)
Definition polling (statuses : list string) (document : Json) : Scripted.World :=
  Scripted.mkWorld 0
    (((fun status => Scripted.ok status None) <$> statuses)
       ++ [Scripted.ok "" (Some document)])
    [] [].

(** UniProt knows the protein, the job is accepted, runs and finishes, and
    the disk behaves as [disk] says. *)
Definition world_ok (disk : list (Outcome unit)) : Scripted.World :=
  Scripted.mkWorld 0
    [Scripted.ok fasta_text None; Scripted.ok "RUNNING" None; Scripted.ok "FINISHED" None;
     Scripted.ok "" (Some annotation)]
    [Scripted.ok job_id None]
    disk.

(** UniProt answers 404. *)
Definition world_404 : Scripted.World := Scripted.mkWorld 0 [Scripted.http 404] [] [].

(** The first status request times out. *)
Definition world_poll_error : Scripted.World :=
  Scripted.mkWorld 0 [Raises "Read timed out"; Scripted.ok "FINISHED" None] [] [].

(** Two identifiers, the first known to UniProt and the second not, on a
    pool of two threads; the second task completes first. *)
Definition uniprot_ids : list string := ["P12345"; "BADID"].

Definition view (i : nat) : Scripted.World :=
  match i with
  | O => world_ok []
  | S _ => world_404
  end.

Definition schedule : Schedule := mkSchedule 2 [0; 1] [1; 0].

(** Two threads, each with calls to make on the statistics. *)
Definition programs : list (list StatOp) :=
  [[IncrementStat sequences_fetched; IncrementStat failed];
   [AddError "BADID: UniProt fetch failed - HTTP 404"; IncrementStat failed]].

(** A schedule that switches between the two threads and runs both to the
    end; the steps of a thread that waits for the lock are skipped. *)
Definition interleaving : list nat :=
  [0; 1; 0; 1; 0; 1; 0; 1; 1; 0; 1; 0; 1; 0; 1; 0; 0; 1; 1; 0; 1; 1; 0; 0].

(** The disk is full when the second line of a file is written. *)
Definition disk_full : list (Outcome unit) :=
  [Returns tt; Returns tt; Raises "No space left on device"].

(** Nothing is scripted: every file operation succeeds. *)
Definition idle : Scripted.World := Scripted.mkWorld 0 [] [] [].

(** UniProt knows the protein and the submission is answered 200 with two
    blanks. *)
Definition world_blank_job : Scripted.World :=
  Scripted.mkWorld 0 [Scripted.ok fasta_text None] [Scripted.ok "  " None] [].

(** An input file of three lines, the second blank and the third the first
    again, and one of a single line. *)
Definition input_text : string :=
  "P12345" +:+ Py.newline +:+ "  " +:+ Py.newline +:+ "P12345".

Definition other_text : string := " Q9Y6K9 " +:+ Py.newline.


(** Two futures, the first returned [True] and the second raised, with the
    calls their tasks made on the statistics; and a schedule of the two pool
    threads and the main thread that runs all three to the end. *)
Definition futures : list (FutureResult * list Event) :=
  [(Returned true, [EvStat (IncrementStat interproscan_completed)]);
   (Raised "out of memory", [])].

Definition pool_interleaving : list nat := [0; 2; 0; 0; 0; 2; 2; 2; 2; 2; 2; 2].

End Example.

(** * Facts *)

(** ** Reading traces that were put together *)

Lemma stat_ops_app (l1 l2 : list Event) : stat_ops (l1 ++ l2) = stat_ops l1 ++ stat_ops l2.
Proof. apply omap_app. Qed.

Lemma observed_statuses_app (l1 l2 : list Event) :
  observed_statuses (l1 ++ l2) = observed_statuses l1 ++ observed_statuses l2.
Proof. apply omap_app. Qed.

Lemma stages_app (l1 l2 : list Event) : stages (l1 ++ l2) = stages l1 ++ stages l2.
Proof. apply omap_app. Qed.

Lemma occurrences_app (op : StatOp) (l1 l2 : list StatOp) :
  occurrences op (l1 ++ l2) = occurrences op l1 + occurrences op l2.
Proof. unfold occurrences. by rewrite filter_app, length_app. Qed.

Lemma messages_app (l1 l2 : list StatOp) : messages (l1 ++ l2) = messages l1 ++ messages l2.
Proof. apply omap_app. Qed.

(** Unfolds the plumbing of the monad and nothing of the program. *)
Ltac mred :=
  cbv beta iota zeta delta
    [bind ret add_error increment_stat sleep clock http_get http_post fopen fwrite negb];
  cbn [app].

(** Splits on a test of the program. *)
Ltac case_test :=
  match goal with
  | |- context [if ?c then _ else _] =>
      let T := type of c in
      lazymatch T with bool => destruct c eqn:? end
  end.

Section Stages.

Context {W : Type} `{External W}.

(** ** The four straight-line methods *)

Lemma fetch_uniprot_sequence_run (uniprot_id : string) (w : W) :
  exists r0 w1 res op,
    requests_get (uniprot_base_url +:+ uniprot_id +:+ ".fasta") w = (r0, w1) /\
    fetch_uniprot_sequence uniprot_id w
      = Some (res, [EvGet (uniprot_base_url +:+ uniprot_id +:+ ".fasta") r0; EvStat op], w1) /\
    ((res = None /\ exists msg, op = AddError msg)
     \/ (is_Some res /\ op = IncrementStat sequences_fetched)).
Proof.
  unfold fetch_uniprot_sequence. mred.
  destruct (requests_get _ w) as [[response|e] w1]; mred;
    repeat (case_test; mred);
    do 4 eexists; (split; [reflexivity|]); (split; [reflexivity|]); eauto.
Qed.

Lemma submit_to_interproscan_run (self : Pipeline) (uniprot_id sequence : string) (w : W) :
  exists url data r0 w1 res op,
    requests_post url data w = (r0, w1) /\
    submit_to_interproscan self uniprot_id sequence w
      = Some (res, [EvPost url data r0; EvStat op], w1) /\
    ((res = None /\ exists msg, op = AddError msg)
     \/ (is_Some res /\ op = IncrementStat interproscan_submitted)).
Proof.
  unfold submit_to_interproscan. mred.
  destruct (requests_post _ _ w) as [[response|e] w1] eqn:E; mred;
    repeat (case_test; mred);
    do 6 eexists; (split; [exact E|]); (split; [reflexivity|]); eauto.
Qed.

Lemma check_job_status_run (job_id : string) (w : W) :
  check_job_status job_id w
  = Some (status_of_poll (requests_get (interproscan_base_url +:+ "/status/" +:+ job_id) w).1,
          [EvGet (interproscan_base_url +:+ "/status/" +:+ job_id)
             (requests_get (interproscan_base_url +:+ "/status/" +:+ job_id) w).1],
          (requests_get (interproscan_base_url +:+ "/status/" +:+ job_id) w).2).
Proof.
  unfold check_job_status. mred.
  destruct (requests_get _ w) as [[response|e] w1]; mred; [|done].
  cbn. by destruct (status_code response =? 200)%Z.
Qed.

Lemma get_interproscan_results_run (job_id : string) (w : W) :
  get_interproscan_results job_id w
  = Some (result_of_retrieval
            (requests_get (interproscan_base_url +:+ "/result/" +:+ job_id +:+ "/json") w).1,
          [EvGet (interproscan_base_url +:+ "/result/" +:+ job_id +:+ "/json")
             (requests_get (interproscan_base_url +:+ "/result/" +:+ job_id +:+ "/json") w).1],
          (requests_get (interproscan_base_url +:+ "/result/" +:+ job_id +:+ "/json") w).2).
Proof.
  unfold get_interproscan_results. mred.
  destruct (requests_get _ w) as [[response|e] w1]; mred; [|done].
  cbn. by destruct (status_code response =? 200)%Z.
Qed.

(** ** The polling loop *)

Lemma wait_loop_unfold (fuel : nat) (job_id uniprot_id : string) (max_wait start_time : Z) :
  wait_loop fuel job_id uniprot_id max_wait start_time
  = bind clock (fun t =>
      if (t - start_time <? max_wait)%Z then
        match fuel with
        | O => out_of_fuel
        | S fuel' =>
            bind (check_job_status job_id) (fun status =>
              if (status =? "FINISHED")%string then
                bind (get_interproscan_results job_id) (fun results =>
                  if truthy_opt results then
                    bind (increment_stat interproscan_completed) (fun _ => ret results)
                  else
                    bind (add_error (uniprot_id +:+ ": Failed to retrieve results"))
                      (fun _ => ret None))
              else if (status =? "ERROR")%string || (status =? "FAILURE")%string then
                bind (add_error (uniprot_id +:+ ": Job failed with status " +:+ status))
                  (fun _ => ret None)
              else if (status =? "RUNNING")%string then
                bind clock (fun _ =>
                  bind (sleep check_interval) (fun _ =>
                    wait_loop fuel' job_id uniprot_id max_wait start_time))
              else
                bind (sleep check_interval) (fun _ =>
                  wait_loop fuel' job_id uniprot_id max_wait start_time))
        end
      else
        bind (add_error (uniprot_id +:+ ": Timed out after " +:+ Py.str max_wait +:+ " seconds"))
          (fun _ => ret None)).
Proof. by destruct fuel. Qed.

Lemma is_terminal_false (status : string) :
  (status =? "FINISHED")%string = false ->
  ((status =? "ERROR")%string || (status =? "FAILURE")%string) = false ->
  is_terminal status = false.
Proof. unfold is_terminal. intros -> E. by rewrite <- orb_assoc, E. Qed.

(** The shape of every run of the loop that comes to an end: some passes
    that saw a status the loop does not return on and slept, and then either
    the time was up, or the job had failed, or it had finished and the
    results were asked for once. *)
Lemma wait_loop_run (fuel : nat) (job_id uniprot_id : string) (max_wait start_time : Z)
    (w w' : W) (res : option Json) (log : list Event) :
  wait_loop fuel job_id uniprot_id max_wait start_time w = Some (res, log, w') ->
  exists pre,
    Forall (fun st => is_terminal st = false) pre /\
    sleeps log = replicate (length pre) check_interval /\
    Forall (fun st => st = Wait) (stages log) /\
    ((observed_statuses log = pre /\ retrieved log = [] /\ res = None /\
      stat_ops log
        = [AddError (uniprot_id +:+ ": Timed out after " +:+ Py.str max_wait +:+ " seconds")] /\
      exists t, last (clock_readings log) = Some t /\ (max_wait <= t - start_time)%Z)
     \/ (exists st, (st = "ERROR" \/ st = "FAILURE") /\
           observed_statuses log = pre ++ [st] /\ retrieved log = [] /\ res = None /\
           stat_ops log = [AddError (uniprot_id +:+ ": Job failed with status " +:+ st)])
     \/ (exists rr, observed_statuses log = pre ++ ["FINISHED"] /\ retrieved log = [rr] /\
           if truthy_opt rr
           then res = rr /\ stat_ops log = [IncrementStat interproscan_completed]
           else res = None /\
                stat_ops log = [AddError (uniprot_id +:+ ": Failed to retrieve results")])).
Proof.
  revert w res log.
  induction fuel as [|fuel IH]; intros w res log; rewrite wait_loop_unfold; mred;
    destruct (time_time w) as [t w1]; mred;
    destruct (t - start_time <? max_wait)%Z eqn:Et; mred; try discriminate.
  - intros ?; simplify_eq. exists []. simpl.
    split; [constructor|]. split; [done|]. split; [by repeat constructor|].
    left. repeat split; try done. exists t. split; [done|]. lia.
  - rewrite check_job_status_run.
    destruct (requests_get _ w1) as [r0 w2]. cbn [fst snd].
    destruct (status_of_poll r0 =? "FINISHED")%string eqn:Efin.
    { rewrite get_interproscan_results_run.
      destruct (requests_get _ w2) as [r1 w3]. cbn [fst snd].
      apply String.eqb_eq in Efin.
      destruct (truthy_opt (result_of_retrieval r1)) eqn:Etr; mred;
        intros ?; simplify_eq; exists []; simpl; rewrite Efin;
        (split; [constructor|]); (split; [done|]); (split; [by repeat constructor|]);
        right; right; exists (result_of_retrieval r1); rewrite Etr; done. }
    destruct ((status_of_poll r0 =? "ERROR")%string || (status_of_poll r0 =? "FAILURE")%string)
      eqn:Efail.
    { mred. intros ?; simplify_eq. exists []. simpl.
      split; [constructor|]. split; [done|]. split; [by repeat constructor|].
      right; left. exists (status_of_poll r0). split; [|done].
      apply orb_true_iff in Efail as [E|E]; apply String.eqb_eq in E; auto. }
    pose proof (is_terminal_false _ Efin Efail) as Hnt.
    destruct (status_of_poll r0 =? "RUNNING")%string eqn:Erun; mred;
      [destruct (time_time w2) as [t2 w3]; mred|];
      (destruct (wait_loop fuel _ _ _ _ _) as [[[res' log'] w'']|] eqn:Eloop; [|discriminate]);
      intros ?; simplify_eq;
      destruct (IH _ _ _ Eloop) as (pre & Hpre & Hsl & Hst & Hcases);
      exists (status_of_poll r0 :: pre); simpl;
      (split; [by constructor|]); (split; [by rewrite Hsl|]);
      (split; [by repeat constructor|]);
      destruct Hcases as [(Ho & Hr & Hres & Hops & t' & Hlast & Ht')
                         |[(st & Hst' & Ho & Hr & Hres & Hops)|(rr & Ho & Hr & Hres)]].
    + left. rewrite Ho. repeat split; try done. exists t'. split; [|done].
      destruct (clock_readings log'); [done|]. by simpl in *.
    + right; left. exists st. rewrite Ho. done.
    + right; right. exists rr. rewrite Ho. done.
    + left. rewrite Ho. repeat split; try done. exists t'. split; [|done].
      destruct (clock_readings log'); [done|]. by simpl in *.
    + right; left. exists st. rewrite Ho. done.
    + right; right. exists rr. rewrite Ho. done.
  - intros ?; simplify_eq. exists []. simpl.
    split; [constructor|]. split; [done|]. split; [by repeat constructor|].
    left. repeat split; try done. exists t. split; [done|]. lia.
Qed.

Lemma wait_for_completion_run (fuel : nat) (job_id uniprot_id : string) (max_wait : Z)
    (w w' : W) (res : option Json) (log : list Event) :
  wait_for_completion fuel job_id uniprot_id max_wait w = Some (res, log, w') ->
  exists start_time rest,
    log = EvTime start_time :: rest /\
    wait_loop fuel job_id uniprot_id max_wait start_time (time_time w).2
      = Some (res, rest, w') /\
    (time_time w).1 = start_time.
Proof.
  unfold wait_for_completion. mred. destruct (time_time w) as [s w1]. mred.
  destruct (wait_loop _ _ _ _ _ _) as [[[res' log'] w'']|] eqn:E; [|discriminate].
  intros ?; simplify_eq. eauto.
Qed.

(** What a wait that came to an end has done to the statistics: one
    [interproscan_completed] with a result that counts as true, or one
    message and no result. *)
Lemma wait_for_completion_ops (fuel : nat) (job_id uniprot_id : string) (max_wait : Z)
    (w w' : W) (res : option Json) (log : list Event) :
  wait_for_completion fuel job_id uniprot_id max_wait w = Some (res, log, w') ->
  Forall (fun st => st = Wait) (stages log) /\
  ((exists r, res = Some r /\ truthy r = true /\
              stat_ops log = [IncrementStat interproscan_completed])
   \/ (res = None /\ exists msg, stat_ops log = [AddError msg])).
Proof.
  intros Hrun. apply wait_for_completion_run in Hrun as (s & rest & -> & Hloop & _).
  apply wait_loop_run in Hloop as (pre & _ & _ & Hst & Hcases). simpl.
  split; [by constructor|].
  destruct Hcases as [(_ & _ & -> & -> & _)|[(st & _ & _ & _ & -> & ->)|(rr & _ & _ & Hrr)]];
    [right; eauto|right; eauto|].
  destruct (truthy_opt rr) eqn:Etr; destruct Hrr as [-> ->]; [|right; eauto].
  left. destruct rr as [r|]; [|done]. eauto.
Qed.

Section Termination.

Context (now : W -> Z) (laws : ClockLaws now).

Lemma wait_loop_terminates (fuel : nat) (job_id uniprot_id : string)
    (max_wait start_time : Z) (w : W) :
  (max_wait - (now w - start_time) <= check_interval * Z.of_nat fuel)%Z ->
  is_Some (wait_loop fuel job_id uniprot_id max_wait start_time w).
Proof.
  revert w. unfold check_interval.
  induction fuel as [|fuel IH]; intros w Hfuel; rewrite wait_loop_unfold; mred;
    pose proof (time_reading now laws w) as [Ht1 Ht2];
    destruct (time_time w) as [t w1]; cbn [fst snd] in *; mred;
    destruct (t - start_time <? max_wait)%Z eqn:Et; mred; try done;
    apply Z.ltb_lt in Et; [lia|].
  rewrite check_job_status_run.
  pose proof (get_mono now laws (interproscan_base_url +:+ "/status/" +:+ job_id) w1) as Hg.
  destruct (requests_get _ w1) as [r0 w2]. cbn [fst snd] in *.
  destruct (status_of_poll r0 =? "FINISHED")%string.
  { rewrite get_interproscan_results_run. cbn [fst snd].
    by destruct (truthy_opt _). }
  destruct (_ || _); [done|].
  assert (forall w3, (now w2 <= now w3)%Z ->
            is_Some (wait_loop fuel job_id uniprot_id max_wait start_time
                       (time_sleep check_interval w3))) as Hrec.
  { intros w3 Hw3. apply IH.
    pose proof (sleep_lasts now laws check_interval w3). unfold check_interval in *. lia. }
  destruct (status_of_poll r0 =? "RUNNING")%string; mred.
  - pose proof (time_reading now laws w2) as [Hu1 Hu2].
    destruct (time_time w2) as [t2 w3]; cbn [fst snd] in *; mred.
    destruct (Hrec w3) as [[[res log] w'] ->]; [lia|done].
  - destruct (Hrec w2) as [[[res log] w'] ->]; [lia|done].
Qed.

Lemma iterations_needed_enough (max_wait : Z) :
  (max_wait <= check_interval * Z.of_nat (iterations_needed max_wait))%Z.
Proof.
  unfold iterations_needed, check_interval.
  pose proof (Z.div_mod (max_wait + 30 - 1) 30).
  pose proof (Z.mod_pos_bound (max_wait + 30 - 1) 30).
  destruct (Z_le_gt_dec 0 ((max_wait + 30 - 1) / 30)); [rewrite Z2Nat.id by done|]; lia.
Qed.

Lemma wait_for_completion_terminates (fuel : nat) (job_id uniprot_id : string)
    (max_wait : Z) (w : W) :
  iterations_needed max_wait <= fuel ->
  is_Some (wait_for_completion fuel job_id uniprot_id max_wait w).
Proof.
  intros Hfuel. unfold wait_for_completion. mred.
  pose proof (time_reading now laws w) as [Ht1 Ht2].
  destruct (time_time w) as [s w1]; cbn [fst snd] in *; mred.
  destruct (wait_loop_terminates fuel job_id uniprot_id max_wait s w1) as [[[res log] w'] ->];
    [|done].
  pose proof (iterations_needed_enough max_wait). unfold check_interval in *. lia.
Qed.

End Termination.

(** ** Saving *)

Lemma first_io_error_app (l1 l2 : list Event) :
  first_io_error (l1 ++ l2)
  = match first_io_error l1 with Some e => Some e | None => first_io_error l2 end.
Proof.
  unfold first_io_error. rewrite omap_app. by destruct (omap io_error l1).
Qed.

Lemma write_all_run (path : string) (chunks : list string) (w : W) :
  exists r log w',
    write_all path chunks w = Some (r, log, w') /\
    stat_ops log = [] /\
    Forall (fun st => st = Save) (stages log) /\
    match r with
    | Returns _ =>
        log = (fun c => EvWrite path c (Returns tt)) <$> chunks /\ first_io_error log = None
    | Raises e => first_io_error log = Some e
    end.
Proof.
  revert w. induction chunks as [|c cs IH]; intros w; cbn [write_all]; mred.
  - by exists (Returns tt), [], w.
  - destruct (file_write path c w) as [[[]|e] w1]; mred.
    + destruct (IH w1) as (r & log & w' & -> & Hops & Hst & Hr).
      exists r, (EvWrite path c (Returns tt) :: log), w'. simpl.
      split; [done|]. split; [done|]. split; [by constructor|].
      destruct r; [by destruct Hr as [-> ?]|done].
    + exists (Raises e), [EvWrite path c (Raises e)], w1. simpl.
      split; [done|]. split; [done|]. split; [by repeat constructor|done].
Qed.

Lemma write_file_run (path : string) (chunks : list string) (w : W) :
  exists r log w',
    write_file path chunks w = Some (r, log, w') /\
    stat_ops log = [] /\
    Forall (fun st => st = Save) (stages log) /\
    match r with
    | Returns _ => log = written path chunks /\ first_io_error log = None
    | Raises e => first_io_error log = Some e
    end.
Proof.
  unfold write_file. mred. destruct (file_open_w path w) as [[[]|e] w1]; mred.
  - destruct (write_all_run path chunks w1) as (r & log & w' & -> & Hops & Hst & Hr).
    exists r, (EvOpen path (Returns tt) :: log), w'. simpl.
    split; [done|]. split; [done|]. split; [by constructor|].
    destruct r; [by destruct Hr as [-> ?]|done].
  - exists (Raises e), [EvOpen path (Raises e)], w1. simpl.
    split; [done|]. split; [done|]. split; [by repeat constructor|done].
Qed.

(** [save_results] always returns.  When no file operation raises, the trace
    is [saved] and the statistics are left alone; otherwise the first
    exception is logged, once. *)
Lemma save_results_run (self : Pipeline) (uniprot_id sequence description : string)
    (results : Json) (w : W) :
  exists log w',
    save_results self uniprot_id sequence description results w = Some (tt, log, w') /\
    Forall (fun st => st = Save) (stages log) /\
    match first_io_error log with
    | None =>
        stat_ops log = [] /\ log = saved self uniprot_id sequence description results
    | Some e => stat_ops log = [AddError (uniprot_id +:+ ": Save error - " +:+ e)]
    end.
Proof.
  unfold save_results. mred.
  destruct (write_file_run (fasta_path self uniprot_id) (fasta_chunks description sequence) w)
    as (r1 & l1 & w1 & -> & Hops1 & Hst1 & Hr1).
  destruct r1 as [[]|e]; mred.
  - destruct Hr1 as [Hl1 He1].
    destruct (write_file_run (json_path self uniprot_id) [json_dumps results] w1)
      as (r2 & l2 & w2 & -> & Hops2 & Hst2 & Hr2).
    destruct r2 as [[]|e]; mred.
    + destruct Hr2 as [Hl2 He2]. exists (l1 ++ l2 ++ []), w2. rewrite app_nil_r.
      split; [done|]. rewrite stages_app, stat_ops_app, first_io_error_app, Hops1, Hops2, He1, He2.
      split; [by apply Forall_app|]. split; [done|]. by rewrite Hl1, Hl2.
    + eexists (l1 ++ l2 ++ [_]), w2.
      split; [done|]. rewrite !stages_app, !stat_ops_app, !first_io_error_app, Hops1, Hops2, He1, Hr2.
      split; [|done]. rewrite !Forall_app. by repeat split.
  - eexists (l1 ++ [_]), w1.
    split; [done|]. rewrite !stages_app, !stat_ops_app, !first_io_error_app, Hops1, Hr1.
    split; [|done]. rewrite !Forall_app. by repeat split.
Qed.

(** ** One protein *)

(** A run of [process_single_protein], stage by stage. *)
Lemma process_single_protein_run (self : Pipeline) (fuel : nat) (uniprot_id : string)
    (w w' : W) (success : bool) (log : list Event) :
  process_single_protein self fuel uniprot_id w = Some (success, log, w') ->
  exists r1 l1 w1,
    fetch_uniprot_sequence uniprot_id w = Some (r1, l1, w1) /\
    match r1 with
    | None => success = false /\ log = l1 ++ [EvStat (IncrementStat failed)] /\ w' = w1
    | Some (sequence, description) =>
        exists r2 l2 w2,
          submit_to_interproscan self uniprot_id sequence w1 = Some (r2, l2, w2) /\
          if truthy_opt_str r2 then
            exists r3 l3 w3,
              wait_for_completion fuel (default "" r2) uniprot_id default_max_wait w2
                = Some (r3, l3, w3) /\
              match r3 with
              | Some r =>
                  truthy r = true /\
                  exists l4,
                    save_results self uniprot_id sequence description r w3 = Some (tt, l4, w') /\
                    success = true /\ log = l1 ++ l2 ++ l3 ++ l4
              | None =>
                  success = false /\
                  log = l1 ++ l2 ++ l3 ++ [EvStat (IncrementStat failed)] /\ w' = w3
              end
          else
            success = false /\ log = l1 ++ l2 ++ [EvStat (IncrementStat failed)] /\ w' = w2
    end.
Proof.
  unfold process_single_protein. mred.
  destruct (fetch_uniprot_sequence uniprot_id w) as [[[r1 l1] w1]|] eqn:E1; [|discriminate].
  destruct r1 as [[sequence description]|]; mred;
    [|intros [= <- <- <-]; by exists None, l1, w1].
  destruct (submit_to_interproscan self uniprot_id sequence w1) as [[[r2 l2] w2]|] eqn:E2;
    [|discriminate].
  destruct (truthy_opt_str r2) eqn:Ejob; mred.
  2:{ intros [= <- <- <-]. exists (Some (sequence, description)), l1, w1. split; [done|].
      exists r2, l2, w2. by rewrite Ejob. }
  destruct (wait_for_completion _ _ _ _ _) as [[[r3 l3] w3]|] eqn:E3; [|discriminate].
  pose proof (wait_for_completion_ops _ _ _ _ _ _ _ _ E3) as [_ Hops].
  destruct r3 as [r|]; mred.
  2:{ intros [= <- <- <-]. exists (Some (sequence, description)), l1, w1. split; [done|].
      exists r2, l2, w2. rewrite Ejob. split; [done|]. by exists None, l3, w3. }
  destruct Hops as [(r' & [= <-] & Htr & _)|[? _]]; [|done].
  rewrite Htr. mred.
  destruct (save_results_run self uniprot_id sequence description r w3) as (l4 & w4 & E4 & _).
  rewrite E4. intros [= <- <- <-].
  exists (Some (sequence, description)), l1, w1. split; [done|].
  exists r2, l2, w2. rewrite Ejob. split; [done|]. exists (Some r), l3, w3.
  split; [done|]. split; [done|]. exists l4. by rewrite app_nil_r.
Qed.

Lemma fetch_uniprot_sequence_ops (uniprot_id : string) (w w' : W)
    (r : option (string * string)) (log : list Event) :
  fetch_uniprot_sequence uniprot_id w = Some (r, log, w') ->
  stages log = [Fetch] /\ observed_statuses log = [] /\
  ((r = None /\ exists msg, stat_ops log = [AddError msg])
   \/ (is_Some r /\ stat_ops log = [IncrementStat sequences_fetched])).
Proof.
  destruct (fetch_uniprot_sequence_run uniprot_id w) as (r0 & w1 & res & op & _ & -> & Hop).
  intros [= <- <- <-]. simpl. split; [done|]. split; [done|].
  destruct Hop as [(-> & msg & ->)|(? & ->)]; eauto.
Qed.

Lemma submit_to_interproscan_ops (self : Pipeline) (uniprot_id sequence : string) (w w' : W)
    (r : option string) (log : list Event) :
  submit_to_interproscan self uniprot_id sequence w = Some (r, log, w') ->
  stages log = [Submit] /\ observed_statuses log = [] /\
  ((r = None /\ exists msg, stat_ops log = [AddError msg])
   \/ (is_Some r /\ stat_ops log = [IncrementStat interproscan_submitted])).
Proof.
  destruct (submit_to_interproscan_run self uniprot_id sequence w)
    as (url & data & r0 & w1 & res & op & _ & -> & Hop).
  intros [= <- <- <-]. simpl. split; [done|]. split; [done|].
  destruct Hop as [(-> & msg & ->)|(? & ->)]; eauto.
Qed.

Lemma outcome_free_fetch (uniprot_id : string) (w w' : W)
    (r : option (string * string)) (log : list Event) :
  fetch_uniprot_sequence uniprot_id w = Some (r, log, w') -> outcome_free (stat_ops log).
Proof.
  intros Hf. apply fetch_uniprot_sequence_ops in Hf as (_ & _ & [(_ & msg & ->)|(_ & ->)]);
    by repeat split.
Qed.

Lemma outcome_free_submit (self : Pipeline) (uniprot_id sequence : string) (w w' : W)
    (r : option string) (log : list Event) :
  submit_to_interproscan self uniprot_id sequence w = Some (r, log, w') ->
  outcome_free (stat_ops log).
Proof.
  intros Hs. apply submit_to_interproscan_ops in Hs as (_ & _ & [(_ & msg & ->)|(_ & ->)]);
    by repeat split.
Qed.

Lemma outcome_free_save (self : Pipeline) (uniprot_id sequence description : string)
    (results : Json) (w w' : W) (log : list Event) :
  save_results self uniprot_id sequence description results w = Some (tt, log, w') ->
  outcome_free (stat_ops log).
Proof.
  destruct (save_results_run self uniprot_id sequence description results w)
    as (l & w1 & -> & _ & Hops).
  intros [= <- <-]. destruct (first_io_error l); [|destruct Hops as [Hops _]]; by rewrite Hops.
Qed.

(** Every protein is counted once: a run of [process_single_protein] makes
    one call that increments [interproscan_completed] or [failed], the first
    when it returns [True] and the second when it returns [False], and none
    that increments [total]. *)
Lemma process_single_protein_counts (self : Pipeline) (fuel : nat) (uniprot_id : string)
    (w w' : W) (success : bool) (log : list Event) :
  process_single_protein self fuel uniprot_id w = Some (success, log, w') ->
  occurrences (IncrementStat interproscan_completed) (stat_ops log)
    = (if success then 1 else 0) /\
  occurrences (IncrementStat failed) (stat_ops log) = (if success then 0 else 1) /\
  occurrences (IncrementStat total) (stat_ops log) = 0.
Proof.
  intros Hrun. apply process_single_protein_run in Hrun as (r1 & l1 & w1 & Hf & Hrun).
  pose proof (outcome_free_fetch _ _ _ _ _ Hf) as (Hf1 & Hf2 & Hf3).
  destruct r1 as [[sequence description]|].
  2:{ destruct Hrun as (-> & -> & _).
      rewrite stat_ops_app, !occurrences_app, Hf1, Hf2, Hf3. done. }
  destruct Hrun as (r2 & l2 & w2 & Hs & Hrun).
  pose proof (outcome_free_submit _ _ _ _ _ _ _ Hs) as (Hs1 & Hs2 & Hs3).
  destruct (truthy_opt_str r2).
  2:{ destruct Hrun as (-> & -> & _).
      rewrite !stat_ops_app, !occurrences_app, Hf1, Hf2, Hf3, Hs1, Hs2, Hs3. done. }
  destruct Hrun as (r3 & l3 & w3 & Hw & Hrun).
  apply wait_for_completion_ops in Hw as [_ Hw].
  destruct r3 as [r|].
  - destruct Hrun as (_ & l4 & Hsave & -> & ->).
    pose proof (outcome_free_save _ _ _ _ _ _ _ _ Hsave) as (Hv1 & Hv2 & Hv3).
    destruct Hw as [(r' & _ & _ & Hops)|[? _]]; [|done].
    rewrite !stat_ops_app, !occurrences_app, Hf1, Hf2, Hf3, Hs1, Hs2, Hs3, Hv1, Hv2, Hv3, Hops.
    done.
  - destruct Hrun as (-> & -> & _).
    destruct Hw as [(r' & ? & _)|(_ & msg & Hops)]; [done|].
    rewrite !stat_ops_app, !occurrences_app, Hf1, Hf2, Hf3, Hs1, Hs2, Hs3, Hops. done.
Qed.

Lemma process_single_protein_terminates (now : W -> Z) (laws : ClockLaws now)
    (self : Pipeline) (fuel : nat) (uniprot_id : string) (w : W) :
  iterations_needed default_max_wait <= fuel ->
  is_Some (process_single_protein self fuel uniprot_id w).
Proof.
  intros Hfuel. unfold process_single_protein. mred.
  destruct (fetch_uniprot_sequence_run uniprot_id w) as (r0 & w1 & r1 & op1 & _ & -> & _).
  destruct r1 as [[sequence description]|]; mred; [|done].
  destruct (submit_to_interproscan_run self uniprot_id sequence w1)
    as (url & data & r0' & w2 & r2 & op2 & _ & -> & _).
  destruct (truthy_opt_str r2); mred; [|done].
  destruct (wait_for_completion_terminates now laws fuel (default "" r2) uniprot_id
              default_max_wait w2 Hfuel) as [[[r3 l3] w3] ->].
  destruct r3 as [r|]; mred; [|done].
  destruct (truthy r); mred; [|done].
  destruct (save_results_run self uniprot_id sequence description r w3) as (l4 & w4 & -> & _).
  done.
Qed.

End Stages.

(** ** Calls applied one after the other *)

Lemma apply_ops_snoc (ops : list StatOp) (op : StatOp) (s : Stats) :
  apply_ops (ops ++ [op]) s = apply_op op (apply_ops ops s).
Proof. unfold apply_ops. by rewrite foldl_snoc. Qed.

Lemma occurrences_cons (op o : StatOp) (ops : list StatOp) :
  occurrences op (o :: ops) = (if decide (o = op) then 1 else 0) + occurrences op ops.
Proof. unfold occurrences. rewrite filter_cons. by case_decide. Qed.

Lemma occurrences_perm (op : StatOp) (l1 l2 : list StatOp) :
  l1 ≡ₚ l2 -> occurrences op l1 = occurrences op l2.
Proof. unfold occurrences. by intros ->. Qed.

Lemma messages_perm (l1 l2 : list StatOp) : l1 ≡ₚ l2 -> messages l1 ≡ₚ messages l2.
Proof. unfold messages. by intros ->. Qed.

(** Counters only sum up the increments and the log only gathers the
    messages, whatever the order of the calls. *)
Lemma apply_ops_counter (ops : list StatOp) (s : Stats) (k : StatName) :
  counter (apply_ops ops s) k = counter s k + occurrences (IncrementStat k) ops.
Proof.
  induction ops as [|op ops IH] using rev_ind; [by cbn; lia|].
  rewrite apply_ops_snoc, occurrences_app, occurrences_cons. cbn.
  destruct op as [k'|msg]; cbn.
  - destruct (decide (k = k')) as [->|Hne].
    + rewrite (decide_True (P := IncrementStat k' = IncrementStat k')) by done. lia.
    + rewrite (decide_False (P := IncrementStat k' = IncrementStat k)) by congruence. lia.
  - rewrite (decide_False (P := AddError msg = IncrementStat k)) by done. lia.
Qed.

Lemma apply_ops_errors (ops : list StatOp) (s : Stats) :
  errors (apply_ops ops s) = errors s ++ messages ops.
Proof.
  induction ops as [|op ops IH] using rev_ind; [by cbn; rewrite app_nil_r|].
  rewrite apply_ops_snoc, messages_app.
  destruct op as [k'|msg]; cbn; rewrite IH.
  - by rewrite app_nil_r.
  - by rewrite app_assoc.
Qed.

Module LockingFacts.
Import Locking.

(** ** One step of one thread *)

(** A step either leaves the statistics and the calls still to make as they
    were, or makes the first of these calls, as a whole. *)
Lemma thread_step_effect (i : nat) (s s' : Stats) (l l' : option nat) (t t' : Thread) :
  thread_step i s l t = Some (s', l', t') ->
  (forall k v, phase t = Loaded k v -> v = counter s k) ->
  (s' = s /\ todo t' = todo t) \/ (exists op, todo t = op :: todo t' /\ s' = apply_op op s).
Proof.
  unfold thread_step, todo. destruct t as [ph ops]; cbn.
  destruct ph as [|[k|msg]|k v|]; cbn.
  - destruct ops as [|op ops]; [done|]. destruct l; [done|]. intros [= <- <- <-] _. by left.
  - intros [= <- <- <-] _. by left.
  - intros [= <- <- <-] _. right. by exists (AddError msg).
  - intros [= <- <- <-] Hv. right. exists (IncrementStat k). by rewrite (Hv k v).
  - intros [= <- <- <-] _. by left.
Qed.

Lemma todo_all_insert (ts : list Thread) (i : nat) (t t' : Thread) :
  ts !! i = Some t ->
  todo_all (<[i := t']> ts)
  = todo_all (take i ts) ++ todo t' ++ todo_all (drop (S i) ts)
  /\ todo_all ts = todo_all (take i ts) ++ todo t ++ todo_all (drop (S i) ts).
Proof.
  intros Hi. unfold todo_all.
  rewrite insert_take_drop by (by eapply lookup_lt_Some).
  rewrite bind_app, bind_cons. split; [done|].
  rewrite <- (take_drop_middle ts i t Hi) at 1. by rewrite bind_app, bind_cons.
Qed.

(** ** The invariant *)

Lemma todo_all_initial (programs : list (list StatOp)) :
  todo_all (mkThread Idle <$> programs) = concat programs.
Proof.
  unfold todo_all. induction programs as [|p ps IH]; [done|].
  rewrite fmap_cons, bind_cons, IH. done.
Qed.

Lemma inv_initial (s0 : Stats) (programs : list (list StatOp)) :
  Inv s0 (concat programs) (initial s0 programs).
Proof.
  split; cbn.
  - intros i t Hi Hph. apply list_lookup_fmap_Some in Hi as (p & -> & _). by destruct Hph.
  - done.
  - intros i t k v Hi Hph. by apply list_lookup_fmap_Some in Hi as (p & -> & _).
  - exists []. by rewrite todo_all_initial.
Qed.

(** While one thread can take a step, every other thread is outside the
    block. *)
Lemma others_idle (s0 : Stats) (all : list StatOp) (c : Config) (i : nat) (t : Thread)
    (r : Stats * option nat * Thread) :
  Inv s0 all c -> threads c !! i = Some t ->
  thread_step i (stats c) (lock c) t = Some r ->
  forall j tj, j <> i -> threads c !! j = Some tj -> phase tj = Idle.
Proof.
  intros HI Hi Hstep j tj Hne Hj.
  destruct (phase tj) eqn:Hph; [done|exfalso..];
    (assert (lock c = Some j) as Hl by (apply (inv_holder _ _ _ HI j tj Hj); congruence));
    unfold thread_step in Hstep; destruct (phase t) eqn:Ht;
    try (destruct (pending t); [done|]; by rewrite Hl in Hstep);
    (assert (lock c = Some i) as Hl' by (apply (inv_holder _ _ _ HI i t Hi); congruence));
    congruence.
Qed.

Lemma inv_step (s0 : Stats) (all : list StatOp) (c c' : Config) :
  Inv s0 all c -> step c c' -> Inv s0 all c'.
Proof.
  intros HI [i Hexec]. unfold exec in Hexec.
  destruct (threads c !! i) as [t|] eqn:Hi; [|done].
  destruct (thread_step i (stats c) (lock c) t) as [[[s' l'] t']|] eqn:Hstep; [|done].
  injection Hexec as <-.
  pose proof (others_idle _ _ _ _ _ _ HI Hi Hstep) as Hidle.
  pose proof (lookup_lt_Some _ _ _ Hi) as Hlt.
  assert (forall j tj, <[i:=t']> (threads c) !! j = Some tj -> phase tj <> Idle ->
                       j = i /\ tj = t') as Hin.
  { intros j tj Hj Hph. destruct (decide (j = i)) as [->|Hne].
    - rewrite list_lookup_insert_eq in Hj by done. by injection Hj as <-.
    - rewrite list_lookup_insert_ne in Hj by done. by destruct Hph; eapply Hidle. }
  assert (phase t' <> Idle -> l' = Some i) as Hhold.
  { unfold thread_step in Hstep. destruct t as [ph ops]; cbn in Hstep.
    destruct ph as [|[k|msg]|k v|]; [destruct ops; [done|]; destruct (lock c) eqn:El; [done|]|..];
      injection Hstep as <- <- <-; cbn; try done;
      intros _; apply (inv_holder _ _ _ HI i _ Hi); done. }
  split; cbn [stats lock threads].
  - intros j tj Hj Hph. destruct (Hin j tj Hj Hph) as [-> ->]. by apply Hhold.
  - intros j Hl. assert (j = i /\ phase t' <> Idle) as [-> Hph].
    { unfold thread_step in Hstep. destruct t as [ph ops]; cbn in Hstep.
      destruct ph as [|[k|msg]|k v|];
        [destruct ops; [done|]; destruct (lock c) eqn:El; [done|]|..];
        injection Hstep as <- <- <-; cbn; try done; try (by injection Hl as <-).
      all: (assert (lock c = Some i) as Hl' by (by apply (inv_holder _ _ _ HI i _ Hi))).
      all: split; [congruence|done]. }
    exists t'. by rewrite list_lookup_insert_eq.
  - intros j tj k v Hj Hph.
    destruct (Hin j tj Hj) as [-> ->]; [congruence|].
    unfold thread_step in Hstep. destruct t as [ph ops]; cbn in Hstep.
    destruct ph as [|[k'|msg]|k' v'|];
      [destruct ops; [done|]; destruct (lock c); [done|]|..];
      injection Hstep as <- <- <-; cbn in Hph; congruence.
  - destruct (inv_history _ _ _ HI) as (done & Hst & Hperm).
    destruct (todo_all_insert (threads c) i t t' Hi) as [-> Hall]. rewrite Hall in Hperm.
    destruct (thread_step_effect _ _ _ _ _ _ _ Hstep) as [[-> ->]|(op & Hop & ->)].
    + intros k v Hph. by apply (inv_loaded _ _ _ HI i t).
    + by exists done.
    + exists (done ++ [op]). split; [by rewrite apply_ops_snoc, Hst|].
      rewrite <- Hperm, Hop. rewrite <- !app_assoc. cbn.
      apply Permutation_app_head. by rewrite Permutation_middle.
Qed.

Lemma inv_reachable (s0 : Stats) (programs : list (list StatOp)) (c : Config) :
  rtc step (initial s0 programs) c -> Inv s0 (concat programs) c.
Proof.
  intros Hrtc. eapply (rtc_ind_r (fun c => Inv s0 (concat programs) c)); [..|exact Hrtc].
  - apply inv_initial.
  - intros y z _ Hstep HI. by eapply inv_step.
Qed.

Lemma inv_exclusive (s0 : Stats) (all : list StatOp) (c : Config) :
  Inv s0 all c -> exclusive c.
Proof.
  intros HI i j ti tj Hi Hj Hpi Hpj.
  pose proof (inv_holder _ _ _ HI i ti Hi Hpi) as Hl.
  rewrite (inv_holder _ _ _ HI j tj Hj Hpj) in Hl. by injection Hl.
Qed.

Lemma finished_todo (c : Config) : finished c = true -> todo_all (threads c) = [].
Proof.
  unfold finished, todo_all. induction (threads c) as [|t ts IH]; [done|]. cbn [forallb].
  intros [Ht Hts]%andb_true_iff. rewrite bind_cons, (IH Hts), app_nil_r.
  unfold thread_done in Ht. unfold todo. by destruct (phase t), (pending t).
Qed.

(** When every thread is done the statistics are the initial ones after all
    the calls, made one at a time in some order. *)
Lemma inv_finished (s0 : Stats) (all : list StatOp) (c : Config) :
  Inv s0 all c -> finished c = true ->
  exists order, order ≡ₚ all /\ stats c = apply_ops order s0.
Proof.
  intros HI Hfin. destruct (inv_history _ _ _ HI) as (done & Hst & Hperm).
  rewrite (finished_todo c Hfin), app_nil_r in Hperm. by exists done.
Qed.

(** ** No deadlock, and every schedule comes to an end *)

Lemma exec_busy (c : Config) (i : nat) (t : Thread) :
  threads c !! i = Some t -> phase t <> Idle -> is_Some (exec i c).
Proof.
  intros Hi Hph. unfold exec, thread_step. rewrite Hi.
  destruct (phase t) as [|[k|msg]|k v|]; done.
Qed.

Lemma inv_progress (s0 : Stats) (all : list StatOp) (c : Config) :
  Inv s0 all c -> finished c = false -> exists c', step c c'.
Proof.
  intros HI Hfin. destruct (lock c) as [j|] eqn:Hl.
  - destruct (inv_locked _ _ _ HI j Hl) as (t & Hj & Hph).
    destruct (exec_busy c j t Hj Hph) as [c' Hc']. by exists c', j.
  - assert (exists i t, threads c !! i = Some t /\ thread_done t = false) as (i & t & Hi & Ht).
    { unfold finished in Hfin. induction (threads c) as [|t ts IH]; [done|].
      cbn [forallb] in Hfin. apply andb_false_iff in Hfin as [Ht|Hts].
      - by exists 0, t.
      - destruct (IH Hts) as (i & t' & Hi & Ht'). by exists (S i), t'. }
    destruct (phase t) eqn:Hph.
    + unfold thread_done in Ht. rewrite Hph in Ht.
      destruct (pending t) as [|op ops] eqn:Hops; [done|].
      eexists; exists i. unfold exec, thread_step. by rewrite Hi, Hph, Hops, Hl.
    + destruct (exec_busy c i t Hi) as [c' Hc']; [congruence|]. by exists c', i.
    + destruct (exec_busy c i t Hi) as [c' Hc']; [congruence|]. by exists c', i.
    + destruct (exec_busy c i t Hi) as [c' Hc']; [congruence|]. by exists c', i.
Qed.

Lemma thread_step_steps_left (i : nat) (s s' : Stats) (l l' : option nat) (t t' : Thread) :
  thread_step i s l t = Some (s', l', t') -> steps_left t' < steps_left t.
Proof.
  unfold thread_step, steps_left. destruct t as [ph ops]; cbn.
  destruct ph as [|[k|msg]|k v|];
    [destruct ops as [|[k|msg] ops]; [done|destruct l; [done|]..]|..];
    intros [= <- <- <-]; cbn; lia.
Qed.

Lemma sum_list_cons (n : nat) (l : list nat) : sum_list (n :: l) = n + sum_list l.
Proof. done. Qed.

Lemma measure_insert (ts : list Thread) (i : nat) (t t' : Thread) :
  ts !! i = Some t ->
  sum_list (steps_left <$> <[i:=t']> ts) + steps_left t
  = sum_list (steps_left <$> ts) + steps_left t'.
Proof.
  revert i. induction ts as [|t0 ts IH]; intros [|i] Hi; try done.
  - injection Hi as ->. change (<[0:=t']> (t :: ts)) with (t' :: ts).
    rewrite !fmap_cons, !sum_list_cons. lia.
  - pose proof (IH i Hi). change (<[S i:=t']> (t0 :: ts)) with (t0 :: <[i:=t']> ts).
    rewrite !fmap_cons, !sum_list_cons. lia.
Qed.

Lemma step_measure (c c' : Config) : step c c' -> measure c' < measure c.
Proof.
  intros [i Hexec]. unfold exec in Hexec.
  destruct (threads c !! i) as [t|] eqn:Hi; [|done].
  destruct (thread_step i (stats c) (lock c) t) as [[[s' l'] t']|] eqn:Hstep; [|done].
  injection Hexec as <-. apply thread_step_steps_left in Hstep.
  unfold measure. cbn [threads].
  pose proof (measure_insert (threads c) i t t' Hi). lia.
Qed.

(** From wherever the threads stand, they can run to the end. *)
Lemma inv_finishes (s0 : Stats) (all : list StatOp) (c : Config) :
  Inv s0 all c -> exists c', rtc step c c' /\ finished c' = true.
Proof.
  remember (measure c) as n eqn:Hn. revert c Hn.
  induction n as [n IH] using lt_wf_ind. intros c -> HI.
  destruct (finished c) eqn:Hfin; [by exists c|].
  destruct (inv_progress _ _ _ HI Hfin) as [c1 Hstep].
  destruct (IH (measure c1) (step_measure _ _ Hstep) c1 eq_refl (inv_step _ _ _ _ HI Hstep))
    as (c' & Hrtc & Hfin').
  exists c'. split; [by eapply rtc_l|done].
Qed.

Lemma run_reachable (schedule : list nat) (c : Config) : rtc step c (run schedule c).
Proof.
  revert c. unfold run. induction schedule as [|i sch IH]; intros c; [done|]. cbn [foldl].
  destruct (exec i c) as [c1|] eqn:Hexec; cbn [default]; [|done].
  eapply rtc_l; [by exists i|done].
Qed.

End LockingFacts.

(** ** The tasks of the pool *)

Lemma concat_nil_all {A : Type} (ls : list (list A)) :
  Forall (fun l => l = []) ls -> concat ls = [].
Proof. induction 1 as [|l ls -> _ IH]; [done|]. by cbn. Qed.

Lemma concat_fmap_app {A B : Type} (f g : A -> list B) (l : list A) :
  concat ((fun x => f x ++ g x) <$> l) ≡ₚ concat (f <$> l) ++ concat (g <$> l).
Proof.
  induction l as [|x l IH]; [done|]. cbn. rewrite IH.
  rewrite <- !app_assoc. apply Permutation_app_head.
  rewrite !app_assoc. apply Permutation_app_tail. apply Permutation_app_comm.
Qed.

(** Among the workers [start .. start + n - 1] exactly worker [a] takes a
    task assigned to [a]. *)
Lemma concat_pick {A : Type} (a start n : nat) (t : list A) :
  concat ((fun j => if decide (a = j) then t else []) <$> seq start n)
  = if decide (start <= a < start + n) then t else [].
Proof.
  revert start. induction n as [|n IH]; intros start; cbn.
  - case_decide; [lia|done].
  - rewrite IH. repeat case_decide; try lia; try done. by rewrite app_nil_r.
Qed.

Lemma worker_program_cons (a : nat) (assign : list nat) (t : list StatOp)
    (task_ops : list (list StatOp)) (j : nat) :
  worker_program (a :: assign) (t :: task_ops) j
  = (if decide (a = j) then t else []) ++ worker_program assign task_ops j.
Proof. unfold worker_program. cbn. by case_decide. Qed.

(** The pool threads together make the calls of all the tasks. *)
Lemma worker_programs_perm (assign : list nat) (task_ops : list (list StatOp)) (n : nat) :
  length assign = length task_ops ->
  Forall (fun j => j < n) assign ->
  concat (worker_program assign task_ops <$> seq 0 n) ≡ₚ concat task_ops.
Proof.
  revert assign. induction task_ops as [|t ts IH]; intros [|a assign] Hlen Hall; try done.
  - rewrite concat_nil_all; [done|]. apply Forall_fmap, Forall_forall. done.
  - injection Hlen as Hlen. apply Forall_cons in Hall as [Ha Hall].
    erewrite list_fmap_ext; [|intros i j _; apply worker_program_cons].
    rewrite concat_fmap_app, concat_pick, (IH assign Hlen Hall).
    by rewrite decide_True by lia.
Qed.

Lemma main_program_returned (uniprot_ids : list string) (results : list FutureResult)
    (completion : list nat) :
  Forall (fun r => exists success, r = Returned success) results ->
  main_program uniprot_ids results completion = [].
Proof.
  intros Hres. unfold main_program.
  induction completion as [|i order IH]; [done|]. rewrite bind_cons, IH, app_nil_r.
  destruct (uniprot_ids !! i); [|done].
  destruct (results !! i) as [r|] eqn:Hi; [|done].
  eapply Forall_lookup_1 in Hres as [success ->]; [|done]. done.
Qed.

Section Tasks.

Context {W : Type} `{External W}.

Lemma run_task_counted (self : Pipeline) (fuel : nat) (view : W) (uniprot_id : string)
    (task : FutureResult * list Event) :
  run_task self fuel view uniprot_id = Some task -> counted_once task.
Proof.
  unfold run_task.
  destruct (process_single_protein self fuel uniprot_id view) as [[[success log] w']|] eqn:E;
    [|done].
  intros [= <-]. exists success. split; [done|]. by eapply process_single_protein_counts.
Qed.

Lemma run_tasks_counted (self : Pipeline) (fuel : nat) (uniprot_ids : list string)
    (view : nat -> W) (tasks : list (FutureResult * list Event)) :
  run_tasks self fuel uniprot_ids view = Some tasks ->
  length tasks = length uniprot_ids /\ Forall counted_once tasks.
Proof.
  unfold run_tasks. intros Hrun%mapM_Some_1. split.
  - apply Forall2_length in Hrun. rewrite <- Hrun, length_zip, length_seq. lia.
  - induction Hrun as [|p task ps tasks Hp _ IH]; constructor; [|done].
    by eapply run_task_counted.
Qed.

Lemma run_tasks_terminates (now : W -> Z) (laws : ClockLaws now) (self : Pipeline)
    (fuel : nat) (uniprot_ids : list string) (view : nat -> W) :
  iterations_needed default_max_wait <= fuel ->
  is_Some (run_tasks self fuel uniprot_ids view).
Proof.
  intros Hfuel. unfold run_tasks. apply mapM_is_Some, Forall_forall. intros [i uniprot_id] _.
  unfold run_task. cbn.
  destruct (process_single_protein_terminates now laws self fuel uniprot_id (view i) Hfuel)
    as [[[success log] w'] ->]. done.
Qed.

(** Over all tasks, the increments of [interproscan_completed] and of
    [failed] are as many as the tasks, and [total] is never incremented. *)
Lemma tasks_counts (tasks : list (FutureResult * list Event)) :
  Forall counted_once tasks ->
  let ops := concat ((fun task => stat_ops task.2) <$> tasks) in
  occurrences (IncrementStat interproscan_completed) ops
    + occurrences (IncrementStat failed) ops = length tasks /\
  occurrences (IncrementStat total) ops = 0.
Proof.
  induction 1 as [|task tasks (success & _ & Hc & Hf & Ht) _ [IH1 IH2]]; [done|].
  cbn zeta in *. rewrite fmap_cons.
  change (concat (?l :: ?ls)) with (l ++ concat ls).
  rewrite !occurrences_app, Hc, Hf, Ht, IH2. cbn [length]. split; [|done].
  destruct success; lia.
Qed.

End Tasks.

Lemma retrieved_app (l1 l2 : list Event) : retrieved (l1 ++ l2) = retrieved l1 ++ retrieved l2.
Proof. apply omap_app. Qed.

(** A trace of the save stage holds no request. *)
Lemma save_stage_no_request (log : list Event) :
  Forall (fun st => st = Save) (stages log) ->
  observed_statuses log = [] /\ retrieved log = [].
Proof.
  induction log as [|e log IH]; [done|].
  destruct e as [url r| | | | | |].
  - intros Hall. exfalso.
    change (stages (EvGet url r :: log))
      with (match stage_of (EvGet url r) with
            | Some st => st :: stages log
            | None => stages log
            end) in Hall.
    unfold stage_of in Hall.
    destruct (Py.startswith uniprot_base_url url); by inversion Hall.
  - intros Hall. by inversion Hall.
  - intros Hall. by inversion Hall.
  - intros Hall. by inversion Hall.
  - intros Hall. apply IH. by inversion Hall.
  - intros Hall. apply IH. by inversion Hall.
  - apply IH.
Qed.

Section Verdicts.

Context {W : Type} `{External W}.



End Verdicts.
(** ** Order of the stages *)



Section Order.

Context {W : Type} `{External W}.


End Order.

(** ** The files on disk *)

Lemma string_app_assoc (a b c : string) : (a +:+ b) +:+ c = a +:+ (b +:+ c).
Proof.
  induction a as [|x a IH]; [done|].
  change (String x ((a +:+ b) +:+ c) = String x (a +:+ (b +:+ c))). by f_equal.
Qed.

Lemma string_app_nil_r (a : string) : a +:+ "" = a.
Proof.
  induction a as [|x a IH]; [done|]. change (String x (a +:+ "") = String x a). by f_equal.
Qed.

Lemma join_cons (c : string) (cs : list string) : Py.join (c :: cs) = c +:+ Py.join cs.
Proof. unfold Py.join. cbn. destruct cs; [by rewrite string_app_nil_r|done]. Qed.

Lemma replay_app (l1 l2 : list Event) (disk : gmap string string) :
  replay (l1 ++ l2) disk = replay l2 (replay l1 disk).
Proof. apply foldl_app. Qed.

Lemma replay_writes (path : string) (chunks : list string) (acc : string)
    (disk : gmap string string) :
  replay ((fun c => EvWrite path c (Returns tt)) <$> chunks) (<[path := acc]> disk)
  = <[path := acc +:+ Py.join chunks]> disk.
Proof.
  revert acc. induction chunks as [|c cs IH]; intros acc.
  - by rewrite string_app_nil_r.
  - rewrite fmap_cons, join_cons. unfold replay. cbn [foldl replay_event].
    rewrite lookup_insert_eq, insert_insert_eq. fold (replay ((fun c => EvWrite path c (Returns tt)) <$> cs) (<[path:=acc +:+ c]> disk)).
    by rewrite IH, string_app_assoc.
Qed.

(** Writing a file anew leaves the text written, whatever was there. *)
Lemma replay_written (path : string) (chunks : list string) (disk : gmap string string) :
  replay (written path chunks) disk = <[path := Py.join chunks]> disk.
Proof.
  unfold written, replay. cbn [foldl replay_event].
  apply (replay_writes path chunks "" disk).
Qed.

Lemma fasta_path_json_path (self : Pipeline) (uniprot_id : string) :
  fasta_path self uniprot_id <> json_path self uniprot_id.
Proof.
  unfold fasta_path, json_path, path_join. rewrite !string_app_assoc.
  intros Heq. apply (inj (String.append (output_dir self))) in Heq. discriminate.
Qed.

Section Disk.

Context {W : Type} `{External W}.

Lemma replay_saved (self : Pipeline) (uniprot_id sequence description : string)
    (results : Json) (disk : gmap string string) :
  replay (saved self uniprot_id sequence description results) disk
  = <[json_path self uniprot_id := json_dumps results]>
      (<[fasta_path self uniprot_id := Py.join (fasta_chunks description sequence)]> disk).
Proof.
  unfold saved. rewrite replay_app, !replay_written. unfold Py.join. done.
Qed.

End Disk.

(** ** The scripted world keeps the laws of the clock *)

Lemma scripted_clock_laws : ClockLaws Scripted.now.
Proof.
  split; cbn.
  - intros _ w. unfold Scripted.get. by destruct (Scripted.next _ _).
  - intros _ _ w. unfold Scripted.post. by destruct (Scripted.next _ _).
  - intros _ w. unfold Scripted.file_op. by destruct (Scripted.next _ _).
  - intros _ _ w. unfold Scripted.file_op. by destruct (Scripted.next _ _).
  - intros w. lia.
  - intros d w. lia.
Qed.

(** * The properties of the specification *)

Section Properties.

Context {W : Type} `{External W}.

(** C10.  Called with [max_wait <= 0], [wait_for_completion] reads the clock
    twice, asks the service nothing, logs that the protein timed out and
    returns no result, whatever the service would have answered. *)
Theorem wait_for_completion_nonpositive_max_wait
    (now : W -> Z) (laws : ClockLaws now) (fuel : nat) (job_id uniprot_id : string)
    (max_wait : Z) (w : W) :
  (max_wait <= 0)%Z ->
  exists start_time t log w',
    wait_for_completion fuel job_id uniprot_id max_wait w = Some (None, log, w') /\
    log = [EvTime start_time; EvTime t;
           EvStat (AddError (uniprot_id +:+ ": Timed out after " +:+ Py.str max_wait
                               +:+ " seconds"))] /\
    observed_statuses log = [] /\ retrieved log = [].
Proof.
  intros Hmax. unfold wait_for_completion. mred.
  pose proof (time_reading now laws w) as [Hs1 Hs2].
  destruct (time_time w) as [s w1]; cbn [fst snd] in *. mred.
  rewrite wait_loop_unfold. mred.
  pose proof (time_reading now laws w1) as [Ht1 Ht2].
  destruct (time_time w1) as [t w2]; cbn [fst snd] in *. mred.
  assert ((t - s <? max_wait)%Z = false) as -> by (apply Z.ltb_ge; lia).
  mred. by eexists s, t, _, w2.
Qed.

(** C2, as the code has it.  A status request that meets a transport error
    or a status code other than 200 makes [check_job_status] return "ERROR",
    and the polling loop, when the time is not yet up, ends on it at once: it
    logs that the job failed with status ERROR and returns no result, without
    sleeping or asking again. *)
Theorem failed_poll_ends_the_wait
    (fuel : nat) (job_id uniprot_id : string) (max_wait start_time t : Z) (w w1 w2 : W)
    (r0 : Outcome Response) :
  time_time w = (t, w1) ->
  (t - start_time < max_wait)%Z ->
  requests_get (interproscan_base_url +:+ "/status/" +:+ job_id) w1 = (r0, w2) ->
  poll_failed r0 = true ->
  check_job_status job_id w1
  = Some ("ERROR", [EvGet (interproscan_base_url +:+ "/status/" +:+ job_id) r0], w2) /\
  wait_loop (S fuel) job_id uniprot_id max_wait start_time w
  = Some (None,
          [EvTime t; EvGet (interproscan_base_url +:+ "/status/" +:+ job_id) r0;
           EvStat (AddError (uniprot_id +:+ ": Job failed with status ERROR"))],
          w2).
Proof.
  intros Ht Hlt Hget Hfail.
  assert (status_of_poll r0 = "ERROR") as Hst.
  { destruct r0 as [response|e]; [|done]. cbn in *. by destruct (_ =? _)%Z. }
  rewrite wait_loop_unfold. mred. rewrite Ht. mred.
  apply Z.ltb_lt in Hlt. rewrite Hlt. rewrite check_job_status_run, Hget. cbn [fst snd].
  rewrite Hst. done.
Qed.

(** C5.  A status that is none of FINISHED, ERROR, FAILURE and RUNNING makes
    the loop sleep [check_interval] seconds and go round again; and a wait
    that saw nothing but such statuses ended because the time was up: it
    slept once for every status it saw, logged the time-out and returned no
    result. *)
Theorem unrecognized_status_is_retried
    (now : W -> Z) (laws : ClockLaws now) (fuel : nat) (job_id uniprot_id : string)
    (max_wait : Z) (w : W) :
  iterations_needed max_wait <= fuel ->
  (forall n start_time t w0 w1 w2 r0,
      time_time w0 = (t, w1) ->
      (t - start_time < max_wait)%Z ->
      requests_get (interproscan_base_url +:+ "/status/" +:+ job_id) w1 = (r0, w2) ->
      is_recognized (status_of_poll r0) = false ->
      wait_loop (S n) job_id uniprot_id max_wait start_time w0
      = match wait_loop n job_id uniprot_id max_wait start_time
                (time_sleep check_interval w2) with
        | Some (res, log, w') =>
            Some (res,
                  EvTime t :: EvGet (interproscan_base_url +:+ "/status/" +:+ job_id) r0
                    :: EvSleep check_interval :: log,
                  w')
        | None => None
        end) /\
  exists res log w',
    wait_for_completion fuel job_id uniprot_id max_wait w = Some (res, log, w') /\
    (Forall (fun status => is_recognized status = false) (observed_statuses log) ->
     res = None /\
     stat_ops log
       = [AddError (uniprot_id +:+ ": Timed out after " +:+ Py.str max_wait +:+ " seconds")] /\
     sleeps log = replicate (length (observed_statuses log)) check_interval /\
     exists start_time t,
       head (clock_readings log) = Some start_time /\
       last (clock_readings log) = Some t /\ (max_wait <= t - start_time)%Z).
Proof.
  intros Hfuel. split.
  - intros n start_time t w0 w1 w2 r0 Ht Hlt Hget Hrec.
    unfold is_recognized, is_terminal in Hrec.
    apply orb_false_iff in Hrec as [[[Hfin Herr]%orb_false_iff Hfail]%orb_false_iff Hrun].
    rewrite wait_loop_unfold. mred. rewrite Ht. mred.
    apply Z.ltb_lt in Hlt. rewrite Hlt. rewrite check_job_status_run, Hget. cbn [fst snd].
    rewrite Hfin, Herr, Hfail, Hrun. cbn [orb]. mred.
    by destruct (wait_loop n _ _ _ _ _) as [[[res log] w']|].
  - destruct (wait_for_completion_terminates now laws fuel job_id uniprot_id max_wait w Hfuel)
      as [[[res log] w'] Hrun].
    exists res, log, w'. split; [done|]. intros Hall.
    apply wait_for_completion_run in Hrun as (s & rest & -> & Hloop & _).
    apply wait_loop_run in Hloop as (pre & _ & Hsl & _ & Hcases). simpl in *.
    destruct Hcases as [(Ho & _ & -> & -> & t & Hlast & Ht)
                       |[(st & Hst & Ho & _)|(rr & Ho & _)]].
    + split; [done|]. split; [done|]. split; [by rewrite Ho|].
      exists s, t. split; [done|]. split; [|done].
      rewrite last_cons, Hlast. done.
    + rewrite Ho in Hall. apply Forall_app in Hall as [_ Hst'%Forall_inv].
      by destruct Hst as [-> | ->].
    + rewrite Ho in Hall. by apply Forall_app in Hall as [_ Hst'%Forall_inv].
Qed.



(** C6.  When the fetch, the submission and the wait have succeeded,
    [process_single_protein] returns [True] whatever happens while saving,
    and never increments [failed]: if a file operation raises, the exception
    is logged as a save error and that is all. *)
Theorem save_failure_keeps_success
    (self : Pipeline) (fuel : nat) (uniprot_id sequence description job_id : string)
    (r : Json) (w w1 w2 w3 : W) (l1 l2 l3 : list Event) :
  fetch_uniprot_sequence uniprot_id w = Some (Some (sequence, description), l1, w1) ->
  submit_to_interproscan self uniprot_id sequence w1 = Some (Some job_id, l2, w2) ->
  Py.truthy_str job_id = true ->
  wait_for_completion fuel job_id uniprot_id default_max_wait w2 = Some (Some r, l3, w3) ->
  exists l4 w4,
    save_results self uniprot_id sequence description r w3 = Some (tt, l4, w4) /\
    process_single_protein self fuel uniprot_id w = Some (true, l1 ++ l2 ++ l3 ++ l4, w4) /\
    occurrences (IncrementStat failed) (stat_ops (l1 ++ l2 ++ l3 ++ l4)) = 0 /\
    match first_io_error l4 with
    | Some e => stat_ops l4 = [AddError (uniprot_id +:+ ": Save error - " +:+ e)]
    | None => stat_ops l4 = []
    end.
Proof.
  intros Hf Hs Hjob Hw.
  destruct (save_results_run self uniprot_id sequence description r w3)
    as (l4 & w4 & Hsave & _ & Hops).
  exists l4, w4. split; [done|].
  assert (process_single_protein self fuel uniprot_id w
          = Some (true, l1 ++ l2 ++ l3 ++ l4, w4)) as Hrun.
  { pose proof (wait_for_completion_ops _ _ _ _ _ _ _ _ Hw)
      as [_ [(r' & [= <-] & Htr & _)|[? _]]]; [|done].
    unfold process_single_protein. mred. rewrite Hf. mred. rewrite Hs. cbn [truthy_opt_str].
    rewrite Hjob. mred. change (default "" (Some job_id)) with job_id.
    rewrite Hw. mred. rewrite Htr. mred.
    rewrite Hsave. by rewrite app_nil_r. }
  split; [done|]. split.
  - by destruct (process_single_protein_counts _ _ _ _ _ _ _ Hrun) as (_ & ? & _).
  - destruct (first_io_error l4); [done|]. by destruct Hops.
Qed.

(** C7.  Two calls of [save_results] with the same arguments, none of whose
    file operations raises, make the same file operations with the same
    text; after the first the two files hold the FASTA text and the JSON
    text, and the second leaves the disk as the first left it. *)
Theorem save_results_idempotent
    (self : Pipeline) (uniprot_id sequence description : string) (results : Json)
    (w1 w1' w2 w2' : W) (l1 l2 : list Event) (disk : gmap string string) :
  save_results self uniprot_id sequence description results w1 = Some (tt, l1, w1') ->
  save_results self uniprot_id sequence description results w2 = Some (tt, l2, w2') ->
  first_io_error l1 = None ->
  first_io_error l2 = None ->
  l2 = l1 /\
  replay l1 disk !! fasta_path self uniprot_id
    = Some (Py.join (fasta_chunks description sequence)) /\
  replay l1 disk !! json_path self uniprot_id = Some (json_dumps results) /\
  replay l2 (replay l1 disk) = replay l1 disk.
Proof.
  intros Hs1 Hs2 He1 He2.
  destruct (save_results_run self uniprot_id sequence description results w1)
    as (l1' & w1'' & Hs1' & _ & Hl1).
  rewrite Hs1 in Hs1'. injection Hs1' as <- <-. rewrite He1 in Hl1. destruct Hl1 as [_ ->].
  destruct (save_results_run self uniprot_id sequence description results w2)
    as (l2' & w2'' & Hs2' & _ & Hl2).
  rewrite Hs2 in Hs2'. injection Hs2' as <- <-. rewrite He2 in Hl2. destruct Hl2 as [_ ->].
  split; [done|]. rewrite !replay_saved.
  pose proof (fasta_path_json_path self uniprot_id) as Hne.
  split; [by rewrite lookup_insert_ne, lookup_insert_eq|].
  split; [by rewrite lookup_insert_eq|].
  apply map_eq. intros p.
  destruct (decide (json_path self uniprot_id = p)) as [<-|Hj];
    [by rewrite !lookup_insert_eq|].
  destruct (decide (fasta_path self uniprot_id = p)) as [<-|Hf].
  - by rewrite !(lookup_insert_ne _ (json_path self uniprot_id)), !lookup_insert_eq.
  - by repeat (rewrite lookup_insert_ne by done).
Qed.

(** C1.  With a clock that keeps its laws, a pipeline with an e-mail address
    and any schedule of the pool, every task returns and has made exactly one
    call that increments [interproscan_completed] or [failed]; the pool can
    run to its end; and whenever all its threads are done, [total] is the
    number of identifiers and [interproscan_completed + failed = total]. *)
Theorem completed_plus_failed_is_total
    (now : W -> Z) (laws : ClockLaws now) (self : Pipeline) (fuel : nat)
    (uniprot_ids : list string) (view : nat -> W) (sch : Schedule) :
  iterations_needed default_max_wait <= fuel ->
  truthy_opt_str (email self) = true ->
  valid_schedule (length uniprot_ids) sch ->
  exists tasks c0,
    run_tasks self fuel uniprot_ids view = Some tasks /\
    process_proteins self fuel uniprot_ids view sch = Some (inr c0) /\
    length tasks = length uniprot_ids /\
    Forall counted_once tasks /\
    (exists c, rtc Locking.step c0 c /\ Locking.finished c = true) /\
    (forall c,
        rtc Locking.step c0 c -> Locking.finished c = true ->
        counter (Locking.stats c) total = length uniprot_ids /\
        counter (Locking.stats c) interproscan_completed + counter (Locking.stats c) failed
        = counter (Locking.stats c) total).
Proof.
  intros Hfuel Hemail (Hlen & Hassign & _).
  destruct (run_tasks_terminates now laws self fuel uniprot_ids view Hfuel) as [tasks Htasks].
  destruct (run_tasks_counted _ _ _ _ _ Htasks) as [Hn Hcounted].
  unfold process_proteins. rewrite Hemail, Htasks. cbn [negb].
  eexists tasks, _. split; [done|]. split; [done|]. split; [done|]. split; [done|].
  set (s0 := set_counter total (length uniprot_ids) initial_stats).
  set (programs := _ ++ [_]).
  pose proof (LockingFacts.inv_initial s0 programs) as HI0.
  split; [by eapply LockingFacts.inv_finishes|].
  intros c Hreach Hfin.
  pose proof (LockingFacts.inv_reachable s0 programs c Hreach) as HI.
  destruct (LockingFacts.inv_finished _ _ _ HI Hfin) as (order & Hperm & ->).
  rewrite !apply_ops_counter, !(occurrences_perm _ _ _ Hperm).
  assert (concat programs ≡ₚ concat ((fun task => stat_ops task.2) <$> tasks)) as Hall.
  { subst programs. rewrite concat_app, main_program_returned, app_nil_r.
    - apply worker_programs_perm; [by rewrite length_fmap, Hn|done].
    - apply Forall_fmap. eapply Forall_impl; [exact Hcounted|].
      intros task (success & Hres & _). by exists success. }
  rewrite !(occurrences_perm _ _ _ Hall).
  destruct (tasks_counts tasks Hcounted) as [Hsum Htotal]. cbn zeta in *.
  rewrite Htotal.
  assert (counter s0 total = length uniprot_ids /\
          counter s0 interproscan_completed = 0 /\ counter s0 failed = 0) as (-> & -> & ->)
    by done.
  lia.
Qed.

End Properties.

(** C9.  From any statistics and any calls the threads are to make, every
    configuration they can reach has at most one thread inside a
    [with self.lock:] block and can be run to the end; and when all threads
    are done, the statistics are those reached by making all the calls one at
    a time in some order: every counter has grown by the number of its
    increments and the error log has gained every message. *)
Theorem locked_updates_are_not_lost
    (s0 : Stats) (programs : list (list StatOp)) (c : Locking.Config) :
  rtc Locking.step (Locking.initial s0 programs) c ->
  Locking.exclusive c /\
  (exists c', rtc Locking.step c c' /\ Locking.finished c' = true) /\
  (Locking.finished c = true ->
   (exists order, order ≡ₚ concat programs /\ Locking.stats c = apply_ops order s0) /\
   (forall k,
       counter (Locking.stats c) k
       = counter s0 k + occurrences (IncrementStat k) (concat programs)) /\
   errors (Locking.stats c) ≡ₚ errors s0 ++ messages (concat programs)).
Proof.
  intros Hreach.
  pose proof (LockingFacts.inv_reachable s0 programs c Hreach) as HI.
  split; [by eapply LockingFacts.inv_exclusive|].
  split; [by eapply LockingFacts.inv_finishes|].
  intros Hfin. destruct (LockingFacts.inv_finished _ _ _ HI Hfin) as (order & Hperm & Hst).
  split; [by exists order|]. rewrite Hst. split.
  - intros k. by rewrite apply_ops_counter, (occurrences_perm _ _ _ Hperm).
  - by rewrite apply_ops_errors, (messages_perm _ _ Hperm).
Qed.

(** C8: with the script name and two arguments, [main] passes the test on
    the number of arguments and then fails on [sys.argv[3]]: the interpreter
    ends with a traceback and status 1, having printed neither the usage nor
    the message about the address. *)
Theorem main_without_email_raises_index_error :
  main ["interproscan_pipeline.py"; "uniprot_ids.txt"; "results/"] = Uncaught "IndexError" /\
  printed_messages (main ["interproscan_pipeline.py"; "uniprot_ids.txt"; "results/"]) = [] /\
  exit_status (main ["interproscan_pipeline.py"; "uniprot_ids.txt"; "results/"]) = Some 1%Z.
Proof. done. Qed.

(** What [main] does otherwise: with fewer than two arguments it prints the
    usage and exits with status 1; with three or more, an address without
    "@" or without "." makes it print the message about the address and exit
    with status 1, and any other address starts the pipeline. *)
Lemma main_cases (argv : list string) :
  (length argv < 3 -> main argv = SysExit 1 [UsageMessage]) /\
  (forall script input_file output_directory email_address rest,
      argv = script :: input_file :: output_directory :: email_address :: rest ->
      main argv
      = if Py.contains "@" email_address && Py.contains "." email_address
        then Started input_file output_directory email_address
        else SysExit 1 [InvalidEmailMessage]).
Proof.
  split.
  - intros Hlen. unfold main. by rewrite (proj2 (Nat.ltb_lt _ _) Hlen).
  - intros script input_file output_directory email_address rest ->. unfold main. cbn.
    by destruct (Py.contains "@" email_address), (Py.contains "." email_address).
Qed.

Lemma wait_for_completion_nonpositive_max_wait_witness :
  exists start_time t log w',
    wait_for_completion 120 "iprscan5-R1" "P12345" 0
      (Scripted.mkWorld 0 [Scripted.ok "FINISHED" None] [] [])
    = Some (None, log, w') /\
    log = [EvTime start_time; EvTime t;
           EvStat (AddError ("P12345" +:+ ": Timed out after " +:+ Py.str 0 +:+ " seconds"))] /\
    observed_statuses log = [] /\ retrieved log = [].
Proof.
  apply (wait_for_completion_nonpositive_max_wait Scripted.now scripted_clock_laws). lia.
Defined.

(** * Sample runs *)

(** Without the lock an increment can be lost: two threads read the counter
    before either has stored its sum. *)
Example unlocked_increment_is_lost :
  let c := Locking.run_unlocked [0; 0; 1; 1; 0; 1]
             (Locking.initial initial_stats [[IncrementStat failed]; [IncrementStat failed]]) in
  Locking.finished c = true /\ counter (Locking.stats c) failed = 1.
Proof. done. Qed.

(** With the lock the same schedule gives both increments. *)
Example locked_increment_is_kept :
  let c := Locking.run [0; 0; 1; 1; 0; 1; 0; 1; 1; 1; 1]
             (Locking.initial initial_stats [[IncrementStat failed]; [IncrementStat failed]]) in
  Locking.finished c = true /\ counter (Locking.stats c) failed = 2.
Proof. done. Qed.

(** The run of the specification's first scenario: one poll sees RUNNING,
    the next FINISHED, the result is retrieved and both files are written. *)
Example process_single_protein_success :
  exists log w',
    process_single_protein Example.self 120 "P12345" (Example.world_ok []) = Some (true, log, w') /\
    observed_statuses log = ["RUNNING"; "FINISHED"] /\
    stat_ops log = [IncrementStat sequences_fetched; IncrementStat interproscan_submitted;
                    IncrementStat interproscan_completed] /\
    stages log = [Fetch; Submit; Wait; Wait; Wait; Wait; Wait; Wait; Wait; Wait;
                  Save; Save; Save; Save; Save; Save].
Proof. eexists _, _. split; [by vm_compute|]. by vm_compute. Qed.

(** C1 on two identifiers, one a success and one a failure. *)
Lemma completed_plus_failed_is_total_witness :
  iterations_needed default_max_wait <= 120 /\
  truthy_opt_str (email Example.self) = true /\
  valid_schedule (length Example.uniprot_ids) Example.schedule /\
  exists tasks c0,
    run_tasks Example.self 120 Example.uniprot_ids Example.view = Some tasks /\
    process_proteins Example.self 120 Example.uniprot_ids Example.view Example.schedule
      = Some (inr c0) /\
    length tasks = length Example.uniprot_ids /\
    Forall counted_once tasks /\
    (exists c, rtc Locking.step c0 c /\ Locking.finished c = true) /\
    (forall c,
        rtc Locking.step c0 c -> Locking.finished c = true ->
        counter (Locking.stats c) total = length Example.uniprot_ids /\
        counter (Locking.stats c) interproscan_completed + counter (Locking.stats c) failed
        = counter (Locking.stats c) total).
Proof.
  assert (iterations_needed default_max_wait <= 120) as Hfuel by (vm_compute; lia).
  assert (valid_schedule (length Example.uniprot_ids) Example.schedule) as Hsch.
  { split; [reflexivity|]. split; [by repeat constructor|]. apply perm_swap. }
  split; [exact Hfuel|]. split; [reflexivity|]. split; [exact Hsch|].
  exact (completed_plus_failed_is_total Scripted.now scripted_clock_laws Example.self 120
           Example.uniprot_ids Example.view Example.schedule Hfuel eq_refl Hsch).
Defined.

(** C2 as stated fails: the first status request times out, at the start of
    an hour of waiting; [check_job_status] says ERROR, which is a status the
    loop ends on, and the wait is over after that one poll, with no pause,
    the job logged as failed. *)
Lemma poll_error_ends_wait_counterexample :
  exists log w',
    wait_for_completion 120 Example.job_id "P12345" 3600 Example.world_poll_error
      = Some (None, log, w') /\
    observed_statuses log = ["ERROR"] /\
    is_terminal "ERROR" = true /\
    sleeps log = [] /\
    clock_readings log = [0%Z; 0%Z] /\
    stat_ops log = [AddError "P12345: Job failed with status ERROR"].
Proof. by eexists _, _. Qed.

Lemma failed_poll_ends_the_wait_witness :
  time_time Example.world_poll_error = (0%Z, Example.world_poll_error) /\
  (0 - 0 < 3600)%Z /\
  requests_get (interproscan_base_url +:+ "/status/" +:+ Example.job_id)
    Example.world_poll_error
  = (Raises "Read timed out",
     Scripted.mkWorld 0 [Scripted.ok "FINISHED" None] [] []) /\
  poll_failed (Raises "Read timed out") = true /\
  check_job_status Example.job_id Example.world_poll_error
  = Some ("ERROR",
          [EvGet (interproscan_base_url +:+ "/status/" +:+ Example.job_id)
             (Raises "Read timed out")],
          Scripted.mkWorld 0 [Scripted.ok "FINISHED" None] [] []) /\
  wait_loop 120 Example.job_id "P12345" 3600 0 Example.world_poll_error
  = Some (None,
          [EvTime 0;
           EvGet (interproscan_base_url +:+ "/status/" +:+ Example.job_id)
             (Raises "Read timed out");
           EvStat (AddError ("P12345" +:+ ": Job failed with status ERROR"))],
          Scripted.mkWorld 0 [Scripted.ok "FINISHED" None] [] []).
Proof.
  split; [reflexivity|]. split; [lia|]. split; [reflexivity|]. split; [reflexivity|].
  exact (failed_poll_ends_the_wait 119 Example.job_id "P12345" 3600 0 0
           Example.world_poll_error Example.world_poll_error
           (Scripted.mkWorld 0 [Scripted.ok "FINISHED" None] [] [])
           (Raises "Read timed out") eq_refl ltac:(lia) eq_refl eq_refl).
Defined.



(** The three outcomes of C3 on sample runs. *)
Example wait_running_running_finished :
  exists log w',
    wait_for_completion 120 Example.job_id "P12345" 3600
      (Example.polling ["RUNNING"; "RUNNING"; "FINISHED"] Example.annotation)
      = Some (Some Example.annotation, log, w') /\
    observed_statuses log = ["RUNNING"; "RUNNING"; "FINISHED"] /\
    retrieved log = [Some Example.annotation] /\
    stat_ops log = [IncrementStat interproscan_completed].
Proof. by eexists _, _. Qed.

Example wait_running_failure :
  exists log w',
    wait_for_completion 120 Example.job_id "P12345" 3600
      (Example.polling ["RUNNING"; "FAILURE"] Example.annotation)
      = Some (None, log, w') /\
    observed_statuses log = ["RUNNING"; "FAILURE"] /\
    stat_ops log = [AddError "P12345: Job failed with status FAILURE"].
Proof. by eexists _, _. Qed.

Example wait_running_until_timeout :
  exists log w',
    wait_for_completion 120 Example.job_id "P12345" 90
      (Example.polling ["RUNNING"; "RUNNING"; "RUNNING"; "RUNNING"] Example.annotation)
      = Some (None, log, w') /\
    observed_statuses log = ["RUNNING"; "RUNNING"; "RUNNING"] /\
    clock_readings log = [0; 0; 0; 30; 30; 60; 60; 90]%Z /\
    stat_ops log = [AddError "P12345: Timed out after 90 seconds"].
Proof. by eexists _, _. Qed.


(** C5 on a wait of one minute that sees QUEUED and NOT_FOUND. *)
Lemma unrecognized_status_is_retried_witness :
  iterations_needed 60 <= 120 /\
  (forall n start_time t w0 w1 w2 r0,
      time_time w0 = (t, w1) ->
      (t - start_time < 60)%Z ->
      requests_get (interproscan_base_url +:+ "/status/" +:+ Example.job_id) w1 = (r0, w2) ->
      is_recognized (status_of_poll r0) = false ->
      wait_loop (S n) Example.job_id "P12345" 60 start_time w0
      = match wait_loop n Example.job_id "P12345" 60 start_time
                (time_sleep check_interval w2) with
        | Some (res, log, w') =>
            Some (res,
                  EvTime t
                    :: EvGet (interproscan_base_url +:+ "/status/" +:+ Example.job_id) r0
                    :: EvSleep check_interval :: log,
                  w')
        | None => None
        end) /\
  exists res log w',
    wait_for_completion 120 Example.job_id "P12345" 60
      (Example.polling ["QUEUED"; "NOT_FOUND"; "PENDING"] Example.annotation)
      = Some (res, log, w') /\
    (Forall (fun status => is_recognized status = false) (observed_statuses log) ->
     res = None /\
     stat_ops log
       = [AddError ("P12345" +:+ ": Timed out after " +:+ Py.str 60 +:+ " seconds")] /\
     sleeps log = replicate (length (observed_statuses log)) check_interval /\
     exists start_time t,
       head (clock_readings log) = Some start_time /\
       last (clock_readings log) = Some t /\ (60 <= t - start_time)%Z).
Proof.
  assert (iterations_needed 60 <= 120) as Hfuel by (vm_compute; lia).
  split; [exact Hfuel|].
  exact (unrecognized_status_is_retried Scripted.now scripted_clock_laws 120 Example.job_id
           "P12345" 60 (Example.polling ["QUEUED"; "NOT_FOUND"; "PENDING"] Example.annotation)
           Hfuel).
Defined.

Example wait_unrecognized_until_timeout :
  exists log w',
    wait_for_completion 120 Example.job_id "P12345" 60
      (Example.polling ["QUEUED"; "NOT_FOUND"; "PENDING"] Example.annotation)
      = Some (None, log, w') /\
    observed_statuses log = ["QUEUED"; "NOT_FOUND"] /\
    sleeps log = [30; 30]%Z /\
    stat_ops log = [AddError "P12345: Timed out after 60 seconds"].
Proof. by eexists _, _. Qed.

(** C6 on a disk that is full when the second line of the FASTA file is
    written. *)
Lemma save_failure_keeps_success_witness :
  exists sequence description w1 w2 w3 l1 l2 l3,
    fetch_uniprot_sequence "P12345" (Example.world_ok Example.disk_full)
    = Some (Some (sequence, description), l1, w1) /\
    submit_to_interproscan Example.self "P12345" sequence w1
    = Some (Some Example.job_id, l2, w2) /\
    Py.truthy_str Example.job_id = true /\
    wait_for_completion 120 Example.job_id "P12345" default_max_wait w2
    = Some (Some Example.annotation, l3, w3) /\
    exists l4 w4,
      save_results Example.self "P12345" sequence description Example.annotation w3
      = Some (tt, l4, w4) /\
      process_single_protein Example.self 120 "P12345" (Example.world_ok Example.disk_full)
      = Some (true, l1 ++ l2 ++ l3 ++ l4, w4) /\
      occurrences (IncrementStat failed) (stat_ops (l1 ++ l2 ++ l3 ++ l4)) = 0 /\
      match first_io_error l4 with
      | Some e => stat_ops l4 = [AddError ("P12345" +:+ ": Save error - " +:+ e)]
      | None => stat_ops l4 = []
      end.
Proof.
  let fetched :=
    eval vm_compute in (fetch_uniprot_sequence "P12345" (Example.world_ok Example.disk_full)) in
  lazymatch fetched with
  | Some (Some (?sequence, ?description), ?l1, ?w1) =>
      let submitted :=
        eval vm_compute in (submit_to_interproscan Example.self "P12345" sequence w1) in
      lazymatch submitted with
      | Some (_, ?l2, ?w2) =>
          let waited :=
            eval vm_compute in
              (wait_for_completion 120 Example.job_id "P12345" default_max_wait w2) in
          lazymatch waited with
          | Some (_, ?l3, ?w3) =>
              exists sequence, description, w1, w2, w3, l1, l2, l3;
              (split; [by vm_compute|]); (split; [by vm_compute|]);
              (split; [reflexivity|]); (split; [by vm_compute|]);
              apply (save_failure_keeps_success Example.self 120 "P12345" sequence
                       description Example.job_id Example.annotation
                       (Example.world_ok Example.disk_full) w1 w2 w3 l1 l2 l3);
              by vm_compute
          end
      end
  end.
Defined.

Example save_error_is_logged :
  exists log w',
    process_single_protein Example.self 120 "P12345" (Example.world_ok Example.disk_full)
    = Some (true, log, w') /\
    stat_ops log
    = [IncrementStat sequences_fetched; IncrementStat interproscan_submitted;
       IncrementStat interproscan_completed;
       AddError "P12345: Save error - No space left on device"].
Proof. eexists _, _. split; [by vm_compute|]. by vm_compute. Qed.

(** C7 on a protein saved twice on an empty disk. *)
Lemma save_results_idempotent_witness :
  exists l1 l2,
    save_results Example.self "P12345" "MKTAYIAKQR" "Test protein" Example.annotation
      Example.idle = Some (tt, l1, Example.idle) /\
    save_results Example.self "P12345" "MKTAYIAKQR" "Test protein" Example.annotation
      Example.idle = Some (tt, l2, Example.idle) /\
    first_io_error l1 = None /\
    first_io_error l2 = None /\
    l2 = l1 /\
    replay l1 ∅ !! fasta_path Example.self "P12345"
      = Some (Py.join (fasta_chunks "Test protein" "MKTAYIAKQR")) /\
    replay l1 ∅ !! json_path Example.self "P12345" = Some (json_dumps Example.annotation) /\
    replay l2 (replay l1 ∅) = replay l1 ∅.
Proof.
  let written :=
    eval vm_compute in
      (save_results Example.self "P12345" "MKTAYIAKQR" "Test protein" Example.annotation
         Example.idle) in
  lazymatch written with
  | Some (_, ?l, _) => exists l, l
  end.
  split; [by vm_compute|]. split; [by vm_compute|]. split; [reflexivity|].
  split; [reflexivity|].
  apply (save_results_idempotent Example.self "P12345" "MKTAYIAKQR" "Test protein"
           Example.annotation Example.idle Example.idle Example.idle Example.idle);
    by vm_compute.
Defined.

Example saved_files :
  let disk := replay (saved (W := Scripted.World) Example.self "P12345" "MKTAYIAKQR"
                        "Test protein" (JObj [])) ∅ in
  disk !! "results/sequences/P12345.fasta"
    = Some (">Test protein" +:+ Py.newline +:+ "MKTAYIAKQR" +:+ Py.newline) /\
  disk !! "results/interproscan_results/P12345.json" = Some "{}".
Proof. by vm_compute. Qed.

(** C9 on two threads with two calls each, run to the end by a schedule
    that switches between them. *)
Lemma locked_updates_are_not_lost_witness :
  let c := Locking.run Example.interleaving
             (Locking.initial initial_stats Example.programs) in
  rtc Locking.step (Locking.initial initial_stats Example.programs) c /\
  Locking.exclusive c /\
  (exists c', rtc Locking.step c c' /\ Locking.finished c' = true) /\
  (Locking.finished c = true ->
   (exists order,
       order ≡ₚ concat Example.programs /\ Locking.stats c = apply_ops order initial_stats) /\
   (forall k,
       counter (Locking.stats c) k
       = counter initial_stats k + occurrences (IncrementStat k) (concat Example.programs)) /\
   errors (Locking.stats c) ≡ₚ errors initial_stats ++ messages (concat Example.programs)).
Proof.
  intros c.
  assert (rtc Locking.step (Locking.initial initial_stats Example.programs) c) as Hreach
    by apply LockingFacts.run_reachable.
  split; [exact Hreach|].
  exact (locked_updates_are_not_lost initial_stats Example.programs c Hreach).
Defined.

Example locked_run_finishes :
  let c := Locking.run Example.interleaving
             (Locking.initial initial_stats Example.programs) in
  Locking.finished c = true /\
  counter (Locking.stats c) failed = 2 /\
  counter (Locking.stats c) sequences_fetched = 1 /\
  errors (Locking.stats c) = ["BADID: UniProt fetch failed - HTTP 404"].
Proof. by vm_compute. Qed.

(** * Further facts *)

(** ** Strings *)

Lemma string_app_cons (x : ascii) (a b : string) : String x a +:+ b = String x (a +:+ b).
Proof. done. Qed.

Lemma string_app_nil_l (a : string) : "" +:+ a = a.
Proof. done. Qed.

Lemma string_app_eq_nil (a b : string) : a +:+ b = "" -> a = "" /\ b = "".
Proof. destruct a; [done|]. by rewrite string_app_cons. Qed.

Lemma contains_app (c : ascii) (a b : string) :
  Py.contains c (a +:+ b) = Py.contains c a || Py.contains c b.
Proof.
  induction a as [|x a IH]; [done|]. rewrite string_app_cons. cbn [Py.contains].
  by rewrite IH, orb_assoc.
Qed.

Lemma startswith_app (a p s : string) :
  Py.startswith (a +:+ p) (a +:+ s) = Py.startswith p s.
Proof.
  induction a as [|x a IH]; [done|]. rewrite !string_app_cons. cbn [Py.startswith].
  by rewrite Ascii.eqb_refl, IH.
Qed.

(** ** [strip] *)

Lemma lstrip_idem (s : string) : Py.lstrip (Py.lstrip s) = Py.lstrip s.
Proof.
  induction s as [|c s IH]; [done|]. cbn [Py.lstrip].
  destruct (Py.is_space c) eqn:E; [done|]. cbn [Py.lstrip]. by rewrite E.
Qed.

Lemma rstrip_cons (c : ascii) (s : string) :
  Py.rstrip (String c s)
  = match Py.rstrip s with
    | "" => if Py.is_space c then "" else String c ""
    | r => String c r
    end.
Proof. done. Qed.

Lemma rstrip_idem (s : string) : Py.rstrip (Py.rstrip s) = Py.rstrip s.
Proof.
  induction s as [|c s IH]; [done|]. rewrite rstrip_cons.
  destruct (Py.rstrip s) as [|d r] eqn:E.
  - destruct (Py.is_space c) eqn:Ec; [done|]. rewrite rstrip_cons. cbn [Py.rstrip]. by rewrite Ec.
  - rewrite rstrip_cons, IH. done.
Qed.

(** A string that [rstrip] leaves alone and that is not empty stays so with
    anything put before it. *)
Lemma rstrip_app_fixed (a b : string) :
  Py.rstrip b = b -> b <> "" -> Py.rstrip (a +:+ b) = a +:+ b.
Proof.
  intros Hb Hne. induction a as [|x a IH]; [done|].
  rewrite string_app_cons, rstrip_cons, IH.
  destruct (a +:+ b) eqn:E; [|done]. by apply string_app_eq_nil in E as [_ ?].
Qed.

Lemma rstrip_fixed_tail (c : ascii) (s : string) :
  Py.rstrip (String c s) = String c s -> s <> "" -> Py.rstrip s = s.
Proof.
  rewrite rstrip_cons. intros Heq Hne. destruct (Py.rstrip s) as [|d r].
  - destruct (Py.is_space c); [done|]. injection Heq as <-. done.
  - by injection Heq.
Qed.

Lemma rstrip_fixed_single (c : ascii) :
  Py.rstrip (String c "") = String c "" -> Py.is_space c = false.
Proof. rewrite rstrip_cons. cbn [Py.rstrip]. by destruct (Py.is_space c). Qed.

(** White space at the end of a string is lost on [rstrip]. *)
Lemma rstrip_app_space (s : string) (c : ascii) :
  Py.is_space c = true -> Py.rstrip (s +:+ String c "") = Py.rstrip s.
Proof.
  intros Hc. induction s as [|x s IH].
  - rewrite string_app_nil_l, rstrip_cons. cbn [Py.rstrip]. by rewrite Hc.
  - by rewrite string_app_cons, !rstrip_cons, IH.
Qed.

Lemma lstrip_rstrip (s : string) : Py.rstrip (Py.lstrip s) = Py.lstrip (Py.rstrip s).
Proof.
  induction s as [|c s IH]; [done|]. cbn [Py.lstrip]. rewrite rstrip_cons.
  destruct (Py.is_space c) eqn:Ec.
  - rewrite IH. destruct (Py.rstrip s) as [|d r]; [done|]. cbn [Py.lstrip]. by rewrite Ec.
  - rewrite rstrip_cons.
    destruct (Py.rstrip s) as [|d r]; cbn [Py.lstrip]; by rewrite Ec.
Qed.

Lemma strip_idem (s : string) : Py.strip (Py.strip s) = Py.strip s.
Proof.
  unfold Py.strip. by rewrite (lstrip_rstrip (Py.rstrip s)), rstrip_idem, lstrip_idem.
Qed.

Lemma strip_rstrip_fixed (s : string) : Py.rstrip (Py.strip s) = Py.strip s.
Proof. unfold Py.strip. by rewrite lstrip_rstrip, rstrip_idem. Qed.

Lemma strip_app_space (s : string) (c : ascii) :
  Py.is_space c = true -> Py.strip (s +:+ String c "") = Py.strip s.
Proof. intros Hc. unfold Py.strip. by rewrite rstrip_app_space. Qed.

Lemma contains_lstrip (c : ascii) (s : string) :
  Py.contains c (Py.lstrip s) = true -> Py.contains c s = true.
Proof.
  induction s as [|x s IH]; [done|]. cbn [Py.lstrip].
  destruct (Py.is_space x); [|done]. intros Hc. cbn [Py.contains]. rewrite (IH Hc).
  apply orb_true_r.
Qed.

Lemma contains_rstrip (c : ascii) (s : string) :
  Py.contains c (Py.rstrip s) = true -> Py.contains c s = true.
Proof.
  induction s as [|x s IH]; [done|]. rewrite rstrip_cons. cbn [Py.contains].
  destruct (Py.rstrip s) as [|d r].
  - destruct (Py.is_space x); [done|]. cbn [Py.contains]. rewrite orb_false_r. intros ->. done.
  - change (Py.contains c (String x (String d r)))
      with (Ascii.eqb c x || Py.contains c (String d r)).
    intros [->|Hc]%orb_true_iff; [done|]. rewrite (IH Hc). apply orb_true_r.
Qed.

Lemma contains_strip (c : ascii) (s : string) :
  Py.contains c s = false -> Py.contains c (Py.strip s) = false.
Proof.
  intros Hs. destruct (Py.contains c (Py.strip s)) eqn:E; [|done].
  apply contains_lstrip, contains_rstrip in E. congruence.
Qed.

(** ** [split] and [join] *)

Lemma split_cons (sep c : ascii) (s : string) :
  Py.split sep (String c s)
  = if Ascii.eqb c sep then "" :: Py.split sep s
    else match Py.split sep s with
         | [] => [String c ""]
         | w :: ws => String c w :: ws
         end.
Proof. done. Qed.

Lemma split_not_nil (sep : ascii) (s : string) : Py.split sep s <> [].
Proof.
  induction s as [|c s IH]; [done|]. rewrite split_cons.
  destruct (Ascii.eqb c sep); [done|]. by destruct (Py.split sep s).
Qed.

Lemma split_free (sep : ascii) (s : string) :
  Py.contains sep s = false -> Py.split sep s = [s].
Proof.
  induction s as [|c s IH]; [done|]. cbn [Py.contains]. rewrite split_cons.
  intros [Hc Hs]%orb_false_iff. rewrite Ascii.eqb_sym, Hc, (IH Hs). done.
Qed.

Lemma split_pieces (sep : ascii) (s : string) :
  Forall (fun l => Py.contains sep l = false) (Py.split sep s).
Proof.
  induction s as [|c s IH]; [by repeat constructor|]. rewrite split_cons.
  destruct (Ascii.eqb c sep) eqn:Ec; [by constructor|].
  destruct (Py.split sep s) as [|w ws]; [repeat constructor|].
  - cbn [Py.contains]. by rewrite Ascii.eqb_sym, Ec.
  - apply Forall_cons in IH as [Hw Hws]. constructor; [|done].
    cbn [Py.contains]. by rewrite Ascii.eqb_sym, Ec.
Qed.

(** Splitting at a separator splits the parts before and after it. *)
Lemma split_app (sep : ascii) (a b : string) :
  Py.split sep (a +:+ String sep b) = Py.split sep a ++ Py.split sep b.
Proof.
  induction a as [|c a IH].
  - rewrite string_app_nil_l, split_cons, Ascii.eqb_refl. done.
  - rewrite string_app_cons, !split_cons, IH.
    destruct (Ascii.eqb c sep); [done|].
    pose proof (split_not_nil sep a). by destruct (Py.split sep a).
Qed.

Lemma split_length (sep : ascii) (s : string) :
  (2 <=? length (Py.split sep s))%nat = Py.contains sep s.
Proof.
  induction s as [|c s IH]; [done|]. rewrite split_cons. cbn [Py.contains].
  rewrite (Ascii.eqb_sym sep c). destruct (Ascii.eqb c sep).
  - pose proof (split_not_nil sep s). by destruct (Py.split sep s).
  - rewrite orb_false_l, <- IH. by destruct (Py.split sep s) as [|w [|w' ws]].
Qed.

Lemma join_nil : Py.join [] = "".
Proof. done. Qed.

Lemma join_app (l1 l2 : list string) : Py.join (l1 ++ l2) = Py.join l1 +:+ Py.join l2.
Proof.
  induction l1 as [|x l1 IH]; [done|].
  rewrite <- app_comm_cons, !join_cons, IH. by rewrite string_app_assoc.
Qed.

Lemma contains_join (c : ascii) (l : list string) :
  Forall (fun x => Py.contains c x = false) l -> Py.contains c (Py.join l) = false.
Proof.
  induction 1 as [|x l Hx _ IH]; [done|]. by rewrite join_cons, contains_app, Hx, IH.
Qed.

(** The pieces of a string that does not end in white space, joined, do not
    end in white space either. *)
Lemma join_split_fixed (sep : ascii) (s : string) :
  Py.is_space sep = true -> Py.rstrip s = s -> s <> "" ->
  Py.rstrip (Py.join (Py.split sep s)) = Py.join (Py.split sep s) /\
  Py.join (Py.split sep s) <> "".
Proof.
  intros Hsep. induction s as [|c s IH]; [done|]. intros Hfix _.
  destruct (decide (s = "")) as [->|Hne].
  - apply rstrip_fixed_single in Hfix. rewrite split_cons.
    destruct (Ascii.eqb c sep) eqn:Ec; [apply Ascii.eqb_eq in Ec; congruence|].
    cbn [Py.split]. rewrite join_cons, join_nil, string_app_nil_r, rstrip_cons.
    cbn [Py.rstrip]. by rewrite Hfix.
  - destruct (IH (rstrip_fixed_tail _ _ Hfix Hne) Hne) as [Hj Hjne]. rewrite split_cons.
    destruct (Ascii.eqb c sep); [by rewrite join_cons, string_app_nil_l|].
    destruct (Py.split sep s) as [|w ws] eqn:E; [by destruct (split_not_nil sep s)|].
    rewrite join_cons in *. rewrite string_app_cons. split; [|done].
    rewrite rstrip_cons, Hj. by destruct (w +:+ Py.join ws).
Qed.

Lemma join_tail_split_fixed (sep : ascii) (s : string) :
  Py.is_space sep = true -> Py.rstrip s = s -> Py.contains sep s = true ->
  Py.rstrip (Py.join (tl (Py.split sep s))) = Py.join (tl (Py.split sep s)) /\
  Py.join (tl (Py.split sep s)) <> "".
Proof.
  intros Hsep. induction s as [|c s IH]; [done|]. intros Hfix Hc.
  assert (s <> "") as Hne.
  { intros ->. cbn [Py.contains] in Hc. rewrite orb_false_r in Hc.
    apply Ascii.eqb_eq in Hc as <-. apply rstrip_fixed_single in Hfix. congruence. }
  pose proof (rstrip_fixed_tail _ _ Hfix Hne) as Hfix'.
  rewrite split_cons. cbn [Py.contains] in Hc. rewrite (Ascii.eqb_sym sep c) in Hc.
  destruct (Ascii.eqb c sep); cbn [tl].
  - by apply join_split_fixed.
  - specialize (IH Hfix' Hc). by destruct (Py.split sep s).
Qed.

(** ** [readlines] *)

Lemma readlines_cons (c : ascii) (s : string) :
  Py.readlines (String c s)
  = if Ascii.eqb c "010" then Py.newline :: Py.readlines s
    else match Py.readlines s with
         | [] => [String c ""]
         | l :: ls => String c l :: ls
         end.
Proof. done. Qed.

(** The lines of a text are its pieces between line feeds, each with its
    line feed but the last, which is left out when it is empty. *)
Lemma readlines_split (s : string) :
  Py.readlines s
  = ((fun w => w +:+ Py.newline) <$> removelast (Py.split "010" s))
      ++ match last (Py.split "010" s) with
         | Some (String c l) => [String c l]
         | _ => []
         end.
Proof.
  induction s as [|c s IH]; [done|]. rewrite readlines_cons, split_cons.
  pose proof (split_not_nil "010" s) as Hne.
  destruct (Py.split "010" s) as [|w ws] eqn:E; [done|]. clear Hne.
  destruct (Ascii.eqb c "010").
  - rewrite IH. done.
  - rewrite IH. destruct ws as [|w2 ws]; [by destruct w|]. done.
Qed.

(** ** The identifiers of a text *)

Lemma stripped_lines_app (l1 l2 : list string) : stripped_lines (l1 ++ l2) = stripped_lines l1 ++ stripped_lines l2.
Proof. unfold stripped_lines. by rewrite List.filter_app, fmap_app. Qed.

Lemma stripped_lines_cons (l : string) (ls : list string) :
  stripped_lines (l :: ls) = (if Py.truthy_str (Py.strip l) then [Py.strip l] else []) ++ stripped_lines ls.
Proof. unfold stripped_lines. cbn [List.filter]. by destruct (Py.truthy_str (Py.strip l)). Qed.

Lemma strip_line (w : string) : Py.strip (w +:+ Py.newline) = Py.strip w.
Proof. by apply strip_app_space. Qed.

Lemma stripped_lines_lines (ws : list string) :
  ws <> [] ->
  stripped_lines (((fun w => w +:+ Py.newline) <$> removelast ws)
            ++ match last ws with
               | Some (String c l) => [String c l]
               | _ => []
               end)
  = stripped_lines ws.
Proof.
  induction ws as [|w ws IH]; [done|]. intros _. destruct ws as [|w2 ws].
  - cbn [removelast last fmap list_fmap app]. destruct w; [done|]. done.
  - change (removelast (w :: w2 :: ws)) with (w :: removelast (w2 :: ws)).
    change (last (w :: w2 :: ws)) with (last (w2 :: ws)).
    rewrite fmap_cons, <- app_comm_cons, !(stripped_lines_cons _ (_ ++ _)), (stripped_lines_cons w), strip_line.
    by rewrite IH.
Qed.

(** The identifiers of a text are those of its pieces between line feeds. *)
Lemma stripped_lines_readlines (s : string) :
  stripped_lines (Py.readlines s) = stripped_lines (Py.split "010" s).
Proof. rewrite readlines_split. apply stripped_lines_lines, split_not_nil. Qed.

Lemma stripped_lines_clean (ws : list string) :
  Forall (fun w => Py.contains "010" w = false) ws ->
  Forall (fun id => id <> "" /\ Py.strip id = id /\ Py.contains "010" id = false) (stripped_lines ws).
Proof.
  induction 1 as [|w ws Hw _ IH]; [constructor|]. rewrite stripped_lines_cons.
  destruct (Py.truthy_str (Py.strip w)) eqn:E; [|done]. constructor; [|done].
  split; [by destruct (Py.strip w)|]. split; [apply strip_idem|by apply contains_strip].
Qed.

(** ** Slices *)

Lemma substring_none (n : nat) (s : string) : substring n 0 s = "".
Proof. revert n. induction s as [|c s IH]; intros [|n]; cbn; auto. Qed.

Lemma substring_all (m : nat) (s : string) : String.length s <= m -> substring 0 m s = s.
Proof.
  revert m. induction s as [|c s IH]; intros [|m] Hm; cbn in *; try done; try lia.
  f_equal. apply IH. lia.
Qed.

Lemma substring_length (n m : nat) (s : string) :
  String.length (substring n m s) = Nat.min m (String.length s - n).
Proof.
  revert n m. induction s as [|c s IH]; intros [|n] [|m]; cbn; try done; try lia.
  by rewrite IH, Nat.sub_0_r.
Qed.

(** A slice is the slices of its two halves put together. *)
Lemma substring_app (n a b : nat) (s : string) :
  substring n (a + b) s = substring n a s +:+ substring (n + a) b s.
Proof.
  revert n a. induction s as [|c s IH]; intros [|n] [|a]; cbn [Nat.add]; try done.
  - cbn [substring]. rewrite string_app_cons. f_equal. apply (IH 0).
  - cbn [substring]. by rewrite substring_none, Nat.add_0_r.
  - cbn [substring]. apply (IH n (S a)).
Qed.

Lemma slices_join (step : nat) (s : string) (m off : nat) :
  Py.join ((fun k => substring (off + k * step) step s) <$> seq 0 m)
  = substring off (m * step) s.
Proof.
  revert off. induction m as [|m IH]; intros off; [by rewrite substring_none|].
  cbn [seq]. rewrite fmap_cons, join_cons, <- fmap_S_seq, <- list_fmap_compose.
  cbn [Nat.mul]. rewrite substring_app, Nat.add_0_r. f_equal.
  rewrite <- (IH (off + step)). f_equal. apply list_fmap_ext. intros _ k _. cbn. f_equal. lia.
Qed.

Lemma ceil_bounds (n : nat) :
  n <= (n + 79) / 80 * 80 /\ (0 < n -> ((n + 79) / 80 - 1) * 80 < n).
Proof.
  pose proof (Nat.div_mod_eq (n + 79) 80). pose proof (Nat.mod_upper_bound (n + 79) 80).
  lia.
Qed.

(** The lines [save_results] cuts a sequence into. *)
Lemma sequence_lines (sequence : string) :
  (fun i => Py.slice sequence i (i + 80) +:+ Py.newline) <$> Py.range0 (String.length sequence) 80
  = (fun l => l +:+ Py.newline)
      <$> ((fun k => substring (k * 80) 80 sequence) <$> seq 0 ((String.length sequence + 79) / 80)).
Proof.
  unfold Py.range0, Py.slice. rewrite <- !list_fmap_compose.
  replace (String.length sequence + 80 - 1) with (String.length sequence + 79) by lia.
  apply list_fmap_ext. intros _ k _. cbn. do 2 f_equal. lia.
Qed.

(** ** FASTA text *)

Lemma contains_join_inv (c : ascii) (l : list string) :
  Py.contains c (Py.join l) = false -> Forall (fun x => Py.contains c x = false) l.
Proof.
  induction l as [|x l IH]; [constructor|]. rewrite join_cons, contains_app.
  intros [Hx Hl]%orb_false_iff. constructor; auto.
Qed.

Lemma rstrip_app_fixed_inv (a b : string) :
  Py.rstrip (a +:+ b) = a +:+ b -> b <> "" -> Py.rstrip b = b.
Proof.
  intros Hfix Hne. induction a as [|x a IH]; [done|]. apply IH.
  rewrite string_app_cons in Hfix. eapply rstrip_fixed_tail; [done|].
  intros [_ ?]%string_app_eq_nil. done.
Qed.

(** What [parse_fasta] returns: a sequence that is not empty, holds no line
    feed and does not end in white space, and a description without line
    feed; and it returns one exactly when the stripped text has a line feed. *)
Lemma parse_fasta_some (text sequence description : string) :
  parse_fasta text = Some (sequence, description) ->
  sequence <> "" /\ Py.contains "010" sequence = false /\ Py.rstrip sequence = sequence /\
  Py.contains "010" description = false.
Proof.
  unfold parse_fasta. cbv zeta. rewrite split_length.
  destruct (Py.contains "010" (Py.strip text)) eqn:Hc; [|done]. intros [= <- <-].
  destruct (join_tail_split_fixed "010" (Py.strip text) eq_refl (strip_rstrip_fixed text) Hc)
    as [Hfix Hne].
  pose proof (split_pieces "010" (Py.strip text)) as Hp.
  split; [done|]. split; [|split; [done|]].
  - apply contains_join. destruct (Py.split "010" (Py.strip text)); [done|].
    by apply Forall_cons in Hp as [_ ?].
  - destruct (Py.split "010" (Py.strip text)) as [|l ls]; [done|].
    apply Forall_cons in Hp as [Hl _]. cbn [hd]. destruct l as [|c l]; [done|].
    cbn [Py.tail]. cbn [Py.contains] in Hl. by apply orb_false_iff in Hl as [_ ?].
Qed.

Lemma parse_fasta_none (text : string) :
  parse_fasta text = None <-> Py.contains "010" (Py.strip text) = false.
Proof.
  unfold parse_fasta. cbv zeta. rewrite split_length.
  by destruct (Py.contains "010" (Py.strip text)).
Qed.

(** The lines of a file, each ended by a line feed, split back into the
    lines. *)
Lemma split_lines (init : list string) (l : string) :
  Forall (fun x => Py.contains "010" x = false) init ->
  Py.contains "010" l = false ->
  Py.split "010" (Py.join ((fun x => x +:+ Py.newline) <$> init) +:+ l) = init ++ [l].
Proof.
  intros Hinit Hl. induction Hinit as [|x init Hx _ IH].
  - by rewrite fmap_nil, join_nil, string_app_nil_l, split_free.
  - rewrite fmap_cons, join_cons, !string_app_assoc.
    change (Py.newline +:+ ?r) with (String "010" r).
    by rewrite split_app, IH, split_free.
Qed.

(** The text [save_results] writes for a sequence that is not empty, does
    not end in white space and, like the description, holds no line feed, is
    read back by [parse_fasta] as that sequence and description. *)
Lemma parse_fasta_lines (description : string) (lines : list string) :
  Py.contains "010" description = false ->
  Py.contains "010" (Py.join lines) = false ->
  Py.rstrip (Py.join lines) = Py.join lines ->
  lines <> [] -> Forall (fun l => l <> "") lines ->
  parse_fasta (Py.join ((">" +:+ description +:+ Py.newline)
                          :: ((fun l => l +:+ Py.newline) <$> lines)))
  = Some (Py.join lines, description).
Proof.
  intros Hd Hnl Hfix Hne Hall.
  destruct (exists_last Hne) as (init & l & ->). clear Hne.
  apply Forall_app in Hall as [_ Hl%Forall_inv].
  apply contains_join_inv, Forall_app in Hnl as [Hinit Hl'%Forall_inv].
  rewrite join_app, join_cons, join_nil, string_app_nil_r in Hfix.
  apply rstrip_app_fixed_inv in Hfix; [|done].
  set (body := Py.join ((fun x => x +:+ Py.newline) <$> init) +:+ l).
  assert (Py.join ((">" +:+ description +:+ Py.newline)
                     :: ((fun x => x +:+ Py.newline) <$> init ++ [l]))
          = (">" +:+ description +:+ String "010" body) +:+ String "010" "") as ->.
  { rewrite join_cons, fmap_app, join_app, fmap_cons, fmap_nil, join_cons, join_nil.
    subst body. rewrite string_app_nil_r, !string_app_assoc. do 2 f_equal.
    change (Py.newline +:+ ?r) with (String "010" r).
    rewrite (string_app_cons "010"). f_equal. by rewrite string_app_assoc. }
  unfold parse_fasta, Py.strip. cbv zeta.
  rewrite rstrip_app_space by done.
  assert (Py.rstrip (">" +:+ description +:+ String "010" body)
          = ">" +:+ description +:+ String "010" body) as ->.
  { change (">" +:+ description +:+ String "010" body)
      with (">" +:+ (description +:+ String "010" (Py.join ((fun x => x +:+ Py.newline) <$> init) +:+ l))).
    rewrite <- !string_app_assoc.
    change (String "010" (?a +:+ l)) with ((String "010" a) +:+ l).
    rewrite <- !string_app_assoc. by apply rstrip_app_fixed. }
  change (Py.lstrip (">" +:+ ?r)) with (">" +:+ r).
  rewrite <- (string_app_assoc ">" description), split_app.
  rewrite (split_free "010" (">" +:+ description)) by (by rewrite contains_app, Hd).
  subst body. rewrite split_lines by done. cbn [app length hd tl Py.tail].
  rewrite length_app. cbn [length]. rewrite join_app, join_cons, join_nil, string_app_nil_r.
  by destruct (length init).
Qed.

(** The lines of the sequence file: the header and the slices of the
    sequence, 80 characters each but perhaps the last. *)
Lemma fasta_chunks_slices (description sequence : string) :
  fasta_chunks description sequence
  = (">" +:+ description +:+ Py.newline)
      :: ((fun l => l +:+ Py.newline)
            <$> ((fun k => substring (k * 80) 80 sequence)
                   <$> seq 0 ((String.length sequence + 79) / 80))).
Proof. unfold fasta_chunks. by rewrite sequence_lines. Qed.

Lemma slices_lookup (sequence : string) (k : nat) (l : string) :
  ((fun k => substring (k * 80) 80 sequence) <$> seq 0 ((String.length sequence + 79) / 80))
    !! k = Some l ->
  k < (String.length sequence + 79) / 80 /\
  l = substring (k * 80) 80 sequence /\
  String.length l = Nat.min 80 (String.length sequence - k * 80) /\
  k * 80 < String.length sequence.
Proof.
  rewrite list_lookup_fmap. intros Hk.
  destruct (seq 0 ((String.length sequence + 79) / 80) !! k) as [k'|] eqn:E; [|done].
  apply lookup_seq in E as [-> Hlt]. injection Hk as <-. cbn [Nat.add].
  split; [done|]. split; [done|]. split; [apply substring_length|].
  pose proof (ceil_bounds (String.length sequence)) as [_ Hub].
  destruct (String.length sequence) as [|n] eqn:En; [by cbn in Hlt; lia|].
  specialize (Hub ltac:(lia)). nia.
Qed.

Lemma slices_joined (sequence : string) :
  Py.join ((fun k => substring (k * 80) 80 sequence)
             <$> seq 0 ((String.length sequence + 79) / 80)) = sequence.
Proof.
  rewrite (slices_join 80 sequence _ 0).
  apply substring_all. by destruct (ceil_bounds (String.length sequence)).
Qed.

(** ** More on the stages *)

Lemma requested_app (l1 l2 : list Event) : requested (l1 ++ l2) = requested l1 ++ requested l2.
Proof. apply omap_app. Qed.

Lemma touched_app (l1 l2 : list Event) : touched (l1 ++ l2) = touched l1 ++ touched l2.
Proof. apply omap_app. Qed.

(** A wait posts nothing and touches no file. *)
Lemma wait_events_quiet (job_id : string) (log : list Event) :
  Forall (wait_event job_id) log ->
  existsb blank_job_id log = false /\ touched log = [] /\ first_io_error log = None.
Proof.
  induction 1 as [|e log He _ (IH1 & IH2 & IH3)]; [done|].
  destruct e; try done.
Qed.

(** Nor does the save stage post anything. *)
Lemma save_stage_quiet (log : list Event) :
  Forall (fun st => st = Save) (stages log) ->
  existsb blank_job_id log = false /\ requested log = [].
Proof.
  induction log as [|e log IH]; [done|].
  destruct e as [url r| | | | | |]; intros Hall; try (by inversion Hall).
  - exfalso.
    change (stages (EvGet url r :: log))
      with (match stage_of (EvGet url r) with
            | Some st => st :: stages log
            | None => stages log
            end) in Hall.
    unfold stage_of in Hall.
    destruct (Py.startswith uniprot_base_url url); by inversion Hall.
  - apply IH. by inversion Hall.
  - apply IH. by inversion Hall.
  - by apply IH.
Qed.

Section Answers.

Context {W : Type} `{External W}.

(** [fetch_uniprot_sequence], answer by answer. *)
Lemma fetch_uniprot_sequence_cases (uniprot_id : string) (w : W) :
  exists r0 w1 res op,
    requests_get (uniprot_base_url +:+ uniprot_id +:+ ".fasta") w = (r0, w1) /\
    fetch_uniprot_sequence uniprot_id w
      = Some (res, [EvGet (uniprot_base_url +:+ uniprot_id +:+ ".fasta") r0; EvStat op], w1) /\
    match r0 with
    | Returns response =>
        if (status_code response =? 200)%Z then
          res = parse_fasta (text response) /\
          op = match parse_fasta (text response) with
               | Some _ => IncrementStat sequences_fetched
               | None => AddError (uniprot_id +:+ ": Invalid FASTA format")
               end
        else
          res = None /\
          op = AddError (uniprot_id +:+ ": UniProt fetch failed - HTTP "
                           +:+ Py.str (status_code response))
    | Raises e => res = None /\ op = AddError (uniprot_id +:+ ": UniProt fetch error - " +:+ e)
    end.
Proof.
  unfold fetch_uniprot_sequence, parse_fasta. mred.
  destruct (requests_get _ w) as [[response|e] w1]; mred;
    repeat (case_test; mred);
    do 4 eexists; (split; [reflexivity|]); (split; [reflexivity|]);
    repeat match goal with E : _ = true |- _ => rewrite E; clear E
                         | E : _ = false |- _ => rewrite E; clear E end; done.
Qed.

(** [submit_to_interproscan], answer by answer. *)
Lemma submit_to_interproscan_cases (self : Pipeline) (uniprot_id sequence : string) (w : W) :
  exists r0 w1 res op,
    requests_post (interproscan_base_url +:+ "/run") (submission self sequence) w = (r0, w1) /\
    submit_to_interproscan self uniprot_id sequence w
      = Some (res,
              [EvPost (interproscan_base_url +:+ "/run") (submission self sequence) r0;
               EvStat op], w1) /\
    match r0 with
    | Returns response =>
        if (status_code response =? 200)%Z then
          res = Some (Py.strip (text response)) /\ op = IncrementStat interproscan_submitted
        else
          res = None /\
          op = AddError (uniprot_id +:+ ": InterProScan submission failed - HTTP "
                           +:+ Py.str (status_code response))
    | Raises e =>
        res = None /\ op = AddError (uniprot_id +:+ ": InterProScan submission error - " +:+ e)
    end.
Proof.
  unfold submit_to_interproscan, submission. mred.
  destruct (requests_post _ _ w) as [[response|e] w1]; mred;
    repeat (case_test; mred);
    do 4 eexists; (split; [reflexivity|]); (split; [reflexivity|]);
    repeat match goal with E : _ = true |- _ => rewrite E; clear E
                         | E : _ = false |- _ => rewrite E; clear E end; done.
Qed.

Ltac wait_events :=
  repeat (apply Forall_cons; split; [cbn; auto|]); try apply Forall_nil.

(** Every call of the polling loop is a call a wait for this job may make. *)
Lemma wait_loop_events (fuel : nat) (job_id uniprot_id : string) (max_wait start_time : Z)
    (w w' : W) (res : option Json) (log : list Event) :
  wait_loop fuel job_id uniprot_id max_wait start_time w = Some (res, log, w') ->
  Forall (wait_event job_id) log.
Proof.
  revert w res log.
  induction fuel as [|fuel IH]; intros w res log; rewrite wait_loop_unfold; mred;
    destruct (time_time w) as [t w1]; mred;
    destruct (t - start_time <? max_wait)%Z; mred; try discriminate;
    try (intros ?; simplify_eq; by wait_events).
  rewrite check_job_status_run.
  destruct (requests_get _ w1) as [r0 w2]. cbn [fst snd].
  destruct (status_of_poll r0 =? "FINISHED")%string.
  { rewrite get_interproscan_results_run.
    destruct (requests_get _ w2) as [r1 w3]. cbn [fst snd].
    destruct (truthy_opt (result_of_retrieval r1)); mred;
      intros ?; simplify_eq; by wait_events. }
  destruct (_ || _).
  { mred. intros ?; simplify_eq. by wait_events. }
  destruct (status_of_poll r0 =? "RUNNING")%string; mred;
    [destruct (time_time w2) as [t2 w3]; mred|];
    (destruct (wait_loop fuel _ _ _ _ _) as [[[res' log'] w'']|] eqn:Eloop; [|discriminate]);
    intros ?; simplify_eq; wait_events; by eapply IH.
Qed.

Lemma wait_for_completion_events (fuel : nat) (job_id uniprot_id : string) (max_wait : Z)
    (w w' : W) (res : option Json) (log : list Event) :
  wait_for_completion fuel job_id uniprot_id max_wait w = Some (res, log, w') ->
  Forall (wait_event job_id) log.
Proof.
  intros Hrun. apply wait_for_completion_run in Hrun as (s & rest & -> & Hloop & _).
  constructor; [done|]. by eapply wait_loop_events.
Qed.

Section Polls.

Context (now : W -> Z) (laws : ClockLaws now).

(** Every pass of the loop but the last takes [check_interval] seconds or
    more, so the polls are as many as the time left allows. *)
Lemma wait_loop_polls (fuel : nat) (job_id uniprot_id : string) (max_wait start_time : Z)
    (w w' : W) (res : option Json) (log : list Event) :
  wait_loop fuel job_id uniprot_id max_wait start_time w = Some (res, log, w') ->
  (check_interval * Z.of_nat (length (observed_statuses log))
   <= Z.max 0 (max_wait - (now w - start_time) + 29))%Z.
Proof.
  revert w res log. unfold check_interval.
  induction fuel as [|fuel IH]; intros w res log; rewrite wait_loop_unfold; mred;
    pose proof (time_reading now laws w) as [Ht1 Ht2];
    destruct (time_time w) as [t w1]; cbn [fst snd] in *; mred;
    destruct (t - start_time <? max_wait)%Z eqn:Et; mred; try discriminate;
    try (intros ?; simplify_eq; simpl; lia).
  apply Z.ltb_lt in Et.
  rewrite check_job_status_run.
  pose proof (get_mono now laws (interproscan_base_url +:+ "/status/" +:+ job_id) w1) as Hg.
  destruct (requests_get _ w1) as [r0 w2]. cbn [fst snd] in *.
  destruct (status_of_poll r0 =? "FINISHED")%string.
  { rewrite get_interproscan_results_run.
    destruct (requests_get _ w2) as [r1 w3]. cbn [fst snd].
    destruct (truthy_opt (result_of_retrieval r1)); mred;
      intros ?; simplify_eq; simpl; lia. }
  destruct (_ || _).
  { mred. intros ?; simplify_eq. simpl. lia. }
  destruct (status_of_poll r0 =? "RUNNING")%string; mred.
  - pose proof (time_reading now laws w2) as [Hu1 Hu2].
    destruct (time_time w2) as [t2 w3]; cbn [fst snd] in *; mred.
    pose proof (sleep_lasts now laws 30 w3) as Hs.
    destruct (wait_loop fuel _ _ _ _ _) as [[[res' log'] w'']|] eqn:Eloop; [|discriminate].
    intros ?; simplify_eq. apply IH in Eloop. simpl. unfold check_interval in *. lia.
  - pose proof (sleep_lasts now laws 30 w2) as Hs.
    destruct (wait_loop fuel _ _ _ _ _) as [[[res' log'] w'']|] eqn:Eloop; [|discriminate].
    intros ?; simplify_eq. apply IH in Eloop. simpl. unfold check_interval in *. lia.
Qed.

Lemma wait_for_completion_polls (fuel : nat) (job_id uniprot_id : string) (max_wait : Z)
    (w w' : W) (res : option Json) (log : list Event) :
  wait_for_completion fuel job_id uniprot_id max_wait w = Some (res, log, w') ->
  length (observed_statuses log) <= iterations_needed max_wait.
Proof.
  intros Hrun. pose proof (time_reading now laws w) as [Ht1 Ht2].
  apply wait_for_completion_run in Hrun as (s & rest & -> & Hloop & Hs).
  apply wait_loop_polls in Hloop. simpl. unfold iterations_needed, check_interval in *.
  destruct (Z_le_gt_dec max_wait 0) as [Hle|Hgt].
  - assert (length (observed_statuses rest) = 0) as -> by lia. lia.
  - apply Nat2Z.inj_le. rewrite Z2Nat.id by (apply Z.div_pos; lia).
    apply Z.div_le_lower_bound; lia.
Qed.

End Polls.

End Answers.

(** ** More on one protein *)

Lemma existsb_blank_app (l1 l2 : list Event) :
  existsb blank_job_id (l1 ++ l2) = existsb blank_job_id l1 || existsb blank_job_id l2.
Proof. apply existsb_app. Qed.

(** Every message of the script starts with the identifier of the protein. *)
Lemma own_message (uniprot_id rest : string) :
  Py.startswith ": " rest = true ->
  Py.startswith (uniprot_id +:+ ": ") (uniprot_id +:+ rest) = true.
Proof. intros Hrest. by rewrite startswith_app. Qed.

Section OneProtein.

Context {W : Type} `{External W}.

(** A run of [process_single_protein], answer by answer. *)
Lemma process_single_protein_stages (self : Pipeline) (fuel : nat) (uniprot_id : string)
    (w w' : W) (success : bool) (log : list Event) :
  process_single_protein self fuel uniprot_id w = Some (success, log, w') ->
  exists r0 w1 res1 op1,
    requests_get (uniprot_base_url +:+ uniprot_id +:+ ".fasta") w = (r0, w1) /\
    fetch_uniprot_sequence uniprot_id w
      = Some (res1, [EvGet (uniprot_base_url +:+ uniprot_id +:+ ".fasta") r0; EvStat op1], w1) /\
    match res1 with
    | None =>
        success = false /\ w' = w1 /\
        log = [EvGet (uniprot_base_url +:+ uniprot_id +:+ ".fasta") r0; EvStat op1;
               EvStat (IncrementStat failed)]
    | Some (sequence, description) =>
        exists p0 w2 res2 op2,
          requests_post (interproscan_base_url +:+ "/run") (submission self sequence) w1
            = (p0, w2) /\
          submit_to_interproscan self uniprot_id sequence w1
            = Some (res2,
                    [EvPost (interproscan_base_url +:+ "/run") (submission self sequence) p0;
                     EvStat op2], w2) /\
          if truthy_opt_str res2 then
            exists r3 l3 w3,
              wait_for_completion fuel (default "" res2) uniprot_id default_max_wait w2
                = Some (r3, l3, w3) /\
              match r3 with
              | Some r =>
                  truthy r = true /\
                  exists l4,
                    save_results self uniprot_id sequence description r w3 = Some (tt, l4, w') /\
                    success = true /\
                    log = [EvGet (uniprot_base_url +:+ uniprot_id +:+ ".fasta") r0; EvStat op1;
                           EvPost (interproscan_base_url +:+ "/run")
                             (submission self sequence) p0;
                           EvStat op2] ++ l3 ++ l4
              | None =>
                  success = false /\ w' = w3 /\
                  log = [EvGet (uniprot_base_url +:+ uniprot_id +:+ ".fasta") r0; EvStat op1;
                         EvPost (interproscan_base_url +:+ "/run")
                           (submission self sequence) p0;
                         EvStat op2] ++ l3 ++ [EvStat (IncrementStat failed)]
              end
          else
            success = false /\ w' = w2 /\
            log = [EvGet (uniprot_base_url +:+ uniprot_id +:+ ".fasta") r0; EvStat op1;
                   EvPost (interproscan_base_url +:+ "/run") (submission self sequence) p0;
                   EvStat op2; EvStat (IncrementStat failed)]
    end.
Proof.
  intros Hrun. apply process_single_protein_run in Hrun as (r1 & l1 & w1 & Hf & Hrun).
  destruct (fetch_uniprot_sequence_cases uniprot_id w) as (r0 & w1' & res1 & op1 & Hget & Hf' & _).
  rewrite Hf' in Hf. injection Hf as <- <- <-.
  exists r0, w1', res1, op1. split; [done|]. split; [done|].
  destruct res1 as [[sequence description]|]; [|by destruct Hrun as (-> & -> & ->)].
  destruct Hrun as (r2 & l2 & w2 & Hs & Hrun).
  destruct (submit_to_interproscan_cases self uniprot_id sequence w1')
    as (p0 & w2' & res2 & op2 & Hpost & Hs' & _).
  rewrite Hs' in Hs. injection Hs as <- <- <-.
  exists p0, w2', res2, op2. split; [done|]. split; [done|].
  destruct (truthy_opt_str res2); [|by destruct Hrun as (-> & -> & ->)].
  destruct Hrun as (r3 & l3 & w3 & Hw & Hrun). exists r3, l3, w3. split; [done|].
  destruct r3 as [r|]; [|by destruct Hrun as (-> & -> & ->)].
  destruct Hrun as (Htr & l4 & Hsave & -> & ->). split; [done|]. by exists l4.
Qed.

End OneProtein.

Section Messages.

Context {W : Type} `{External W}.

(** What a wait leaves on the statistics: the count of a completed job with
    a result, and otherwise one message, about this protein. *)
Lemma wait_for_completion_message (fuel : nat) (job_id uniprot_id : string) (max_wait : Z)
    (w w' : W) (res : option Json) (log : list Event) :
  wait_for_completion fuel job_id uniprot_id max_wait w = Some (res, log, w') ->
  match res with
  | Some r => truthy r = true /\ stat_ops log = [IncrementStat interproscan_completed]
  | None =>
      exists rest,
        stat_ops log = [AddError (uniprot_id +:+ rest)] /\ Py.startswith ": " rest = true
  end.
Proof.
  intros Hrun. apply wait_for_completion_run in Hrun as (s & rest & -> & Hloop & _).
  apply wait_loop_run in Hloop as (pre & _ & _ & _ & Hcases). simpl.
  destruct Hcases as [(_ & _ & -> & -> & _)|[(st & _ & _ & _ & -> & ->)|(rr & _ & _ & Hrr)]].
  - by eexists.
  - by eexists.
  - destruct (truthy_opt rr) eqn:Etr; destruct Hrr as [-> ->]; [|by eexists].
    destruct rr as [r|]; [done|done].
Qed.

(** What [save_results] leaves on the statistics. *)
Lemma save_results_message (self : Pipeline) (uniprot_id sequence description : string)
    (results : Json) (w w' : W) (log : list Event) :
  save_results self uniprot_id sequence description results w = Some (tt, log, w') ->
  existsb blank_job_id log = false /\ requested log = [] /\
  stat_ops log
  = match first_io_error log with
    | Some e => [AddError (uniprot_id +:+ ": Save error - " +:+ e)]
    | None => []
    end.
Proof.
  destruct (save_results_run self uniprot_id sequence description results w)
    as (l & w1 & -> & Hst & Hops).
  intros [= <- <-]. apply save_stage_quiet in Hst as [Hb Hr]. split; [done|]. split; [done|].
  destruct (first_io_error l); [done|]. by destruct Hops.
Qed.

End Messages.

(** ** More on saving *)

(** A file no call touches stays as it is. *)
Lemma replay_untouched (path : string) (log : list Event) (disk : gmap string string) :
  path ∉ touched log -> replay log disk !! path = disk !! path.
Proof.
  revert disk. induction log as [|e log IH]; intros disk Hp; [done|].
  change (replay (e :: log) disk) with (replay log (replay_event disk e)).
  destruct e as [| | | |p r|p c r|]; try (by apply IH).
  - rewrite IH by (simpl in Hp; set_solver).
    destruct r; [|done]. simpl. apply lookup_insert_ne. simpl in Hp. set_solver.
  - rewrite IH by (simpl in Hp; set_solver).
    destruct r; [|done]. simpl. destruct (disk !! p); [|done].
    apply lookup_insert_ne. simpl in Hp. set_solver.
Qed.

Section Saving.

Context {W : Type} `{External W}.

Lemma write_all_touched (path : string) (chunks : list string) (w w' : W)
    (r : Outcome unit) (log : list Event) :
  write_all path chunks w = Some (r, log, w') ->
  Forall (fun p => p = path) (touched log) /\ stat_ops log = [].
Proof.
  revert w log. induction chunks as [|c cs IH]; intros w log; cbn [write_all]; mred.
  - by intros [= <- <- <-].
  - destruct (file_write path c w) as [[[]|e] w1]; mred.
    + destruct (write_all path cs w1) as [[[r' log'] w'']|] eqn:E; [|done].
      intros [= <- <- <-]. apply IH in E as [Ht Hs]. simpl. split; [by constructor|done].
    + intros [= <- <- <-]. simpl. split; [by repeat constructor|done].
Qed.

Lemma write_file_touched (path : string) (chunks : list string) (w w' : W)
    (r : Outcome unit) (log : list Event) :
  write_file path chunks w = Some (r, log, w') ->
  Forall (fun p => p = path) (touched log) /\ stat_ops log = [] /\ log <> [] /\
  (r = Returns tt -> log = written path chunks).
Proof.
  unfold write_file. mred. destruct (file_open_w path w) as [[[]|e] w1]; mred.
  - destruct (write_all path chunks w1) as [[[r' log'] w'']|] eqn:E; [|done].
    intros [= <- <- <-]. pose proof (write_all_touched _ _ _ _ _ _ E) as [Ht Hs].
    simpl. split; [by constructor|]. split; [done|]. split; [done|]. intros ->.
    destruct (write_all_run path chunks w1) as (r & l & w2 & E' & _ & _ & Hr).
    rewrite E in E'. injection E' as <- <- <-. by destruct Hr as [-> _].
  - intros [= <- <- <-]. simpl. split; [by repeat constructor|done].
Qed.

(** [save_results] writes the sequence file and then, only when that went
    through, the result file; and logs afterwards. *)
Lemma save_results_order (self : Pipeline) (uniprot_id sequence description : string)
    (results : Json) (w : W) :
  exists l_fasta l_json l_stat w',
    save_results self uniprot_id sequence description results w
      = Some (tt, l_fasta ++ l_json ++ l_stat, w') /\
    Forall (fun p => p = fasta_path self uniprot_id) (touched l_fasta) /\
    Forall (fun p => p = json_path self uniprot_id) (touched l_json) /\
    touched l_stat = [] /\
    (l_json <> [] ->
     l_fasta = written (fasta_path self uniprot_id) (fasta_chunks description sequence)).
Proof.
  unfold save_results. mred.
  destruct (write_file (fasta_path self uniprot_id) (fasta_chunks description sequence) w)
    as [[[r1 l1] w1]|] eqn:E1.
  2:{ destruct (write_file_run (fasta_path self uniprot_id)
                  (fasta_chunks description sequence) w) as (? & ? & ? & E & _).
      by rewrite E in E1. }
  pose proof (write_file_touched _ _ _ _ _ _ E1) as (Ht1 & _ & _ & Hr1).
  destruct r1 as [[]|e]; mred.
  - destruct (write_file (json_path self uniprot_id) [json_dumps results] w1)
      as [[[r2 l2] w2]|] eqn:E2.
    2:{ destruct (write_file_run (json_path self uniprot_id) [json_dumps results] w1)
          as (? & ? & ? & E & _). by rewrite E in E2. }
    pose proof (write_file_touched _ _ _ _ _ _ E2) as (Ht2 & _ & _ & _).
    destruct r2 as [[]|e]; mred.
    + exists l1, l2, [], w2. rewrite !app_nil_r. repeat split; auto.
    + eexists l1, l2, [_], w2. repeat split; auto.
  - eexists l1, [], [_], w1. repeat split; auto. done.
Qed.

End Saving.

(** ** More on the pool *)

Lemma startswith_refl (p : string) : Py.startswith p p = true.
Proof. induction p as [|c p IH]; [done|]. cbn. by rewrite Ascii.eqb_refl. Qed.

Section OneTask.

Context {W : Type} `{External W}.

(** The calls a run of [process_single_protein] makes on the statistics. *)
Lemma process_single_protein_ops (self : Pipeline) (fuel : nat) (uniprot_id : string)
    (w w' : W) (success : bool) (log : list Event) :
  process_single_protein self fuel uniprot_id w = Some (success, log, w') ->
  exists msg,
    Py.startswith (uniprot_id +:+ ": ") msg = true /\
    (stat_ops log = [AddError msg; IncrementStat failed]
     \/ stat_ops log = [IncrementStat sequences_fetched; AddError msg; IncrementStat failed]
     \/ stat_ops log = [IncrementStat sequences_fetched; IncrementStat interproscan_submitted;
                        IncrementStat failed]
     \/ stat_ops log = [IncrementStat sequences_fetched; IncrementStat interproscan_submitted;
                        AddError msg; IncrementStat failed]
     \/ stat_ops log = [IncrementStat sequences_fetched; IncrementStat interproscan_submitted;
                        IncrementStat interproscan_completed]
     \/ stat_ops log = [IncrementStat sequences_fetched; IncrementStat interproscan_submitted;
                        IncrementStat interproscan_completed; AddError msg]).
Proof.
  intros Hrun.
  apply process_single_protein_stages in Hrun as (r0 & w1 & res1 & op1 & Hget & Hf & Hrun).
  destruct (fetch_uniprot_sequence_cases uniprot_id w)
    as (r0' & w1' & res1' & op1' & Hget' & Hf' & Hop1).
  rewrite Hget in Hget'. injection Hget' as <- <-. rewrite Hf in Hf'. injection Hf' as <- <-.
  destruct res1 as [[sequence description]|].
  2:{ destruct Hrun as (-> & _ & ->).
      assert (exists rest, op1 = AddError (uniprot_id +:+ rest) /\ Py.startswith ": " rest = true)
        as (rest & -> & Hrest).
      { destruct r0 as [response|e]; [destruct (status_code response =? 200)%Z|];
          destruct Hop1 as [Hres ->]; [rewrite <- Hres| |]; by eexists. }
      eexists. split; [|by left]. by apply own_message. }
  assert (op1 = IncrementStat sequences_fetched) as ->.
  { destruct r0 as [response|e]; [destruct (status_code response =? 200)%Z|];
      destruct Hop1 as [Hres ->]; [by rewrite <- Hres|done|done]. }
  destruct Hrun as (p0 & w2 & res2 & op2 & Hpost & Hs & Hrun).
  destruct (submit_to_interproscan_cases self uniprot_id sequence w1)
    as (p0' & w2' & res2' & op2' & Hpost' & Hs' & Hop2).
  rewrite Hpost in Hpost'. injection Hpost' as <- <-. rewrite Hs in Hs'. injection Hs' as <- <-.
  destruct p0 as [response|e]; [destruct (status_code response =? 200)%Z eqn:Ecode|];
    destruct Hop2 as [-> ->]; cbn [truthy_opt_str] in Hrun.
  2,3: destruct Hrun as (-> & _ & ->); eexists; (split; [|right; by left]);
       by apply own_message.
  destruct (Py.truthy_str (Py.strip (text response))) eqn:Ejob.
  2:{ destruct Hrun as (-> & _ & ->). exists (uniprot_id +:+ ": ").
      split; [apply startswith_refl|]. right; right; by left. }
  destruct Hrun as (r3 & l3 & w3 & Hw & Hrun).
  pose proof (wait_for_completion_message _ _ _ _ _ _ _ _ Hw) as Hm3.
  destruct r3 as [r|].
  - destruct Hm3 as [_ Hops3]. destruct Hrun as (_ & l4 & Hsave & -> & ->).
    apply save_results_message in Hsave as (_ & _ & Hops4).
    rewrite !stat_ops_app, Hops3, Hops4.
    destruct (first_io_error l4).
    + eexists. split; [|do 5 right; done]. by apply own_message.
    + exists (uniprot_id +:+ ": "). split; [apply startswith_refl|]. do 4 right. by left.
  - destruct Hm3 as (rest & Hops3 & Hrest). destruct Hrun as (-> & _ & ->).
    rewrite !stat_ops_app, Hops3.
    eexists. split; [|do 3 right; by left]. by apply own_message.
Qed.

Lemma process_single_protein_funnelled (self : Pipeline) (fuel : nat) (uniprot_id : string)
    (w w' : W) (success : bool) (log : list Event) :
  process_single_protein self fuel uniprot_id w = Some (success, log, w') ->
  funnelled uniprot_id (stat_ops log).
Proof.
  intros (msg & Hmsg & Hops)%process_single_protein_ops. unfold funnelled.
  destruct Hops as [-> | [-> | [-> | [-> | [-> | ->]]]]]; cbn;
    repeat split; try lia; by repeat constructor.
Qed.

(** Task by task, what [run_tasks] returns is a run of
    [process_single_protein] on the identifier of the task. *)
Lemma run_tasks_runs (self : Pipeline) (fuel : nat) (uniprot_ids : list string)
    (view : nat -> W) (tasks : list (FutureResult * list Event)) :
  run_tasks self fuel uniprot_ids view = Some tasks ->
  Forall2 (fun uniprot_id task =>
             exists i success w',
               process_single_protein self fuel uniprot_id (view i)
                 = Some (success, task.2, w') /\
               task.1 = Returned success) uniprot_ids tasks.
Proof.
  unfold run_tasks. intros Hrun%mapM_Some_1. revert Hrun. generalize 0 as start.
  revert tasks. induction uniprot_ids as [|uniprot_id ids IH]; intros tasks start Hrun.
  - inversion Hrun. constructor.
  - cbn in Hrun. inversion Hrun as [|p task ps tasks' Hp Hrest]; subst. constructor.
    + unfold run_task in Hp. cbn in Hp.
      destruct (process_single_protein self fuel uniprot_id (view start))
        as [[[success log] w']|] eqn:E; [|done].
      injection Hp as <-. by exists start, success, w'.
    + by eapply IH.
Qed.

End OneTask.

(** Over all tasks, the counts keep the order of the stages. *)
Lemma tasks_funnelled (uniprot_ids : list string) (tasks : list (FutureResult * list Event)) :
  Forall2 (fun uniprot_id task => funnelled uniprot_id (stat_ops task.2)) uniprot_ids tasks ->
  let ops := concat ((fun task => stat_ops task.2) <$> tasks) in
  occurrences (IncrementStat interproscan_completed) ops
    <= occurrences (IncrementStat interproscan_submitted) ops /\
  occurrences (IncrementStat interproscan_submitted) ops
    <= occurrences (IncrementStat sequences_fetched) ops /\
  occurrences (IncrementStat sequences_fetched) ops <= length uniprot_ids /\
  length (messages ops) <= length uniprot_ids /\
  Forall (fun msg => exists uniprot_id,
                       uniprot_id ∈ uniprot_ids /\
                       Py.startswith (uniprot_id +:+ ": ") msg = true) (messages ops).
Proof.
  induction 1 as [|uniprot_id task ids tasks (H1 & H2 & H3 & H4 & H5) _ (IH1 & IH2 & IH3 & IH4 & IH5)];
    [by cbn|].
  cbn zeta in *. rewrite fmap_cons.
  change (concat (?l :: ?ls)) with (l ++ concat ls).
  rewrite !occurrences_app, messages_app, length_app. cbn [length].
  repeat split; try lia. apply Forall_app. split.
  - eapply Forall_impl; [exact H5|]. intros msg Hmsg. exists uniprot_id. split; [left|done].
  - eapply Forall_impl; [exact IH5|]. intros msg (id & Hid & Hmsg). exists id. split; [by right|done].
Qed.

(** ** The main thread *)

Lemma main_program_perm (uniprot_ids : list string) (results : list FutureResult)
    (c1 c2 : list nat) :
  c1 ≡ₚ c2 -> main_program uniprot_ids results c1 ≡ₚ main_program uniprot_ids results c2.
Proof. unfold main_program. by intros ->. Qed.

Lemma main_program_seq (uniprot_ids : list string) (results : list FutureResult) :
  length uniprot_ids = length results ->
  main_program uniprot_ids results (seq 0 (length uniprot_ids))
  = concat (zip_with coordinator_ops uniprot_ids results).
Proof.
  unfold main_program. revert results.
  induction uniprot_ids as [|uniprot_id ids IH]; intros [|r results] Hlen; try done.
  injection Hlen as Hlen. cbn [length seq zip_with]. rewrite bind_cons. cbn [lookup list_lookup].
  change (concat (?l :: ?ls)) with (l ++ concat ls). f_equal.
  rewrite <- (IH results Hlen), <- fmap_S_seq, list_fmap_bind. done.
Qed.

(** The statistics at the end of a run of the pool: [total] as it was set,
    and every other counter and the log as the calls of the tasks and of the
    main thread make them. *)
Lemma pool_finished (uniprot_ids : list string) (tasks : list (FutureResult * list Event))
    (sch : Schedule) (c : Locking.Config) :
  length tasks = length uniprot_ids ->
  valid_schedule (length uniprot_ids) sch ->
  rtc Locking.step (pool uniprot_ids tasks sch) c -> Locking.finished c = true ->
  let ops := concat ((fun task => stat_ops task.2) <$> tasks)
               ++ concat (zip_with coordinator_ops uniprot_ids (fst <$> tasks)) in
  (forall k,
      counter (Locking.stats c) k
      = (if decide (k = total) then length uniprot_ids else 0)
        + occurrences (IncrementStat k) ops) /\
  errors (Locking.stats c) ≡ₚ messages ops.
Proof.
  intros Hn (Hlen & Hassign & Hcompl) Hreach Hfin. cbn zeta. unfold pool in Hreach.
  set (s0 := set_counter total (length uniprot_ids) initial_stats) in *.
  set (programs := _ ++ [_]) in *.
  pose proof (LockingFacts.inv_reachable s0 programs c Hreach) as HI.
  destruct (LockingFacts.inv_finished _ _ _ HI Hfin) as (order & Hperm & ->).
  assert (concat programs
          ≡ₚ concat ((fun task => stat_ops task.2) <$> tasks)
               ++ concat (zip_with coordinator_ops uniprot_ids (fst <$> tasks))) as Hall.
  { subst programs. rewrite concat_app. cbn [concat]. rewrite app_nil_r.
    apply Permutation_app.
    - apply worker_programs_perm; [by rewrite length_fmap, Hn|done].
    - rewrite (main_program_perm _ _ _ _ Hcompl).
      by rewrite main_program_seq by (by rewrite length_fmap). }
  split.
  - intros k. rewrite apply_ops_counter, (occurrences_perm _ _ _ Hperm),
      (occurrences_perm _ _ _ Hall). f_equal.
  - rewrite apply_ops_errors. cbn. by rewrite (messages_perm _ _ Hperm), (messages_perm _ _ Hall).
Qed.

Lemma pool_finishes (uniprot_ids : list string) (tasks : list (FutureResult * list Event))
    (sch : Schedule) :
  exists c, rtc Locking.step (pool uniprot_ids tasks sch) c /\ Locking.finished c = true.
Proof. unfold pool. eapply LockingFacts.inv_finishes, LockingFacts.inv_initial. Qed.

Lemma coordinator_ops_returned (uniprot_ids : list string) (results : list FutureResult) :
  Forall (fun r => exists success, r = Returned success) results ->
  concat (zip_with coordinator_ops uniprot_ids results) = [].
Proof.
  intros Hres. revert uniprot_ids.
  induction Hres as [|r results [success ->] _ IH]; intros [|uniprot_id ids]; try done.
  cbn. apply IH.
Qed.

(** A task that returned has counted itself; one that raised, without
    having counted itself, is counted by the main thread. *)
Lemma tasks_counts_with_raised (uniprot_ids : list string)
    (tasks : list (FutureResult * list Event)) :
  length tasks = length uniprot_ids ->
  Forall (fun task =>
            counted_once task
            \/ ((exists e, task.1 = Raised e) /\ outcome_free (stat_ops task.2))) tasks ->
  let ops := concat ((fun task => stat_ops task.2) <$> tasks)
               ++ concat (zip_with coordinator_ops uniprot_ids (fst <$> tasks)) in
  occurrences (IncrementStat interproscan_completed) ops
    + occurrences (IncrementStat failed) ops = length tasks /\
  occurrences (IncrementStat total) ops = 0.
Proof.
  intros Hlen Hall. revert uniprot_ids Hlen.
  induction Hall as [|task tasks Htask _ IH]; intros [|uniprot_id ids] Hlen; try done.
  injection Hlen as Hlen. destruct (IH ids Hlen) as [IH1 IH2]. cbn zeta in *.
  rewrite !fmap_cons. cbn [zip_with].
  change (concat (?l :: ?ls)) with (l ++ concat ls).
  rewrite !occurrences_app in *. cbn [length].
  destruct Htask as [(success & Hres & Hc & Hf & Ht)|[[e Hres] (Hc & Hf & Ht)]];
    rewrite Hres, Hc, Hf, Ht; cbn [coordinator_ops].
  - destruct success; cbn; lia.
  - rewrite !occurrences_cons. cbn [occurrences filter length] in *.
    repeat (rewrite (decide_False (P := AddError _ = _)) by done).
    rewrite (decide_False (P := IncrementStat failed = IncrementStat interproscan_completed))
      by done.
    rewrite (decide_False (P := IncrementStat failed = IncrementStat total)) by done.
    rewrite (decide_True (P := IncrementStat failed = IncrementStat failed)) by done.
    cbn. lia.
Qed.

Lemma raised_message (uniprot_ids : list string) (results : list FutureResult) (i : nat)
    (uniprot_id e : string) :
  uniprot_ids !! i = Some uniprot_id -> results !! i = Some (Raised e) ->
  uniprot_id +:+ ": Exception - " +:+ e
    ∈ messages (concat (zip_with coordinator_ops uniprot_ids results)).
Proof.
  revert results i. induction uniprot_ids as [|id ids IH]; intros [|r results] [|i] Hid Hr;
    try done.
  - injection Hid as ->. injection Hr as ->. cbn. left.
  - cbn [zip_with]. change (concat (?l :: ?ls)) with (l ++ concat ls).
    rewrite messages_app. apply elem_of_app. right. by eapply IH.
Qed.

(** ** Counting requests *)

Lemma posted_app (l1 l2 : list Event) : posted (l1 ++ l2) = posted l1 ++ posted l2.
Proof. apply omap_app. Qed.

(** The GET requests of a wait are its polls and its retrievals. *)
Lemma wait_events_requested (job_id : string) (log : list Event) :
  Forall (wait_event job_id) log ->
  length (requested log) = length (observed_statuses log) + length (retrieved log) /\
  posted log = [].
Proof.
  induction 1 as [|e log He _ [IH1 IH2]]; [done|].
  destruct e as [url r| | | | | |]; try done.
  destruct He as [-> | ->]; simpl; rewrite IH1; split; try done; lia.
Qed.

Lemma save_stage_posts_nothing (log : list Event) :
  Forall (fun st => st = Save) (stages log) -> posted log = [].
Proof.
  induction log as [|e log IH]; [done|].
  destruct e as [url r| | | | | |]; intros Hall; try (by inversion Hall).
  - exfalso.
    change (stages (EvGet url r :: log))
      with (match stage_of (EvGet url r) with
            | Some st => st :: stages log
            | None => stages log
            end) in Hall.
    unfold stage_of in Hall.
    destruct (Py.startswith uniprot_base_url url); by inversion Hall.
  - apply IH. by inversion Hall.
  - apply IH. by inversion Hall.
  - by apply IH.
Qed.

(** A request to UniProt is neither a poll nor a retrieval. *)
Lemma fetch_request_read (uniprot_id : string) (r : Outcome Response) (log : list Event) :
  observed_statuses (EvGet (uniprot_base_url +:+ uniprot_id +:+ ".fasta") r :: log)
    = observed_statuses log /\
  retrieved (EvGet (uniprot_base_url +:+ uniprot_id +:+ ".fasta") r :: log) = retrieved log.
Proof. done. Qed.

(** * Further properties *)

(** ** The input file *)

(** X1.  Whatever the text of the input file, [read_uniprot_ids] returns
    identifiers that are not empty, have no white space at either end and
    hold no line feed. *)
Theorem read_uniprot_ids_clean (text : string) :
  exists uniprot_ids,
    read_uniprot_ids (Returns text) = inr uniprot_ids /\
    Forall (fun uniprot_id =>
              uniprot_id <> "" /\ Py.strip uniprot_id = uniprot_id /\
              Py.contains "010" uniprot_id = false) uniprot_ids.
Proof.
  eexists. split; [done|]. rewrite stripped_lines_readlines.
  apply stripped_lines_clean, split_pieces.
Qed.

(** X2.  [read_uniprot_ids] works line by line: the identifiers of two texts
    put together with a line feed between them are those of the first
    followed by those of the second, in order and with repetitions; a line
    feed at the end of the text changes nothing; and a text without line
    feed gives its stripped self, or nothing when that is empty. *)
Theorem read_uniprot_ids_line_by_line (a b : string) (ids_a ids_b : list string) :
  read_uniprot_ids (Returns a) = inr ids_a ->
  read_uniprot_ids (Returns b) = inr ids_b ->
  read_uniprot_ids (Returns (a +:+ Py.newline +:+ b)) = inr (ids_a ++ ids_b) /\
  read_uniprot_ids (Returns (a +:+ Py.newline)) = inr ids_a /\
  (Py.contains "010" a = false ->
   ids_a = if Py.truthy_str (Py.strip a) then [Py.strip a] else []).
Proof.
  unfold read_uniprot_ids. intros [= <-] [= <-]. rewrite !stripped_lines_readlines.
  change (a +:+ Py.newline +:+ b) with (a +:+ String "010" b).
  change (a +:+ Py.newline) with (a +:+ String "010" "").
  rewrite !split_app, !stripped_lines_app. split; [done|]. split.
  - by rewrite app_nil_r.
  - intros Ha. rewrite (split_free _ _ Ha), stripped_lines_cons. apply app_nil_r.
Qed.

Lemma read_uniprot_ids_line_by_line_witness :
  read_uniprot_ids (Returns Example.input_text) = inr ["P12345"; "P12345"] /\
  read_uniprot_ids (Returns Example.other_text) = inr ["Q9Y6K9"] /\
  read_uniprot_ids (Returns (Example.input_text +:+ Py.newline +:+ Example.other_text))
    = inr (["P12345"; "P12345"] ++ ["Q9Y6K9"]).
Proof.
  assert (read_uniprot_ids (Returns Example.input_text) = inr ["P12345"; "P12345"]) as Ha
    by (by vm_compute).
  assert (read_uniprot_ids (Returns Example.other_text) = inr ["Q9Y6K9"]) as Hb
    by (by vm_compute).
  split; [done|]. split; [done|].
  exact (proj1 (read_uniprot_ids_line_by_line _ _ _ _ Ha Hb)).
Defined.

(** ** FASTA text *)

(** X3.  The sequence file is the header line and then the sequence cut
    into lines: the lines joined are the sequence, there are as many as
    [len(sequence) / 80] rounded up, none is empty or longer than 80
    characters, and all but the last have exactly 80. *)
Theorem sequence_file_lines (description sequence : string) :
  exists lines,
    fasta_chunks description sequence
      = (">" +:+ description +:+ Py.newline) :: ((fun l => l +:+ Py.newline) <$> lines) /\
    Py.join lines = sequence /\
    length lines = (String.length sequence + 79) / 80 /\
    Forall (fun l => 1 <= String.length l <= 80) lines /\
    Forall (fun l => String.length l = 80) (removelast lines).
Proof.
  eexists. split; [apply fasta_chunks_slices|]. split; [apply slices_joined|].
  split; [by rewrite length_fmap, length_seq|]. split.
  - apply Forall_lookup. intros k l (_ & _ & Hlen & Hk)%slices_lookup. lia.
  - rewrite removelast_firstn_len. apply Forall_lookup. intros k l Hk.
    change (firstn ?n ?l) with (take n l) in Hk.
    apply lookup_take_Some in Hk as [Hk Hlt].
    rewrite length_fmap, length_seq in Hlt.
    apply slices_lookup in Hk as (_ & _ & Hlen & _).
    pose proof (ceil_bounds (String.length sequence)) as [_ Hub].
    destruct (String.length sequence) as [|n]; [by cbn in Hlt; lia|].
    specialize (Hub ltac:(lia)). nia.
Qed.

(** X4.  What [fetch_uniprot_sequence] makes of a text, written out by
    [save_results] and read again the same way, is the same sequence and
    description. *)
Theorem sequence_file_parses_back (text sequence description : string) :
  parse_fasta text = Some (sequence, description) ->
  parse_fasta (Py.join (fasta_chunks description sequence)) = Some (sequence, description).
Proof.
  intros (Hne & Hnl & Hfix & Hd)%parse_fasta_some.
  rewrite fasta_chunks_slices.
  pose proof (slices_joined sequence) as Hj. pose proof (slices_lookup sequence) as Hlook.
  assert (0 < (String.length sequence + 79) / 80) as Hlines.
  { destruct sequence as [|c s]; [done|]. cbn [String.length].
    replace (S (String.length s) + 79) with (String.length s + 1 * 80) by lia.
    rewrite Nat.div_add by done. lia. }
  set (lines := _ <$> seq 0 _) in *. rewrite <- Hj.
  apply parse_fasta_lines; rewrite ?Hj; try done.
  - intros Hnil. subst lines. apply (f_equal length) in Hnil.
    rewrite length_fmap, length_seq in Hnil. cbn [length] in Hnil. lia.
  - apply Forall_lookup. intros k l (_ & _ & Hlen & Hk)%Hlook.
    intros ->. cbn [String.length] in Hlen. lia.
Qed.

Lemma sequence_file_parses_back_witness :
  exists sequence description,
    parse_fasta Example.fasta_text = Some (sequence, description) /\
    parse_fasta (Py.join (fasta_chunks description sequence)) = Some (sequence, description).
Proof.
  let v := eval vm_compute in (parse_fasta Example.fasta_text) in
  lazymatch v with
  | Some (?s, ?d) =>
      exists s, d;
      assert (parse_fasta Example.fasta_text = Some (s, d)) as Hparse by (by vm_compute);
      split; [exact Hparse|exact (sequence_file_parses_back _ _ _ Hparse)]
  end.
Defined.

(** ** The fetch and the wait *)

Section FetchAndWait.

Context {W : Type} `{External W}.

(** X5.  On an answer 200, [fetch_uniprot_sequence] succeeds exactly when the
    stripped body has a line feed.  The sequence it then returns is not
    empty, holds no line feed and does not end in white space, the
    description holds no line feed, and [sequences_fetched] is incremented;
    otherwise the one call on the statistics is the "Invalid FASTA format"
    entry. *)
Theorem fetch_uniprot_sequence_parses (uniprot_id : string) (w w1 : W) (response : Response) :
  requests_get (uniprot_base_url +:+ uniprot_id +:+ ".fasta") w = (Returns response, w1) ->
  status_code response = 200%Z ->
  exists res op,
    fetch_uniprot_sequence uniprot_id w
      = Some (res,
              [EvGet (uniprot_base_url +:+ uniprot_id +:+ ".fasta") (Returns response);
               EvStat op], w1) /\
    res = parse_fasta (text response) /\
    if Py.contains "010" (Py.strip (text response)) then
      op = IncrementStat sequences_fetched /\
      exists sequence description,
        res = Some (sequence, description) /\ sequence <> "" /\
        Py.contains "010" sequence = false /\ Py.rstrip sequence = sequence /\
        Py.contains "010" description = false
    else
      res = None /\ op = AddError (uniprot_id +:+ ": Invalid FASTA format").
Proof.
  intros Hget Hcode.
  destruct (fetch_uniprot_sequence_cases uniprot_id w) as (r0 & w1' & res & op & Hget' & Hrun & Hres).
  rewrite Hget in Hget'. injection Hget' as <- <-. rewrite Hcode in Hres.
  destruct Hres as [-> ->]. eexists _, _. split; [exact Hrun|]. split; [done|].
  destruct (Py.contains "010" (Py.strip (text response))) eqn:Hc.
  - destruct (parse_fasta (text response)) as [[sequence description]|] eqn:Hp.
    + split; [done|]. exists sequence, description. split; [done|].
      by apply (parse_fasta_some (text response)).
    + apply parse_fasta_none in Hp. congruence.
  - apply parse_fasta_none in Hc. by rewrite Hc.
Qed.

(** X6.  With a clock that keeps its laws, a wait polls the service at most
    [max_wait / 30] times, rounded up, whatever the service answers: 120
    times with the default of an hour.  It sleeps at most once for each
    poll, [check_interval] seconds each time. *)
Theorem polls_are_bounded
    (now : W -> Z) (laws : ClockLaws now) (fuel : nat) (job_id uniprot_id : string)
    (max_wait : Z) (w : W) :
  iterations_needed max_wait <= fuel ->
  exists res log w',
    wait_for_completion fuel job_id uniprot_id max_wait w = Some (res, log, w') /\
    length (observed_statuses log) <= iterations_needed max_wait /\
    length (sleeps log) <= length (observed_statuses log) /\
    Forall (fun d => d = check_interval) (sleeps log) /\
    iterations_needed default_max_wait = 120.
Proof.
  intros Hfuel.
  destruct (wait_for_completion_terminates now laws fuel job_id uniprot_id max_wait w Hfuel)
    as [[[res log] w'] Hrun].
  exists res, log, w'. split; [done|].
  split; [by eapply wait_for_completion_polls|].
  apply wait_for_completion_run in Hrun as (s & rest & -> & Hloop & _).
  apply wait_loop_run in Hloop as (pre & _ & Hsl & _ & Hcases). simpl. rewrite Hsl.
  split; [|split; [by apply Forall_replicate|done]]. rewrite length_replicate.
  destruct Hcases as [(-> & _)|[(st & _ & -> & _)|(rr & -> & _)]];
    rewrite ?length_app; cbn [length]; lia.
Qed.

(** X7.  A wait only reads the clock, sleeps, asks for the status of its job
    and asks for its result.  It never polls again after FINISHED, ERROR or
    FAILURE; it asks for the result at most once, and only when the last
    status was FINISHED; what it returns is the document retrieved when that
    counts as true, and nothing otherwise; and it makes one call on the
    statistics, [interproscan_completed] exactly when it returns a
    document. *)
Theorem wait_for_completion_protocol
    (now : W -> Z) (laws : ClockLaws now) (fuel : nat) (job_id uniprot_id : string)
    (max_wait : Z) (w : W) :
  iterations_needed max_wait <= fuel ->
  exists res log w',
    wait_for_completion fuel job_id uniprot_id max_wait w = Some (res, log, w') /\
    Forall (wait_event job_id) log /\
    Forall (fun st => is_terminal st = false) (removelast (observed_statuses log)) /\
    match retrieved log with
    | [] => res = None
    | [rr] =>
        last (observed_statuses log) = Some "FINISHED" /\
        res = (if truthy_opt rr then rr else None)
    | _ => False
    end /\
    length (stat_ops log) = 1 /\
    (is_Some res <-> stat_ops log = [IncrementStat interproscan_completed]).
Proof.
  intros Hfuel.
  destruct (wait_for_completion_terminates now laws fuel job_id uniprot_id max_wait w Hfuel)
    as [[[res log] w'] Hrun].
  exists res, log, w'. split; [done|].
  split; [by eapply wait_for_completion_events|].
  apply wait_for_completion_run in Hrun as (s & rest & -> & Hloop & _).
  apply wait_loop_run in Hloop as (pre & Hpre & _ & _ & Hcases). simpl.
  destruct Hcases as [(-> & -> & -> & -> & _)
                     |[(st & Hst & -> & -> & -> & ->)|(rr & -> & -> & Hres)]].
  - split; [|split; [done|split; [done|]]].
    + rewrite removelast_firstn_len. by apply Forall_take.
    + split; [by intros [? ?]|done].
  - split; [|split; [done|split; [done|]]].
    + by rewrite removelast_last.
    + split; [by intros [? ?]|done].
  - rewrite removelast_last, last_snoc. split; [done|].
    destruct (truthy_opt rr) eqn:Etr; destruct Hres as [-> ->].
    + split; [done|]. split; [done|]. split; [done|]. destruct rr; [by eexists|done].
    + split; [done|]. split; [done|]. split; [by intros [? ?]|done].
Qed.

End FetchAndWait.

Lemma fetch_uniprot_sequence_parses_witness :
  exists res op w1,
    fetch_uniprot_sequence "P12345" (Example.world_ok [])
      = Some (res,
              [EvGet (uniprot_base_url +:+ "P12345" +:+ ".fasta")
                 (Scripted.ok Example.fasta_text None);
               EvStat op], w1) /\
    is_Some res /\ op = IncrementStat sequences_fetched.
Proof.
  assert (requests_get (uniprot_base_url +:+ "P12345" +:+ ".fasta") (Example.world_ok [])
          = (Returns (mkResponse 200 Example.fasta_text None),
             Scripted.mkWorld 0
               [Scripted.ok "RUNNING" None; Scripted.ok "FINISHED" None;
                Scripted.ok "" (Some Example.annotation)]
               [Scripted.ok Example.job_id None] [])) as Hget by reflexivity.
  destruct (fetch_uniprot_sequence_parses "P12345" _ _ _ Hget eq_refl)
    as (res & op & Hrun & _ & Hres).
  eexists res, op, _. split; [exact Hrun|].
  assert (Py.contains "010" (Py.strip Example.fasta_text) = true) as Hc by (by vm_compute).
  cbn [text] in Hres. rewrite Hc in Hres.
  destruct Hres as (-> & sequence & description & -> & _). by split; [eexists|].
Defined.

Lemma polls_are_bounded_witness :
  exists res log w',
    wait_for_completion 120 Example.job_id "P12345" 3600
      (Example.polling ["RUNNING"; "RUNNING"; "FINISHED"] Example.annotation)
    = Some (res, log, w') /\
    length (observed_statuses log) <= iterations_needed 3600 /\
    length (sleeps log) <= length (observed_statuses log) /\
    Forall (fun d => d = check_interval) (sleeps log) /\
    iterations_needed default_max_wait = 120.
Proof.
  apply (polls_are_bounded Scripted.now scripted_clock_laws). by vm_compute.
Defined.

Lemma wait_for_completion_protocol_witness :
  exists res log w',
    wait_for_completion 120 Example.job_id "P12345" 3600
      (Example.polling ["RUNNING"; "QUEUED"; "FAILURE"] Example.annotation)
    = Some (res, log, w') /\
    Forall (wait_event Example.job_id) log /\
    Forall (fun st => is_terminal st = false) (removelast (observed_statuses log)) /\
    match retrieved log with
    | [] => res = None
    | [rr] =>
        last (observed_statuses log) = Some "FINISHED" /\
        res = (if truthy_opt rr then rr else None)
    | _ => False
    end /\
    length (stat_ops log) = 1 /\
    (is_Some res <-> stat_ops log = [IncrementStat interproscan_completed]).
Proof.
  apply (wait_for_completion_protocol Scripted.now scripted_clock_laws). by vm_compute.
Defined.

(** ** One protein *)

Section OneRun.

Context {W : Type} `{External W}.

(** X8.  Every message a run of [process_single_protein] logs starts with
    the identifier and ": ".  A run that fails logs exactly one message,
    unless the submission was answered 200 with a blank body, when it logs
    none; a run that succeeds logs none, or one when saving raised. *)
Theorem failures_are_logged_once
    (now : W -> Z) (laws : ClockLaws now) (self : Pipeline) (fuel : nat)
    (uniprot_id : string) (w : W) :
  iterations_needed default_max_wait <= fuel ->
  exists success log w',
    process_single_protein self fuel uniprot_id w = Some (success, log, w') /\
    Forall (fun msg => Py.startswith (uniprot_id +:+ ": ") msg = true)
      (messages (stat_ops log)) /\
    length (messages (stat_ops log))
    = if success then match first_io_error log with Some _ => 1 | None => 0 end
      else if existsb blank_job_id log then 0 else 1.
Proof.
  intros Hfuel.
  destruct (process_single_protein_terminates now laws self fuel uniprot_id w Hfuel)
    as [[[success log] w'] Hrun].
  exists success, log, w'. split; [done|].
  apply process_single_protein_stages in Hrun as (r0 & w1 & res1 & op1 & Hget & Hf & Hrun).
  destruct (fetch_uniprot_sequence_cases uniprot_id w)
    as (r0' & w1' & res1' & op1' & Hget' & Hf' & Hop1).
  rewrite Hget in Hget'. injection Hget' as <- <-. rewrite Hf in Hf'. injection Hf' as <- <-.
  destruct res1 as [[sequence description]|].
  2:{ destruct Hrun as (-> & _ & ->).
      assert (exists rest, op1 = AddError (uniprot_id +:+ rest) /\ Py.startswith ": " rest = true)
        as (rest & -> & Hrest).
      { destruct r0 as [response|e]; [destruct (status_code response =? 200)%Z|];
          destruct Hop1 as [Hres ->]; [rewrite <- Hres| |]; by eexists. }
      simpl. split; [|done]. repeat constructor. by apply own_message. }
  assert (op1 = IncrementStat sequences_fetched) as ->.
  { destruct r0 as [response|e]; [destruct (status_code response =? 200)%Z|];
      destruct Hop1 as [Hres ->]; [by rewrite <- Hres|done|done]. }
  destruct Hrun as (p0 & w2 & res2 & op2 & Hpost & Hs & Hrun).
  destruct (submit_to_interproscan_cases self uniprot_id sequence w1)
    as (p0' & w2' & res2' & op2' & Hpost' & Hs' & Hop2).
  rewrite Hpost in Hpost'. injection Hpost' as <- <-. rewrite Hs in Hs'. injection Hs' as <- <-.
  destruct p0 as [response|e]; [destruct (status_code response =? 200)%Z eqn:Ecode|];
    destruct Hop2 as [-> ->]; cbn [truthy_opt_str] in Hrun.
  2,3: destruct Hrun as (-> & _ & ->); simpl; rewrite ?Ecode; simpl;
       (split; [|done]); repeat constructor; by apply own_message.
  destruct (Py.truthy_str (Py.strip (text response))) eqn:Ejob.
  2:{ destruct Hrun as (-> & _ & ->). simpl. by rewrite Ecode, Ejob. }
  destruct Hrun as (r3 & l3 & w3 & Hw & Hrun).
  pose proof (wait_for_completion_events _ _ _ _ _ _ _ _ Hw) as (Hb3 & _ & He3)%wait_events_quiet.
  pose proof (wait_for_completion_message _ _ _ _ _ _ _ _ Hw) as Hm3.
  destruct r3 as [r|].
  - destruct Hm3 as [_ Hops3]. destruct Hrun as (_ & l4 & Hsave & -> & ->).
    apply save_results_message in Hsave as (_ & _ & Hops4).
    rewrite !stat_ops_app, !messages_app, Hops3, Hops4.
    rewrite !first_io_error_app, He3. simpl.
    destruct (first_io_error l4); simpl; [|done].
    split; [|done]. repeat constructor. by apply own_message.
  - destruct Hm3 as (rest & Hops3 & Hrest). destruct Hrun as (-> & _ & ->).
    rewrite !stat_ops_app, !messages_app, !existsb_blank_app, Hops3, Hb3. simpl.
    rewrite Ecode, Ejob. simpl. split; [|done]. repeat constructor. by apply own_message.
Qed.

(** X9.  When the submission is answered 200 with a body that is blank once
    stripped, [interproscan_submitted] is incremented, the protein is counted
    as failed, no status is asked for and no message is logged. *)
Theorem blank_job_id_fails_silently
    (self : Pipeline) (fuel : nat) (uniprot_id sequence description : string)
    (w w1 w2 : W) (l1 : list Event) (response : Response) :
  fetch_uniprot_sequence uniprot_id w = Some (Some (sequence, description), l1, w1) ->
  requests_post (interproscan_base_url +:+ "/run") (submission self sequence) w1
    = (Returns response, w2) ->
  status_code response = 200%Z ->
  Py.strip (text response) = "" ->
  exists log,
    process_single_protein self fuel uniprot_id w = Some (false, log, w2) /\
    log = l1 ++ [EvPost (interproscan_base_url +:+ "/run") (submission self sequence)
                   (Returns response);
                 EvStat (IncrementStat interproscan_submitted);
                 EvStat (IncrementStat failed)] /\
    stat_ops log
      = [IncrementStat sequences_fetched; IncrementStat interproscan_submitted;
         IncrementStat failed] /\
    messages (stat_ops log) = [] /\
    observed_statuses log = [].
Proof.
  intros Hf Hpost Hcode Hblank.
  destruct (fetch_uniprot_sequence_ops _ _ _ _ _ Hf) as (_ & Ho1 & [[? _]|[_ Hops1]]); [done|].
  eexists. split; [|split; [reflexivity|]].
  - unfold process_single_protein. mred. rewrite Hf. mred.
    unfold submit_to_interproscan. mred. fold (submission self sequence).
    rewrite Hpost. mred. rewrite Hcode. cbn [Z.eqb Pos.eqb]. mred. rewrite Hblank. cbn. done.
  - rewrite stat_ops_app, observed_statuses_app, Hops1, Ho1. done.
Qed.

End OneRun.

Lemma failures_are_logged_once_witness :
  exists success log w',
    process_single_protein Example.self 120 "P12345" Example.world_blank_job
    = Some (success, log, w') /\
    Forall (fun msg => Py.startswith ("P12345" +:+ ": ") msg = true)
      (messages (stat_ops log)) /\
    length (messages (stat_ops log))
    = if success then match first_io_error log with Some _ => 1 | None => 0 end
      else if existsb blank_job_id log then 0 else 1.
Proof.
  apply (failures_are_logged_once Scripted.now scripted_clock_laws). by vm_compute.
Defined.

Lemma blank_job_id_fails_silently_witness :
  exists log w',
    process_single_protein Example.self 120 "P12345" Example.world_blank_job
    = Some (false, log, w') /\
    stat_ops log
      = [IncrementStat sequences_fetched; IncrementStat interproscan_submitted;
         IncrementStat failed] /\
    messages (stat_ops log) = [] /\
    observed_statuses log = [].
Proof.
  let v := eval vm_compute in (fetch_uniprot_sequence "P12345" Example.world_blank_job) in
  lazymatch v with
  | Some (Some (?s, ?d), ?l1, ?w1) =>
      assert (fetch_uniprot_sequence "P12345" Example.world_blank_job
              = Some (Some (s, d), l1, w1)) as Hf by (by vm_compute);
      destruct (blank_job_id_fails_silently Example.self 120 "P12345" s d
                  Example.world_blank_job w1 Example.idle l1 (mkResponse 200 "  " None)
                  Hf eq_refl eq_refl eq_refl)
        as (log & Hrun & _ & Hops & Hm & Ho)
  end.
  by exists log, Example.idle.
Defined.

(** ** What is saved *)

Section Saved.

Context {W : Type} `{External W}.

(** X10.  [save_results] touches the two files of the protein and no other,
    and the result file only after the sequence file has been written in
    full: whenever the result file was opened, the sequence file holds the
    whole FASTA text. *)
Theorem result_file_comes_second
    (self : Pipeline) (uniprot_id sequence description : string) (results : Json) (w : W) :
  exists log w',
    save_results self uniprot_id sequence description results w = Some (tt, log, w') /\
    Forall (fun path => path = fasta_path self uniprot_id \/ path = json_path self uniprot_id)
      (touched log) /\
    (json_path self uniprot_id ∈ touched log ->
     (exists rest,
         log = written (fasta_path self uniprot_id) (fasta_chunks description sequence) ++ rest) /\
     forall disk,
       replay log disk !! fasta_path self uniprot_id
       = Some (Py.join (fasta_chunks description sequence))).
Proof.
  destruct (save_results_order self uniprot_id sequence description results w)
    as (lf & lj & ls & w' & Hrun & Hf & Hj & Hs & Hfull).
  exists (lf ++ lj ++ ls), w'. split; [done|].
  pose proof (fasta_path_json_path self uniprot_id) as Hne.
  rewrite !touched_app, Hs, app_nil_r. split.
  - apply Forall_app. split; (eapply Forall_impl; [done|]); cbn; auto.
  - intros [Hin|Hin]%elem_of_app.
    { rewrite Forall_forall in Hf. by specialize (Hf _ Hin). }
    assert (lj <> []) as Hlj by (by intros ->; inversion Hin).
    rewrite (Hfull Hlj). split; [by eexists|]. intros disk.
    rewrite replay_app, replay_written, replay_untouched; [apply lookup_insert_eq|].
    rewrite touched_app, Hs, app_nil_r. intros Hin'.
    rewrite Forall_forall in Hj. by specialize (Hj _ Hin').
Qed.

(** X11.  A run that succeeds got an answer 200 from UniProt, submitted the
    sequence parsed from it with the address of the pipeline, asked only for
    the status and the result of the job its own submission started, and
    wrote to the two files of the protein only; when saving did not raise,
    what it saved is that sequence and description and the document it
    retrieved. *)
Theorem successful_run_data_flow
    (self : Pipeline) (fuel : nat) (uniprot_id : string) (w w' : W) (log : list Event) :
  process_single_protein self fuel uniprot_id w = Some (true, log, w') ->
  exists fasta sequence description answer r l3 l4,
    log = [EvGet (uniprot_base_url +:+ uniprot_id +:+ ".fasta") (Returns fasta);
           EvStat (IncrementStat sequences_fetched);
           EvPost (interproscan_base_url +:+ "/run") (submission self sequence)
             (Returns answer);
           EvStat (IncrementStat interproscan_submitted)] ++ l3 ++ l4 /\
    status_code fasta = 200%Z /\
    parse_fasta (text fasta) = Some (sequence, description) /\
    status_code answer = 200%Z /\
    Py.strip (text answer) <> "" /\
    Forall (wait_event (Py.strip (text answer))) l3 /\
    retrieved l3 = [Some r] /\ truthy r = true /\
    Forall (fun path => path = fasta_path self uniprot_id \/ path = json_path self uniprot_id)
      (touched l4) /\
    requested l4 = [] /\
    (first_io_error l4 = None -> l4 = saved self uniprot_id sequence description r).
Proof.
  intros Hrun.
  apply process_single_protein_stages in Hrun as (r0 & w1 & res1 & op1 & Hget & Hf & Hrun).
  destruct (fetch_uniprot_sequence_cases uniprot_id w)
    as (r0' & w1' & res1' & op1' & Hget' & Hf' & Hop1).
  rewrite Hget in Hget'. injection Hget' as <- <-. rewrite Hf in Hf'. injection Hf' as <- <-.
  destruct res1 as [[sequence description]|]; [|by destruct Hrun].
  destruct r0 as [fasta|e]; [|by destruct Hop1].
  destruct (status_code fasta =? 200)%Z eqn:Ecode; [|by destruct Hop1].
  destruct Hop1 as [Hparse Hop]. rewrite <- Hparse in Hop. subst op1.
  destruct Hrun as (p0 & w2 & res2 & op2 & Hpost & Hs & Hrun).
  destruct (submit_to_interproscan_cases self uniprot_id sequence w1)
    as (p0' & w2' & res2' & op2' & Hpost' & Hs' & Hop2).
  rewrite Hpost in Hpost'. injection Hpost' as <- <-. rewrite Hs in Hs'. injection Hs' as <- <-.
  destruct p0 as [answer|e]; [destruct (status_code answer =? 200)%Z eqn:Ecode2|];
    destruct Hop2 as [-> ->]; cbn [truthy_opt_str] in Hrun; try (by destruct Hrun).
  destruct (Py.truthy_str (Py.strip (text answer))) eqn:Ejob; [|by destruct Hrun].
  destruct Hrun as (r3 & l3 & w3 & Hw & Hrun).
  destruct r3 as [r|]; [|by destruct Hrun].
  destruct Hrun as (Htr & l4 & Hsave & _ & ->). cbn [default] in Hw.
  exists fasta, sequence, description, answer, r, l3, l4.
  split; [done|]. split; [by apply Z.eqb_eq|]. split; [done|]. split; [by apply Z.eqb_eq|].
  split; [by destruct (Py.strip (text answer))|].
  split; [by eapply wait_for_completion_events|]. split.
  { apply wait_for_completion_run in Hw as (s & rest & -> & Hloop & _).
    apply wait_loop_run in Hloop as (pre & _ & _ & _ & Hcases). simpl.
    destruct Hcases as [(_ & _ & ? & _)|[(st & _ & _ & _ & ? & _)|(rr & _ & -> & Hrr)]];
      [done|done|].
    destruct (truthy_opt rr); destruct Hrr as [Hr _]; congruence. }
  split; [done|].
  destruct (save_results_order self uniprot_id sequence description r w3)
    as (lf & lj & ls & w4 & Hsave' & Hlf & Hlj & Hls & _).
  rewrite Hsave in Hsave'. injection Hsave' as -> <-.
  destruct (save_results_run self uniprot_id sequence description r w3)
    as (l4' & w4' & Hsave'' & Hst & Hsaved).
  rewrite Hsave in Hsave''. injection Hsave'' as <- <-.
  split; [|split].
  - rewrite !touched_app, Hls, app_nil_r.
    apply Forall_app. split; (eapply Forall_impl; [done|]); cbn; auto.
  - by apply save_stage_quiet in Hst as [_ ?].
  - intros Hno. rewrite Hno in Hsaved. by destruct Hsaved.
Qed.

End Saved.

Lemma successful_run_data_flow_witness :
  exists log w' fasta sequence description answer r l3 l4,
    process_single_protein Example.self 120 "P12345" (Example.world_ok Example.disk_full)
    = Some (true, log, w') /\
    log = [EvGet (uniprot_base_url +:+ "P12345" +:+ ".fasta") (Returns fasta);
           EvStat (IncrementStat sequences_fetched);
           EvPost (interproscan_base_url +:+ "/run") (submission Example.self sequence)
             (Returns answer);
           EvStat (IncrementStat interproscan_submitted)] ++ l3 ++ l4 /\
    parse_fasta (text fasta) = Some (sequence, description) /\
    Forall (wait_event (Py.strip (text answer))) l3 /\
    retrieved l3 = [Some r] /\
    requested l4 = [].
Proof.
  let v := eval vm_compute in
             (process_single_protein Example.self 120 "P12345"
                (Example.world_ok Example.disk_full)) in
  lazymatch v with
  | Some (true, ?log, ?w') =>
      assert (process_single_protein Example.self 120 "P12345"
                (Example.world_ok Example.disk_full) = Some (true, log, w')) as Hrun
        by (by vm_compute);
      destruct (successful_run_data_flow _ _ _ _ _ _ Hrun)
        as (fasta & sequence & description & answer & r & l3 & l4
            & Hlog & _ & Hparse & _ & _ & Hev & Hret & _ & _ & Hreq & _);
      by exists log, w', fasta, sequence, description, answer, r, l3, l4
  end.
Defined.

(** ** The whole run *)

Lemma contains_truthy (c : ascii) (s : string) : Py.contains c s = true -> Py.truthy_str s = true.
Proof. by destruct s. Qed.

Section WholeRun.

Context {W : Type} `{External W}.

Lemma process_proteins_pool (self : Pipeline) (fuel : nat) (uniprot_ids : list string)
    (view : nat -> W) (sch : Schedule) (tasks : list (FutureResult * list Event)) :
  truthy_opt_str (email self) = true ->
  run_tasks self fuel uniprot_ids view = Some tasks ->
  process_proteins self fuel uniprot_ids view sch = Some (inr (pool uniprot_ids tasks sch)).
Proof. intros Hemail Htasks. unfold process_proteins. by rewrite Hemail, Htasks. Qed.

(** X12.  Without an e-mail address [process_proteins] exits with status 1
    before it looks at the input file, and with one it exits with status 1
    when the input file cannot be read.  Called from [main] it never exits on
    the first test: an address that passed the test of [main] is not empty,
    and the run is the run on the identifiers of the file named by the first
    argument. *)
Theorem process_proteins_exits
    (self : Pipeline) (fuel : nat) (file : Outcome string) (view : nat -> W) (sch : Schedule) :
  (truthy_opt_str (email self) = false ->
   process_proteins_file self fuel file view sch = Some (inl 1%Z)) /\
  (forall e, process_proteins_file self fuel (Raises e) view sch = Some (inl 1%Z)) /\
  (forall argv input_file,
      started (main argv) = Some (input_file, self) ->
      argv !! 1 = Some input_file /\
      truthy_opt_str (email self) = true /\
      forall text uniprot_ids,
        read_uniprot_ids (Returns text) = inr uniprot_ids ->
        process_proteins_file self fuel (Returns text) view sch
        = process_proteins self fuel uniprot_ids view sch).
Proof.
  split; [|split].
  - intros Hemail. unfold process_proteins_file. by rewrite Hemail.
  - intros e. unfold process_proteins_file. by destruct (truthy_opt_str (email self)).
  - intros argv input_file. unfold main.
    destruct (length argv <? 3)%nat; [done|].
    destruct (argv !! 1) as [input_file'|]; [|done].
    destruct (argv !! 2) as [output_directory|]; [|done].
    destruct (argv !! 3) as [email_address|]; [|done].
    destruct (Py.contains "@" email_address) eqn:Hat; [|done].
    destruct (Py.contains "." email_address); [|done]. cbn.
    intros [= -> <-]. split; [done|]. cbn [email truthy_opt_str].
    rewrite (contains_truthy _ _ Hat). split; [done|].
    intros text uniprot_ids [= <-]. unfold process_proteins_file, read_uniprot_ids.
    cbn [email truthy_opt_str]. by rewrite (contains_truthy _ _ Hat).
Qed.


(** X14.  With a clock that keeps its laws, at the end of a run of the pool
    the counters keep the order of the stages: no more jobs completed than
    submitted, no more submitted than sequences fetched, no more fetched
    than identifiers; the log holds at most one message for each identifier,
    and each message starts with an identifier of the list and ": ". *)
Theorem summary_counters_are_ordered
    (now : W -> Z) (laws : ClockLaws now) (self : Pipeline) (fuel : nat)
    (uniprot_ids : list string) (view : nat -> W) (sch : Schedule) :
  iterations_needed default_max_wait <= fuel ->
  truthy_opt_str (email self) = true ->
  valid_schedule (length uniprot_ids) sch ->
  exists c0,
    process_proteins self fuel uniprot_ids view sch = Some (inr c0) /\
    (exists c, rtc Locking.step c0 c /\ Locking.finished c = true) /\
    forall c,
      rtc Locking.step c0 c -> Locking.finished c = true ->
      counter (Locking.stats c) interproscan_completed
        <= counter (Locking.stats c) interproscan_submitted /\
      counter (Locking.stats c) interproscan_submitted
        <= counter (Locking.stats c) sequences_fetched /\
      counter (Locking.stats c) sequences_fetched <= counter (Locking.stats c) total /\
      length (errors (Locking.stats c)) <= counter (Locking.stats c) total /\
      Forall (fun msg => exists uniprot_id,
                           uniprot_id ∈ uniprot_ids /\
                           Py.startswith (uniprot_id +:+ ": ") msg = true)
        (errors (Locking.stats c)).
Proof.
  intros Hfuel Hemail Hsch.
  destruct (run_tasks_terminates now laws self fuel uniprot_ids view Hfuel) as [tasks Htasks].
  destruct (run_tasks_counted _ _ _ _ _ Htasks) as [Hn Hcounted].
  exists (pool uniprot_ids tasks sch). split; [by apply process_proteins_pool|].
  split; [apply pool_finishes|]. intros c Hreach Hfin.
  destruct (pool_finished _ _ _ _ Hn Hsch Hreach Hfin) as [Hcount Herr].
  rewrite coordinator_ops_returned, app_nil_r in Hcount, Herr.
  2,3: apply Forall_fmap; (eapply Forall_impl; [exact Hcounted|]);
       intros task (success & Hres & _); by exists success.
  assert (Forall2 (fun uniprot_id task => funnelled uniprot_id (stat_ops task.2))
            uniprot_ids tasks) as Hfun.
  { eapply Forall2_impl; [by apply run_tasks_runs|].
    intros uniprot_id task (i & success & w' & Hrun & _).
    by eapply process_single_protein_funnelled. }
  destruct (tasks_funnelled _ _ Hfun) as (H1 & H2 & H3 & H4 & H5). cbn zeta in *.
  rewrite !Hcount, Herr. repeat split; try done; repeat case_decide; try done; lia.
Qed.

End WholeRun.

(** X15.  The threads [process_proteins] starts, for any outcome of the
    futures: when every task either returned, having counted itself once, or
    raised, having counted nothing, the main thread counts each task that
    raised as failed and logs its exception, so that after any run
    [interproscan_completed + failed] is still [total], the number of
    identifiers. *)
Theorem raised_future_is_counted_failed
    (uniprot_ids : list string) (tasks : list (FutureResult * list Event)) (sch : Schedule)
    (c : Locking.Config) :
  length tasks = length uniprot_ids ->
  valid_schedule (length uniprot_ids) sch ->
  Forall (fun task =>
            counted_once task
            \/ ((exists e, task.1 = Raised e) /\ outcome_free (stat_ops task.2))) tasks ->
  rtc Locking.step (pool uniprot_ids tasks sch) c ->
  Locking.finished c = true ->
  counter (Locking.stats c) total = length uniprot_ids /\
  counter (Locking.stats c) interproscan_completed + counter (Locking.stats c) failed
    = counter (Locking.stats c) total /\
  forall i uniprot_id e log,
    uniprot_ids !! i = Some uniprot_id -> tasks !! i = Some (Raised e, log) ->
    uniprot_id +:+ ": Exception - " +:+ e ∈ errors (Locking.stats c).
Proof.
  intros Hn Hsch Hall Hreach Hfin.
  destruct (pool_finished _ _ _ _ Hn Hsch Hreach Hfin) as [Hcount Herr].
  destruct (tasks_counts_with_raised _ _ Hn Hall) as [Hsum Htotal]. cbn zeta in *.
  rewrite !Hcount, Htotal.
  split; [by rewrite decide_True by done|].
  split; [repeat case_decide; try done; lia|].
  intros i uniprot_id e log Hid Htask. rewrite Herr, messages_app. apply elem_of_app. right.
  eapply raised_message; [done|]. by rewrite list_lookup_fmap, Htask.
Qed.


Lemma summary_counters_are_ordered_witness :
  exists c0,
    process_proteins Example.self 120 Example.uniprot_ids Example.view Example.schedule
      = Some (inr c0) /\
    (exists c, rtc Locking.step c0 c /\ Locking.finished c = true) /\
    forall c,
      rtc Locking.step c0 c -> Locking.finished c = true ->
      counter (Locking.stats c) interproscan_completed
        <= counter (Locking.stats c) interproscan_submitted /\
      counter (Locking.stats c) interproscan_submitted
        <= counter (Locking.stats c) sequences_fetched /\
      counter (Locking.stats c) sequences_fetched <= counter (Locking.stats c) total /\
      length (errors (Locking.stats c)) <= counter (Locking.stats c) total /\
      Forall (fun msg => exists uniprot_id,
                           uniprot_id ∈ Example.uniprot_ids /\
                           Py.startswith (uniprot_id +:+ ": ") msg = true)
        (errors (Locking.stats c)).
Proof.
  apply (summary_counters_are_ordered Scripted.now scripted_clock_laws).
  - vm_compute. lia.
  - reflexivity.
  - split; [reflexivity|]. split; [by repeat constructor|]. apply perm_swap.
Defined.

Lemma raised_future_is_counted_failed_witness :
  let c := Locking.run Example.pool_interleaving
             (pool Example.uniprot_ids Example.futures Example.schedule) in
  Locking.finished c = true /\
  counter (Locking.stats c) total = length Example.uniprot_ids /\
  counter (Locking.stats c) interproscan_completed + counter (Locking.stats c) failed
    = counter (Locking.stats c) total /\
  forall i uniprot_id e log,
    Example.uniprot_ids !! i = Some uniprot_id -> Example.futures !! i = Some (Raised e, log) ->
    uniprot_id +:+ ": Exception - " +:+ e ∈ errors (Locking.stats c).
Proof.
  intros c.
  assert (Locking.finished c = true) as Hfin by (by vm_compute).
  split; [exact Hfin|].
  apply (raised_future_is_counted_failed Example.uniprot_ids Example.futures Example.schedule c).
  - reflexivity.
  - split; [reflexivity|]. split; [by repeat constructor|]. apply perm_swap.
  - constructor; [left; by exists true|]. constructor; [|constructor].
    right. split; [by eexists|done].
  - apply LockingFacts.run_reachable.
  - exact Hfin.
Defined.

(** ** The load on the services *)

Section Load.

Context {W : Type} `{External W}.

(** X16.  With a clock that keeps its laws, a run of [process_single_protein]
    sends one request to UniProt, first of all, and then at most one
    submission, 120 requests for the status and one for the result. *)
Theorem requests_per_protein_are_bounded
    (now : W -> Z) (laws : ClockLaws now) (self : Pipeline) (fuel : nat)
    (uniprot_id : string) (w : W) :
  iterations_needed default_max_wait <= fuel ->
  exists success log w',
    process_single_protein self fuel uniprot_id w = Some (success, log, w') /\
    head (requested log) = Some (uniprot_base_url +:+ uniprot_id +:+ ".fasta") /\
    length (requested log) = 1 + length (observed_statuses log) + length (retrieved log) /\
    length (posted log) <= 1 /\
    length (observed_statuses log) <= 120 /\
    length (retrieved log) <= 1.
Proof.
  intros Hfuel.
  destruct (process_single_protein_terminates now laws self fuel uniprot_id w Hfuel)
    as [[[success log] w'] Hrun].
  exists success, log, w'. split; [done|].
  apply process_single_protein_stages in Hrun as (r0 & w1 & res1 & op1 & _ & _ & Hrun).
  pose proof (fetch_request_read uniprot_id r0) as Hread.
  destruct res1 as [[sequence description]|].
  2:{ destruct Hrun as (_ & _ & ->). destruct (Hread [EvStat op1; EvStat (IncrementStat failed)])
        as [-> ->]. simpl. repeat split; lia. }
  destruct Hrun as (p0 & w2 & res2 & op2 & _ & _ & Hrun).
  destruct (truthy_opt_str res2).
  2:{ destruct Hrun as (_ & _ & ->). destruct (Hread [EvStat (IncrementStat sequences_fetched)])
        as [_ _]. rewrite (proj1 (Hread _)), (proj2 (Hread _)). simpl. repeat split; lia. }
  destruct Hrun as (r3 & l3 & w3 & Hw & Hrun).
  pose proof (wait_for_completion_polls now laws _ _ _ _ _ _ _ _ Hw) as Hpolls.
  assert (iterations_needed default_max_wait = 120) as Hn by done. rewrite Hn in Hpolls.
  pose proof (wait_for_completion_events _ _ _ _ _ _ _ _ Hw) as [Hreq Hpost]%wait_events_requested.
  assert (length (retrieved l3) <= 1) as Hret.
  { apply wait_for_completion_run in Hw as (s & rest & -> & Hloop & _).
    apply wait_loop_run in Hloop as (pre & _ & _ & _ & Hcases). simpl.
    destruct Hcases as [(_ & -> & _)|[(st & _ & _ & -> & _)|(rr & _ & -> & _)]]; cbn; lia. }
  destruct r3 as [r|].
  - destruct Hrun as (_ & l4 & Hsave & _ & ->).
    destruct (save_results_run self uniprot_id sequence description r w3)
      as (l4' & w4 & Hsave' & Hst & _).
    rewrite Hsave in Hsave'. injection Hsave' as <- <-.
    pose proof (save_stage_no_request _ Hst) as [Ho4 Hr4].
    pose proof (save_stage_quiet _ Hst) as [_ Hq4].
    pose proof (save_stage_posts_nothing _ Hst) as Hp4.
    change ([?a; ?b; ?c; ?d] ++ ?l) with (a :: [b; c; d] ++ l).
    rewrite (proj1 (Hread _)), (proj2 (Hread _)).
    change (requested (EvGet ?u ?r :: ?l)) with (u :: requested l).
    change (posted (EvGet ?u ?r :: ?l)) with (posted l).
    rewrite !requested_app, !observed_statuses_app, !retrieved_app, !posted_app.
    rewrite Ho4, Hr4, Hq4, Hp4, Hpost, !app_nil_r. simpl.
    rewrite ?length_app in *. simpl. repeat split; try done; lia.
  - destruct Hrun as (_ & _ & ->).
    change ([?a; ?b; ?c; ?d] ++ ?l) with (a :: [b; c; d] ++ l).
    rewrite (proj1 (Hread _)), (proj2 (Hread _)).
    change (requested (EvGet ?u ?r :: ?l)) with (u :: requested l).
    change (posted (EvGet ?u ?r :: ?l)) with (posted l).
    rewrite !requested_app, !observed_statuses_app, !retrieved_app, !posted_app.
    rewrite Hpost. simpl.
    rewrite ?length_app in *. simpl. repeat split; try done; lia.
Qed.

End Load.

Lemma requests_per_protein_are_bounded_witness :
  exists success log w',
    process_single_protein Example.self 120 "P12345" (Example.world_ok [])
    = Some (success, log, w') /\
    head (requested log) = Some (uniprot_base_url +:+ "P12345" +:+ ".fasta") /\
    length (requested log) = 1 + length (observed_statuses log) + length (retrieved log) /\
    length (posted log) <= 1 /\
    length (observed_statuses log) <= 120 /\
    length (retrieved log) <= 1.
Proof.
  apply (requests_per_protein_are_bounded Scripted.now scripted_clock_laws).
  vm_compute. lia.
Defined.

(** ** The lock *)

(** X17.  In every configuration the threads can reach, the lock is held by
    thread [i] exactly when thread [i] is inside a [with self.lock:] block;
    so the lock is free whenever all threads are done. *)
Theorem lock_is_held_inside_the_block_only
    (s0 : Stats) (programs : list (list StatOp)) (c : Locking.Config) :
  rtc Locking.step (Locking.initial s0 programs) c ->
  (forall i,
      Locking.lock c = Some i
      <-> exists t, Locking.threads c !! i = Some t /\ Locking.phase t <> Locking.Idle) /\
  (Locking.finished c = true -> Locking.lock c = None).
Proof.
  intros Hreach. pose proof (LockingFacts.inv_reachable s0 programs c Hreach) as HI.
  split.
  - intros i. split; [apply (Locking.inv_locked _ _ _ HI)|].
    intros (t & Hi & Hph). by eapply Locking.inv_holder.
  - intros Hfin. destruct (Locking.lock c) as [i|] eqn:Hl; [|done]. exfalso.
    destruct (Locking.inv_locked _ _ _ HI i Hl) as (t & Hi & Hph).
    unfold Locking.finished in Hfin. rewrite forallb_forall in Hfin.
    specialize (Hfin t). unfold Locking.thread_done in Hfin.
    destruct (Locking.phase t); try done.
    all: assert (false = true) as Hf; [|done].
    all: apply Hfin, list_elem_of_In; by eapply list_elem_of_lookup_2.
Qed.

Lemma lock_is_held_inside_the_block_only_witness :
  let c := Locking.run [0; 1; 0] (Locking.initial initial_stats Example.programs) in
  Locking.lock c = Some 0 /\
  (forall i,
      Locking.lock c = Some i
      <-> exists t, Locking.threads c !! i = Some t /\ Locking.phase t <> Locking.Idle) /\
  (Locking.finished c = true -> Locking.lock c = None).
Proof.
  intros c. split; [by vm_compute|].
  apply (lock_is_held_inside_the_block_only initial_stats Example.programs c).
  apply LockingFacts.run_reachable.
Defined.
